(** * Gesture-Flow: the action model, its validator and the execution engine

    A shallow embedding of [src/action_types.py] and [src/action_executor.py]
    (with the two dictionaries of [src/config.py] they read), followed by the
    properties of the action execution engine.

    Conventions of the embedding.
    - Python [int] is [Z]; [float] is [Q] (the code only compares floats with
      zero, tests them for truth and hands them to [time.sleep]); [str] is
      [string], read as a sequence of code points below 256.
    - Field values have the types the dataclasses annotate: [Optional[int]]
      is [option Z], a [List[str]] field defaulting to [None] is
      [option (list string)], [Union[str, List[str]]] is the sum [Keys].
    - An exception is a value of [exn]; code that can raise returns an
      [outcome].  Only subclasses of [Exception] are modelled.
    - pynput, pyautogui, [subprocess], [time] and [datetime] are outside the
      repository: they are the fields of a [Backend] record over an abstract
      world, so every statement holds for every behaviour of the drivers.
    - Calls of the logger are left out.  Threads are not modelled: a
      function is followed from its call to its return, and a work item
      handed to the thread pool is only recorded. *)

From Stdlib Require Import String Ascii List ZArith QArith Lia Bool Arith.
From Stdlib Require Import DecimalString.
Import ListNotations.

Local Open Scope Z_scope.
Local Open Scope list_scope.
Local Open Scope string_scope.

Set Implicit Arguments.

(* ================================================================== *)
(** * Python primitives used by the code *)
(* ================================================================== *)

Module Py.

(** [str(n)] for an [int]. *)
Definition str_of_int (n : Z) : string :=
  NilZero.string_of_int (Z.to_int n).

(** [c.lower()] on one code point below 256: the ASCII capitals and the
    Latin-1 capitals (192..222 except the multiplication sign 215) move by
    32. *)
Definition lower_char (c : ascii) : ascii :=
  let n := nat_of_ascii c in
  if ((65 <=? n) && (n <=? 90))%nat then ascii_of_nat (n + 32)
  else if ((192 <=? n) && (n <=? 222) && negb (n =? 215))%nat
       then ascii_of_nat (n + 32)
  else c.

(** [s.lower()]. *)
Fixpoint lower (s : string) : string :=
  match s with
  | EmptyString => EmptyString
  | String c r => String (lower_char c) (lower r)
  end.

(** [needle in hay] for two strings. *)
Fixpoint contains (needle hay : string) : bool :=
  if String.prefix needle hay then true
  else match hay with
       | EmptyString => false
       | String _ r => contains needle r
       end.

(** [s in l] for a list of strings. *)
Definition mem (s : string) (l : list string) : bool :=
  existsb (String.eqb s) l.

(** [sep.join(l)]. *)
Fixpoint join (sep : string) (l : list string) : string :=
  match l with
  | [] => ""
  | [s] => s
  | s :: r => s ++ sep ++ join sep r
  end.

Definition dquote : ascii := ascii_of_nat 34.

Fixpoint has_char (c : ascii) (s : string) : bool :=
  match s with
  | EmptyString => false
  | String d r => Ascii.eqb c d || has_char c r
  end.

Definition hex_digit (n : nat) : ascii :=
  if (n <? 10)%nat then ascii_of_nat (48 + n) else ascii_of_nat (87 + n).

(** One code point inside [repr(s)], [q] being the quote chosen. *)
Definition repr_char (q c : ascii) : string :=
  let n := nat_of_ascii c in
  if Ascii.eqb c q || Ascii.eqb c "\"%char then String "\"%char (String c "")
  else if (n =? 9)%nat then "\t"
  else if (n =? 10)%nat then "\n"
  else if (n =? 13)%nat then "\r"
  else if ((n <? 32) || ((127 <=? n) && (n <=? 160)) || (n =? 173))%nat
       then String "\"%char (String "x"%char
              (String (hex_digit (n / 16)) (String (hex_digit (n mod 16)) "")))
  else String c "".

Fixpoint repr_body (q : ascii) (s : string) : string :=
  match s with
  | EmptyString => EmptyString
  | String c r => repr_char q c ++ repr_body q r
  end.

(** [repr(s)] for a string: single quotes, unless the string holds a single
    quote and no double quote. *)
Definition repr (s : string) : string :=
  let q := if has_char "'"%char s && negb (has_char dquote s)
           then dquote else "'"%char in
  String q (repr_body q s ++ String q "").

(** [str(l)] for a list of strings. *)
Definition str_of_list (l : list string) : string :=
  "[" ++ join ", " (map repr l) ++ "]".

(** [l[i:]]: a negative index counts from the end, and both ends clamp. *)
Definition slice_from (A : Type) (i : Z) (l : list A) : list A :=
  let n := Z.of_nat (length l) in
  let start := if (i <? 0)%Z then Z.max (n + i) 0 else Z.min i n in
  skipn (Z.to_nat start) l.

(** Truth value of a float, and [f > 0]. *)
Definition truthy_float (f : Q) : bool := negb (Qnum f =? 0)%Z.
Definition float_pos (f : Q) : bool := (0 <? Qnum f)%Z.

End Py.


(* ================================================================== *)
(** * Exceptions *)
(* ================================================================== *)

Inductive exn_class : Type :=
| KeyError | ValueError | TypeError | AttributeError
| FileNotFoundError | PermissionError | OtherException.

(** An exception object: its class and [str(e)]. *)
Record exn : Type := Exn { exn_cls : exn_class; exn_str : string }.

Inductive outcome (A : Type) : Type :=
| Return (a : A)
| Raise (e : exn).
Arguments Return {A} a.
Arguments Raise {A} e.

(* ================================================================== *)
(** * action_types.py: the action model *)
(* ================================================================== *)

Inductive ActionType : Type := MOUSE | KEYBOARD | APPLICATION | MACRO | SYSTEM.

(** [ActionType.value]. *)
Definition ActionType_value (t : ActionType) : string :=
  match t with
  | MOUSE => "mouse" | KEYBOARD => "keyboard" | APPLICATION => "application"
  | MACRO => "macro" | SYSTEM => "system"
  end.

(** [ActionType(s)]: [ValueError] on a string that is no member's value. *)
Definition ActionType_of_value (s : string) : outcome ActionType :=
  if s =? "mouse" then Return MOUSE
  else if s =? "keyboard" then Return KEYBOARD
  else if s =? "application" then Return APPLICATION
  else if s =? "macro" then Return MACRO
  else if s =? "system" then Return SYSTEM
  else Raise (Exn ValueError (Py.repr s ++ " is not a valid ActionType")).

Definition ActionType_eqb (a b : ActionType) : bool :=
  match a, b with
  | MOUSE, MOUSE | KEYBOARD, KEYBOARD | APPLICATION, APPLICATION
  | MACRO, MACRO | SYSTEM, SYSTEM => true
  | _, _ => false
  end.

(** [keys: Union[str, List[str]]]. *)
Inductive Keys : Type :=
| KeysStr (s : string)
| KeysList (l : list string).

(** [str(params.keys)]. *)
Definition Keys_str (k : Keys) : string :=
  match k with
  | KeysStr s => s
  | KeysList l => Py.str_of_list l
  end.

(** The storage form of an action, [Dict[str, Any]]: what [to_dict] builds
    and [from_dict] reads.  A top-level key may be absent ([None] below);
    the value of ['parameters'] is a dictionary given by its items, each a
    keyword of one of the parameter classes with a value of the annotated
    type, or a keyword no class has. *)
Inductive kwarg : Type :=
| kw_x (v : option Z) | kw_y (v : option Z)
| kw_from_x (v : option Z) | kw_from_y (v : option Z)
| kw_to_x (v : option Z) | kw_to_y (v : option Z)
| kw_button (v : string) | kw_clicks (v : Z) | kw_duration (v : Q)
| kw_scroll_direction (v : string) | kw_scroll_amount (v : Z)
| kw_keys (v : Keys) | kw_text (v : string)
| kw_modifiers (v : option (list string)) | kw_interval (v : Q)
| kw_path (v : string) | kw_arguments (v : option (list string))
| kw_working_directory (v : string) | kw_window_title (v : string)
| kw_process_name (v : string)
| kw_sequence (v : option (list ActionData))
| kw_loop_count (v : Z) | kw_delay_between_actions (v : Q)
| kw_other (key : string)
with ActionData : Type :=
| Data (d_id d_type d_subtype : option string)
       (d_parameters : option (list kwarg))
       (d_name d_description : option string)
       (d_enabled d_requires_confirmation : option bool)
       (d_timeout : option Q) (d_created_date : option string).

Definition kwarg_key (k : kwarg) : string :=
  match k with
  | kw_x _ => "x" | kw_y _ => "y" | kw_from_x _ => "from_x"
  | kw_from_y _ => "from_y" | kw_to_x _ => "to_x" | kw_to_y _ => "to_y"
  | kw_button _ => "button" | kw_clicks _ => "clicks"
  | kw_duration _ => "duration"
  | kw_scroll_direction _ => "scroll_direction"
  | kw_scroll_amount _ => "scroll_amount"
  | kw_keys _ => "keys" | kw_text _ => "text"
  | kw_modifiers _ => "modifiers" | kw_interval _ => "interval"
  | kw_path _ => "path" | kw_arguments _ => "arguments"
  | kw_working_directory _ => "working_directory"
  | kw_window_title _ => "window_title"
  | kw_process_name _ => "process_name"
  | kw_sequence _ => "sequence" | kw_loop_count _ => "loop_count"
  | kw_delay_between_actions _ => "delay_between_actions"
  | kw_other key => key
  end.

(** Nesting depth of the macro sequences inside a stored action. *)
Fixpoint data_depth (d : ActionData) : nat :=
  match d with
  | Data _ _ _ ps _ _ _ _ _ _ =>
      match ps with
      | None => O
      | Some kws => list_max (map kwarg_depth kws)
      end
  end
with kwarg_depth (k : kwarg) : nat :=
  match k with
  | kw_sequence (Some l) => S (list_max (map data_depth l))
  | _ => O
  end.

Module MouseActionParameters.
Record t : Type := mk {
  x : option Z; y : option Z;
  from_x : option Z; from_y : option Z;
  to_x : option Z; to_y : option Z;
  button : string; clicks : Z; duration : Q;
  scroll_direction : string; scroll_amount : Z }.
Definition default : t :=
  mk None None None None None None "left" 1 0 "up" 1.
End MouseActionParameters.

Module KeyboardActionParameters.
Record t : Type := mk {
  keys : Keys; text : string;
  modifiers : option (list string); interval : Q }.
Definition default : t := mk (KeysStr "") "" None (5 # 100).
End KeyboardActionParameters.

Module ApplicationActionParameters.
Record t : Type := mk {
  path : string; arguments : option (list string);
  working_directory : string; window_title : string;
  process_name : string }.
Definition default : t := mk "" None "" "" "".
End ApplicationActionParameters.

Module MacroActionParameters.
Record t : Type := mk {
  sequence : option (list ActionData);
  loop_count : Z; delay_between_actions : Q }.
Definition default : t := mk None 1 (1 # 10).
End MacroActionParameters.

(** An instance of [ActionParameters] or of one of its four subclasses.
    Nothing ties the class of [Action.parameters] to [Action.type]; the
    validator asks with [hasattr]. *)
Inductive ActionParameters : Type :=
| BaseParams
| MouseParams (p : MouseActionParameters.t)
| KeyboardParams (p : KeyboardActionParameters.t)
| ApplicationParams (p : ApplicationActionParameters.t)
| MacroParams (p : MacroActionParameters.t).

Definition class_name (p : ActionParameters) : string :=
  match p with
  | BaseParams => "ActionParameters"
  | MouseParams _ => "MouseActionParameters"
  | KeyboardParams _ => "KeyboardActionParameters"
  | ApplicationParams _ => "ApplicationActionParameters"
  | MacroParams _ => "MacroActionParameters"
  end.

(** [asdict(parameters)]. *)
Definition params_asdict (p : ActionParameters) : list kwarg :=
  match p with
  | BaseParams => []
  | MouseParams m =>
      let 'MouseActionParameters.mk a b c d e f g h i j k := m in
      [kw_x a; kw_y b; kw_from_x c; kw_from_y d; kw_to_x e; kw_to_y f;
       kw_button g; kw_clicks h; kw_duration i; kw_scroll_direction j;
       kw_scroll_amount k]
  | KeyboardParams m =>
      let 'KeyboardActionParameters.mk a b c d := m in
      [kw_keys a; kw_text b; kw_modifiers c; kw_interval d]
  | ApplicationParams m =>
      let 'ApplicationActionParameters.mk a b c d e := m in
      [kw_path a; kw_arguments b; kw_working_directory c;
       kw_window_title d; kw_process_name e]
  | MacroParams m =>
      let 'MacroActionParameters.mk a b c := m in
      [kw_sequence a; kw_loop_count b; kw_delay_between_actions c]
  end.

Definition unexpected_keyword (cls : string) (k : kwarg) : exn :=
  Exn TypeError (cls ++ ".__init__() got an unexpected keyword argument '"
                 ++ kwarg_key k ++ "'").

(** The constructor [MouseActionParameters] applied to the unpacked
    dictionary [kw]: the fields not named keep their default, a keyword of
    another class is a [TypeError]; a key listed twice keeps its last value,
    as in a dict built from items. *)
Fixpoint MouseActionParameters_init (kw : list kwarg)
    (p : MouseActionParameters.t) : outcome MouseActionParameters.t :=
  let 'MouseActionParameters.mk a b c d e f g h i j k := p in
  match kw with
  | [] => Return p
  | kw_x v :: r =>
      MouseActionParameters_init r (MouseActionParameters.mk v b c d e f g h i j k)
  | kw_y v :: r =>
      MouseActionParameters_init r (MouseActionParameters.mk a v c d e f g h i j k)
  | kw_from_x v :: r =>
      MouseActionParameters_init r (MouseActionParameters.mk a b v d e f g h i j k)
  | kw_from_y v :: r =>
      MouseActionParameters_init r (MouseActionParameters.mk a b c v e f g h i j k)
  | kw_to_x v :: r =>
      MouseActionParameters_init r (MouseActionParameters.mk a b c d v f g h i j k)
  | kw_to_y v :: r =>
      MouseActionParameters_init r (MouseActionParameters.mk a b c d e v g h i j k)
  | kw_button v :: r =>
      MouseActionParameters_init r (MouseActionParameters.mk a b c d e f v h i j k)
  | kw_clicks v :: r =>
      MouseActionParameters_init r (MouseActionParameters.mk a b c d e f g v i j k)
  | kw_duration v :: r =>
      MouseActionParameters_init r (MouseActionParameters.mk a b c d e f g h v j k)
  | kw_scroll_direction v :: r =>
      MouseActionParameters_init r (MouseActionParameters.mk a b c d e f g h i v k)
  | kw_scroll_amount v :: r =>
      MouseActionParameters_init r (MouseActionParameters.mk a b c d e f g h i j v)
  | other :: _ => Raise (unexpected_keyword "MouseActionParameters" other)
  end.

Fixpoint KeyboardActionParameters_init (kw : list kwarg)
    (p : KeyboardActionParameters.t) : outcome KeyboardActionParameters.t :=
  let 'KeyboardActionParameters.mk a b c d := p in
  match kw with
  | [] => Return p
  | kw_keys v :: r =>
      KeyboardActionParameters_init r (KeyboardActionParameters.mk v b c d)
  | kw_text v :: r =>
      KeyboardActionParameters_init r (KeyboardActionParameters.mk a v c d)
  | kw_modifiers v :: r =>
      KeyboardActionParameters_init r (KeyboardActionParameters.mk a b v d)
  | kw_interval v :: r =>
      KeyboardActionParameters_init r (KeyboardActionParameters.mk a b c v)
  | other :: _ => Raise (unexpected_keyword "KeyboardActionParameters" other)
  end.

Fixpoint ApplicationActionParameters_init (kw : list kwarg)
    (p : ApplicationActionParameters.t)
    : outcome ApplicationActionParameters.t :=
  let 'ApplicationActionParameters.mk a b c d e := p in
  match kw with
  | [] => Return p
  | kw_path v :: r =>
      ApplicationActionParameters_init r (ApplicationActionParameters.mk v b c d e)
  | kw_arguments v :: r =>
      ApplicationActionParameters_init r (ApplicationActionParameters.mk a v c d e)
  | kw_working_directory v :: r =>
      ApplicationActionParameters_init r (ApplicationActionParameters.mk a b v d e)
  | kw_window_title v :: r =>
      ApplicationActionParameters_init r (ApplicationActionParameters.mk a b c v e)
  | kw_process_name v :: r =>
      ApplicationActionParameters_init r (ApplicationActionParameters.mk a b c d v)
  | other :: _ =>
      Raise (unexpected_keyword "ApplicationActionParameters" other)
  end.

Fixpoint MacroActionParameters_init (kw : list kwarg)
    (p : MacroActionParameters.t) : outcome MacroActionParameters.t :=
  let 'MacroActionParameters.mk a b c := p in
  match kw with
  | [] => Return p
  | kw_sequence v :: r =>
      MacroActionParameters_init r (MacroActionParameters.mk v b c)
  | kw_loop_count v :: r =>
      MacroActionParameters_init r (MacroActionParameters.mk a v c)
  | kw_delay_between_actions v :: r =>
      MacroActionParameters_init r (MacroActionParameters.mk a b v)
  | other :: _ => Raise (unexpected_keyword "MacroActionParameters" other)
  end.

Definition bind_outcome (A B : Type) (m : outcome A) (f : A -> outcome B)
    : outcome B :=
  match m with
  | Return a => f a
  | Raise e => Raise e
  end.

Definition map_outcome (A B : Type) (f : A -> B) (m : outcome A) : outcome B :=
  bind_outcome m (fun a => Return (f a)).

(** [d.get(key, default)] on a key that may be absent. *)
Definition get_or (A : Type) (default : A) (o : option A) : A :=
  match o with
  | Some v => v
  | None => default
  end.

Module Action.

Record t : Type := mk {
  id : string;
  type : ActionType;
  subtype : string;
  parameters : ActionParameters;
  name : string;
  description : string;
  enabled : bool;
  requires_confirmation : bool;
  timeout : Q;
  created_date : string }.

(** The dataclass constructor with [__post_init__]: an empty [created_date]
    becomes [now], the reading of [datetime.now().isoformat()]. *)
Definition new (now : string) (id : string) (type : ActionType)
    (subtype : string) (parameters : ActionParameters)
    (name description : string) (enabled requires_confirmation : bool)
    (timeout : Q) (created_date : string) : t :=
  mk id type subtype parameters name description enabled
     requires_confirmation timeout
     (if created_date =? "" then now else created_date).

(** [to_dict]: [asdict(self)] with the enum replaced by its value. *)
Definition to_dict (self : t) : ActionData :=
  Data (Some (id self)) (Some (ActionType_value (type self)))
       (Some (subtype self)) (Some (params_asdict (parameters self)))
       (Some (name self)) (Some (description self))
       (Some (enabled self)) (Some (requires_confirmation self))
       (Some (timeout self)) (Some (created_date self)).

(** [from_dict]. *)
Definition from_dict (now : string) (data : ActionData) : outcome t :=
  let 'Data d_id d_type d_subtype d_parameters d_name d_description
            d_enabled d_requires_confirmation d_timeout d_created_date
    := data in
  match d_type with
  | None => Raise (Exn KeyError "'type'")
  | Some ty =>
  bind_outcome (ActionType_of_value ty) (fun action_type =>
  let params_data := get_or [] d_parameters in
  bind_outcome
    match action_type with
    | MOUSE =>
        map_outcome MouseParams
          (MouseActionParameters_init params_data
             MouseActionParameters.default)
    | KEYBOARD =>
        map_outcome KeyboardParams
          (KeyboardActionParameters_init params_data
             KeyboardActionParameters.default)
    | APPLICATION =>
        map_outcome ApplicationParams
          (ApplicationActionParameters_init params_data
             ApplicationActionParameters.default)
    | MACRO =>
        map_outcome MacroParams
          (MacroActionParameters_init params_data
             MacroActionParameters.default)
    | SYSTEM => Return BaseParams
    end (fun parameters =>
  match d_id with
  | None => Raise (Exn KeyError "'id'")
  | Some i =>
  match d_subtype with
  | None => Raise (Exn KeyError "'subtype'")
  | Some st =>
      Return (new now i action_type st parameters
                (get_or "" d_name) (get_or "" d_description)
                (get_or true d_enabled)
                (get_or false d_requires_confirmation)
                (get_or (5 # 1) d_timeout) (get_or "" d_created_date))
  end end))
  end.

(** Depth of the macro nesting below an action. *)
Definition depth (self : t) : nat :=
  kwarg_depth (kw_sequence
    match parameters self with
    | MacroParams p => MacroActionParameters.sequence p
    | _ => None
    end).

End Action.

(* ================================================================== *)
(** * config.py: the two dictionaries the engine reads *)
(* ================================================================== *)

(** One entry of [ACTION_TYPES_CONFIG]; a key read with [.get] may be
    absent. *)
Module TypeConfig.
Record t : Type := mk {
  enabled : option bool;
  actions : option (list string);
  confirmation_required : option bool;
  dangerous_keys : option (list string);
  allowed_paths : option (list string);
  blocked_paths : option (list string);
  max_sequence_length : option Z }.
End TypeConfig.

(** [ACTION_TYPES_CONFIG], with its five entries. *)
Definition TypesConfig : Type := ActionType -> TypeConfig.t.

Definition ACTION_TYPES_CONFIG : TypesConfig := fun t =>
  match t with
  | MOUSE =>
      TypeConfig.mk (Some true) (Some ["click"; "move_to"; "drag"; "scroll"])
        (Some false) None None None None
  | KEYBOARD =>
      TypeConfig.mk (Some true)
        (Some ["key_press"; "key_combination"; "type_text"]) (Some false)
        (Some ["delete"; "f4"; "alt+f4"; "ctrl+alt+del"]) None None None
  | APPLICATION =>
      TypeConfig.mk (Some true)
        (Some ["launch"; "close"; "focus"; "minimize"; "maximize"])
        (Some true) None (Some []) (Some []) None
  | MACRO =>
      TypeConfig.mk (Some true) (Some ["execute"; "sequence"; "loop"])
        (Some true) None None None (Some 20)
  | SYSTEM =>
      TypeConfig.mk (Some false)
        (Some ["shutdown"; "restart"; "sleep"; "lock"]) (Some true)
        None None None None
  end.

(** The keys of [ACTION_EXECUTION_CONFIG] the executor reads. *)
Module ExecConfig.
Record t : Type := mk {
  async_execution : option bool;
  default_action_delay : option Q;
  max_action_history : option Z }.
End ExecConfig.

(** [ACTION_EXECUTION_CONFIG]: it has no ['max_action_history'] key. *)
Definition ACTION_EXECUTION_CONFIG : ExecConfig.t :=
  ExecConfig.mk (Some true) (Some (1 # 10)) None.

(* ================================================================== *)
(** * action_types.py: ActionValidator *)
(* ================================================================== *)

Section ActionValidator.

Variable config : TypesConfig.
(** The reading of the clock that [from_dict] gives to a stored action
    without a date; no rule of the validator looks at it. *)
Variable now : string.

Definition out_of_range (c : option Z) : bool :=
  match c with
  | Some v => (v <? 0)%Z || (v >? 10000)%Z
  | None => false
  end.

Definition _validate_mouse_action (action : Action.t) : bool * string :=
  let params := Action.parameters action in
  let coordinates :=
    if Py.mem (Action.subtype action) ["click"; "move_to"; "drag"] then
      match params with
      | MouseParams p =>
          if out_of_range (MouseActionParameters.x p)
          then Some "Mouse X coordinate out of reasonable range"
          else if out_of_range (MouseActionParameters.y p)
          then Some "Mouse Y coordinate out of reasonable range"
          else None
      | _ => None
      end
    else None in
  match coordinates with
  | Some msg => (false, msg)
  | None =>
      match params with
      | MouseParams p =>
          if negb (Py.mem (MouseActionParameters.button p)
                     ["left"; "right"; "middle"])
          then (false, "Invalid mouse button: "
                       ++ MouseActionParameters.button p)
          else (true, "")
      | _ => (true, "")
      end
  end.

Definition _validate_keyboard_action (action : Action.t) : bool * string :=
  let params := Action.parameters action in
  let dangerous_keys :=
    get_or [] (TypeConfig.dangerous_keys (config KEYBOARD)) in
  let detected :=
    if Py.mem (Action.subtype action) ["key_press"; "key_combination"] then
      match params with
      | KeyboardParams p =>
          let keys_str := Py.lower (Keys_str (KeyboardActionParameters.keys p)) in
          find (fun dangerous_key =>
                  Py.contains (Py.lower dangerous_key) keys_str)
               dangerous_keys
      | _ => None
      end
    else None in
  match detected with
  | Some dangerous_key =>
      (false, "Dangerous key combination detected: " ++ dangerous_key)
  | None =>
      if (Action.subtype action =? "type_text")
         && match params with
            | KeyboardParams p =>
                (Z.of_nat (String.length (KeyboardActionParameters.text p))
                   >? 1000)%Z
            | _ => false
            end
      then (false, "Text too long (max 1000 characters)")
      else (true, "")
  end.

Definition _validate_application_action (action : Action.t)
    : bool * string :=
  let params := Action.parameters action in
  if Action.subtype action =? "launch" then
    match params with
    | ApplicationParams p =>
        let path := ApplicationActionParameters.path p in
        if path =? "" then
          (false, "Application path is required for launch action")
        else
          let blocked_paths :=
            get_or [] (TypeConfig.blocked_paths (config APPLICATION)) in
          match find (fun blocked_path =>
                        Py.contains (Py.lower blocked_path) (Py.lower path))
                     blocked_paths with
          | Some blocked_path =>
              (false, "Application path is blocked: " ++ blocked_path)
          | None =>
              let allowed_paths :=
                get_or [] (TypeConfig.allowed_paths (config APPLICATION)) in
              match allowed_paths with
              | [] => (true, "")
              | _ :: _ =>
                  if existsb (fun allowed_path =>
                       Py.contains (Py.lower allowed_path) (Py.lower path))
                       allowed_paths
                  then (true, "")
                  else (false, "Application path is not in allowed list")
              end
          end
    | _ => (false, "Application path is required for launch action")
    end
  else (true, "").

Definition _validate_system_action (action : Action.t) : bool * string :=
  if negb (get_or false (TypeConfig.enabled (config SYSTEM)))
  then (false, "System actions are disabled for security")
  else (true, "").

(** The loop of [_validate_macro_action] over [enumerate(params.sequence)],
    [i] being the index reached and [validate] the recursive call. *)
Fixpoint validate_sequence (validate : Action.t -> option (bool * string))
    (i : Z) (l : list ActionData) : option (bool * string) :=
  match l with
  | [] => Some (true, "")
  | action_data :: rest =>
      match Action.from_dict now action_data with
      | Raise e =>
          Some (false, "Invalid action data at position "
                       ++ Py.str_of_int (i + 1) ++ ": " ++ exn_str e)
      | Return sub_action =>
          match validate sub_action with
          | None => None
          | Some (is_valid, error) =>
              if negb is_valid
              then Some (false, "Invalid action at position "
                                ++ Py.str_of_int (i + 1) ++ ": " ++ error)
              else validate_sequence validate (i + 1) rest
          end
      end
  end.

Definition _validate_macro_action
    (validate : Action.t -> option (bool * string)) (action : Action.t)
    : option (bool * string) :=
  match Action.parameters action with
  | MacroParams p =>
      match MacroActionParameters.sequence p with
      | Some (d :: ds) =>
          let sequence := d :: ds in
          let max_length :=
            get_or 20 (TypeConfig.max_sequence_length (config MACRO)) in
          if (Z.of_nat (length sequence) >? max_length)%Z
          then Some (false, "Macro sequence too long (max "
                            ++ Py.str_of_int max_length ++ " actions)")
          else validate_sequence validate 0 sequence
      | _ => Some (true, "")
      end
  | _ => Some (true, "")
  end.

(** [validate_action], the recursion through the stored sub-actions of a
    macro being bounded by [fuel]; [None] when the fuel runs out. *)
Fixpoint validate_action_fuel (fuel : nat) (action : Action.t)
    : option (bool * string) :=
  match fuel with
  | O => None
  | S fuel' =>
      let action_type_config := config (Action.type action) in
      if negb (get_or false (TypeConfig.enabled action_type_config)) then
        Some (false, "Action type '" ++ ActionType_value (Action.type action)
                     ++ "' is disabled")
      else
      let allowed_actions :=
        get_or [] (TypeConfig.actions action_type_config) in
      if negb (Py.mem (Action.subtype action) allowed_actions) then
        Some (false, "Action subtype '" ++ Action.subtype action
                     ++ "' is not allowed for type '"
                     ++ ActionType_value (Action.type action) ++ "'")
      else
      match Action.type action with
      | MOUSE => Some (_validate_mouse_action action)
      | KEYBOARD => Some (_validate_keyboard_action action)
      | APPLICATION => Some (_validate_application_action action)
      | MACRO => _validate_macro_action (validate_action_fuel fuel') action
      | SYSTEM => Some (_validate_system_action action)
      end
  end.

(** [validate_action]: the nesting depth of the action is fuel enough
    ([validate_action_fuel_enough] below). *)
Definition validate_action (action : Action.t) : bool * string :=
  get_or (false, "")
    (validate_action_fuel (S (Action.depth action)) action).

End ActionValidator.

(* ================================================================== *)
(** * action_executor.py: ActionExecutor *)
(* ================================================================== *)

Module ActionExecutionResult.
Record t : Type := mk {
  success : bool;
  message : string;
  execution_time : Q;
  action_id : string;
  error_code : string;
  timestamp : string }.
End ActionExecutionResult.

(** An entry of [execution_history]: the dictionary built by
    [_add_to_history]. *)
Module HistoryEntry.
Record t : Type := mk {
  action : ActionData;
  success : bool;
  message : string;
  execution_time : Q;
  timestamp : string;
  error_code : string }.
End HistoryEntry.

Inductive Library : Type := pynput | pyautogui.

Inductive Routine : Type :=
| mouse_pynput | mouse_pyautogui | keyboard_pynput | keyboard_pyautogui.

(** What an observer of the engine can count: the entries into the
    synchronous primitive, the calls that reach a driver, and the two
    callbacks. *)
Inductive Event : Type :=
| EvDispatch (action : Action.t)
| EvBackend (r : Routine) (subtype : string) (params : ActionParameters)
| EvPopen (cmd : list string) (cwd : option string) (shell : bool)
| EvExecuted (action : Action.t) (result : ActionExecutionResult.t)
| EvFailed (action : Action.t) (result : ActionExecutionResult.t).

(** The drivers and the clock, over a world [W].  The four library
    routines walk pynput or pyautogui through a click, a drag, a key
    sequence...; each is taken whole: it returns its [(bool, str)] pair or
    raises, and leaves a new world. *)
Record Backend (W : Type) : Type := {
  _execute_mouse_action_pynput :
    string -> ActionParameters -> W -> W * outcome (bool * string);
  _execute_mouse_action_pyautogui :
    string -> ActionParameters -> W -> W * outcome (bool * string);
  _execute_keyboard_action_pynput :
    string -> ActionParameters -> W -> W * outcome (bool * string);
  _execute_keyboard_action_pyautogui :
    string -> ActionParameters -> W -> W * outcome (bool * string);
  (** [subprocess.Popen(cmd, cwd=cwd, shell=shell)] *)
  Popen : list string -> option string -> bool -> W -> W * option exn;
  (** [time.sleep], [time.time], [datetime.now().isoformat()] *)
  sleep : Q -> W -> W;
  time : W -> Q;
  now_isoformat : W -> string;
  (** [sys.platform.startswith('win')] *)
  platform_win : bool }.

(** The attributes of the executor that change while it runs, the world,
    and the record of events. *)
Record State (W : Type) : Type := mkState {
  execution_history : list HistoryEntry.t;
  active_futures : list Action.t;
  emergency_stop : bool;
  world : W;
  trace : list Event }.

(** What [execute_action] returns: a future already completed, or the
    future of a work item handed to the thread pool, which will run
    [_execute_action_sync] on the action. *)
Inductive Future : Type :=
| Completed (result : ActionExecutionResult.t)
| Submitted (action : Action.t).

Section ActionExecutor.

Variable W : Type.
Variable backend : Backend W.
Variable config : ExecConfig.t.
Variable types_config : TypesConfig.
Variable input_library : option Library.
(** [on_action_executed] and [on_action_failed]: [None], or a callable that
    returns or raises. *)
Variable on_action_executed on_action_failed :
  option (Action.t -> ActionExecutionResult.t -> W -> W * option exn).

Definition set_world (w : W) (s : State W) : State W :=
  mkState (execution_history s) (active_futures s) (emergency_stop s) w
          (trace s).

Definition log (e : Event) (s : State W) : State W :=
  mkState (execution_history s) (active_futures s) (emergency_stop s)
          (world s) (trace s ++ [e])%list.

Definition do_sleep (d : Q) (s : State W) : State W :=
  set_world (sleep backend d (world s)) s.

(** The constructor of [ActionExecutionResult]; it reads the clock. *)
Definition new_result (s : State W) (success : bool) (message : string)
    (execution_time : Q) (action_id error_code : string)
    : ActionExecutionResult.t :=
  ActionExecutionResult.mk success message execution_time action_id
    error_code (now_isoformat backend (world s)).

Definition call_routine (r : Routine)
    (f : string -> ActionParameters -> W -> W * outcome (bool * string))
    (subtype : string) (params : ActionParameters) (s : State W)
    : State W * outcome (bool * string) :=
  let s1 := log (EvBackend r subtype params) s in
  let (w, o) := f subtype params (world s1) in
  (set_world w s1, o).

Definition _execute_mouse_action (action : Action.t) (s : State W)
    : State W * (bool * string) :=
  let params := Action.parameters action in
  let (s', o) :=
    match input_library with
    | Some pynput =>
        call_routine mouse_pynput (_execute_mouse_action_pynput backend)
          (Action.subtype action) params s
    | Some pyautogui =>
        call_routine mouse_pyautogui
          (_execute_mouse_action_pyautogui backend)
          (Action.subtype action) params s
    | None => (s, Return (false, "No input library available"))
    end in
  match o with
  | Return r => (s', r)
  | Raise e => (s', (false, "Mouse action failed: " ++ exn_str e))
  end.

Definition _execute_keyboard_action (action : Action.t) (s : State W)
    : State W * (bool * string) :=
  let params := Action.parameters action in
  let (s', o) :=
    match input_library with
    | Some pynput =>
        call_routine keyboard_pynput
          (_execute_keyboard_action_pynput backend)
          (Action.subtype action) params s
    | Some pyautogui =>
        call_routine keyboard_pyautogui
          (_execute_keyboard_action_pyautogui backend)
          (Action.subtype action) params s
    | None => (s, Return (false, "No input library available"))
    end in
  match o with
  | Return r => (s', r)
  | Raise e => (s', (false, "Keyboard action failed: " ++ exn_str e))
  end.

Definition no_attribute (params : ActionParameters) (attr : string) : exn :=
  Exn AttributeError ("'" ++ class_name params
                      ++ "' object has no attribute '" ++ attr ++ "'").

Definition _launch_application (params : ActionParameters) (s : State W)
    : State W * outcome (bool * string) :=
  match params with
  | ApplicationParams p =>
      let path := ApplicationActionParameters.path p in
      if path =? "" then (s, Return (false, "Application path is required"))
      else
        let cmd :=
          ([path] ++ get_or [] (ApplicationActionParameters.arguments p))%list in
        let cwd :=
          if ApplicationActionParameters.working_directory p =? "" then None
          else Some (ApplicationActionParameters.working_directory p) in
        let shell := platform_win backend in
        let s1 := log (EvPopen cmd cwd shell) s in
        let (w, raised) := Popen backend cmd cwd shell (world s1) in
        let s2 := set_world w s1 in
        match raised with
        | None => (s2, Return (true, "Application launched: " ++ path))
        | Some e =>
            match exn_cls e with
            | FileNotFoundError =>
                (s2, Return (false, "Application not found: " ++ path))
            | PermissionError =>
                (s2, Return (false, "Permission denied: " ++ path))
            | _ =>
                (s2, Return (false, "Failed to launch application: "
                                    ++ exn_str e))
            end
        end
  | _ => (s, Raise (no_attribute params "path"))
  end.

Definition _close_application (params : ActionParameters)
    : bool * string :=
  (false, "Application close not implemented yet").

Definition _focus_application (params : ActionParameters)
    : bool * string :=
  (false, "Application focus not implemented yet").

Definition _execute_application_action (action : Action.t) (s : State W)
    : State W * (bool * string) :=
  let params := Action.parameters action in
  let (s', o) :=
    if Action.subtype action =? "launch" then _launch_application params s
    else if Action.subtype action =? "close"
    then (s, Return (_close_application params))
    else if Action.subtype action =? "focus"
    then (s, Return (_focus_application params))
    else (s, Return (false, "Unsupported application action: "
                            ++ Action.subtype action)) in
  match o with
  | Return r => (s', r)
  | Raise e => (s', (false, "Application action failed: " ++ exn_str e))
  end.

(** [_add_to_history]: append, then keep the last [max_history] entries by
    the slice [execution_history[-max_history:]]. *)
Definition _add_to_history (action : Action.t)
    (result : ActionExecutionResult.t) (s : State W) : State W :=
  let history_entry :=
    HistoryEntry.mk (Action.to_dict action)
      (ActionExecutionResult.success result)
      (ActionExecutionResult.message result)
      (ActionExecutionResult.execution_time result)
      (ActionExecutionResult.timestamp result)
      (ActionExecutionResult.error_code result) in
  let appended := (execution_history s ++ [history_entry])%list in
  let max_history := get_or 1000 (ExecConfig.max_action_history config) in
  let history :=
    if (Z.of_nat (length appended) >? max_history)%Z
    then Py.slice_from (- max_history) appended
    else appended in
  mkState history (active_futures s) (emergency_stop s) (world s) (trace s).

(** A call of one of the two callbacks, when it is set. *)
Definition call_callback
    (ev : Action.t -> ActionExecutionResult.t -> Event)
    (callback :
       option (Action.t -> ActionExecutionResult.t -> W -> W * option exn))
    (action : Action.t) (result : ActionExecutionResult.t) (s : State W)
    : State W * outcome unit :=
  match callback with
  | None => (s, Return tt)
  | Some f =>
      let s1 := log (ev action result) s in
      let (w, raised) := f action result (world s1) in
      (set_world w s1,
       match raised with
       | None => Return tt
       | Some e => Raise e
       end)
  end.

(** How one pass of the loops of [_execute_macro_action] ends. *)
Inductive loop_exit : Type :=
| Continue (executed_actions : Z)
| Returned (r : bool * string)
| Raised (e : exn).

Section Macro.

(** The recursive call [self._execute_action_sync]. *)
Variable sync :
  Action.t -> State W -> option (State W * outcome ActionExecutionResult.t).

Variable params : MacroActionParameters.t.
Variable total_actions : Z.

(** [for i, action_data in enumerate(params.sequence)], for one [loop]. *)
Fixpoint macro_sequence (loop i : Z) (l : list ActionData)
    (executed_actions : Z) (s : State W) : option (State W * loop_exit) :=
  match l with
  | [] => Some (s, Continue executed_actions)
  | action_data :: rest =>
      if emergency_stop s then
        Some (s, Returned
                   (false, "Macro stopped by emergency stop after "
                           ++ Py.str_of_int executed_actions ++ " actions"))
      else
      match Action.from_dict (now_isoformat backend (world s)) action_data with
      | Raise e => Some (s, Raised e)
      | Return sub_action =>
          match sync sub_action s with
          | None => None
          | Some (s1, Raise e) => Some (s1, Raised e)
          | Some (s1, Return result) =>
              let executed_actions := executed_actions + 1 in
              if negb (ActionExecutionResult.success result) then
                Some (s1, Returned
                  (false, "Macro failed at action " ++ Py.str_of_int (i + 1)
                          ++ " (loop " ++ Py.str_of_int (loop + 1) ++ "): "
                          ++ ActionExecutionResult.message result))
              else
                let delay :=
                  if Py.truthy_float
                       (MacroActionParameters.delay_between_actions params)
                  then MacroActionParameters.delay_between_actions params
                  else get_or (1 # 10)
                         (ExecConfig.default_action_delay config) in
                let s2 :=
                  if Py.float_pos delay
                     && (executed_actions <? total_actions)%Z
                  then do_sleep delay s1 else s1 in
                macro_sequence loop (i + 1) rest executed_actions s2
          end
      end
  end.

(** [for loop in range(params.loop_count)]: [n] passes are left, [loop] is
    the index of the next one. *)
Fixpoint macro_loops (n : nat) (loop : Z) (sequence : list ActionData)
    (executed_actions : Z) (s : State W) : option (State W * loop_exit) :=
  match n with
  | O => Some (s, Continue executed_actions)
  | S n' =>
      match macro_sequence loop 0 sequence executed_actions s with
      | Some (s1, Continue executed_actions) =>
          macro_loops n' (loop + 1) sequence executed_actions s1
      | other => other
      end
  end.

End Macro.

Definition _execute_macro_action
    (sync : Action.t -> State W ->
            option (State W * outcome ActionExecutionResult.t))
    (action : Action.t) (s : State W)
    : option (State W * outcome (bool * string)) :=
  match Action.parameters action with
  | MacroParams params =>
      match MacroActionParameters.sequence params with
      | None | Some [] => Some (s, Return (false, "Macro sequence is empty"))
      | Some sequence =>
          let total_actions :=
            (Z.of_nat (length sequence)
             * MacroActionParameters.loop_count params)%Z in
          match macro_loops sync params total_actions
                  (Z.to_nat (MacroActionParameters.loop_count params)) 0
                  sequence 0 s with
          | None => None
          | Some (s', Continue executed_actions) =>
              Some (s', Return (true, "Macro executed successfully: "
                                      ++ Py.str_of_int executed_actions
                                      ++ " actions"))
          | Some (s', Returned r) => Some (s', Return r)
          | Some (s', Raised e) =>
              Some (s', Return (false, "Macro execution failed: "
                                       ++ exn_str e))
          end
      end
  | other => Some (s, Raise (no_attribute other "sequence"))
  end.

(** The [except Exception] clause of [_execute_action_sync]. *)
Definition sync_handler (action : Action.t) (start_time : Q) (e : exn)
    (s : State W) : State W * outcome ActionExecutionResult.t :=
  let execution_time := (time backend (world s) - start_time)%Q in
  let error_message := "Execution error: " ++ exn_str e in
  let result :=
    new_result s false error_message execution_time (Action.id action)
      "EXECUTION_ERROR" in
  let s1 := _add_to_history action result s in
  let (s2, called) := call_callback EvFailed on_action_failed action result s1 in
  match called with
  | Return _ => (s2, Return result)
  | Raise e' => (s2, Raise e')
  end.

(** The head of the [try] block of [_execute_action_sync]: the default
    delay.  The entry into the primitive is recorded first. *)
Definition sync_enter (action : Action.t) (s : State W) : State W :=
  let s := log (EvDispatch action) s in
  let default_delay :=
    get_or (1 # 10) (ExecConfig.default_action_delay config) in
  if Py.float_pos default_delay then do_sleep default_delay s else s.

(** The branch on [action.type]; [sync] is the recursive call that
    [_execute_macro_action] makes. *)
Definition sync_branch
    (sync : Action.t -> State W ->
            option (State W * outcome ActionExecutionResult.t))
    (action : Action.t) (s1 : State W)
    : option (State W * outcome (bool * string)) :=
  match Action.type action with
  | MOUSE =>
      let (s2, r) := _execute_mouse_action action s1 in Some (s2, Return r)
  | KEYBOARD =>
      let (s2, r) := _execute_keyboard_action action s1 in Some (s2, Return r)
  | APPLICATION =>
      let (s2, r) := _execute_application_action action s1 in
      Some (s2, Return r)
  | MACRO => _execute_macro_action sync action s1
  | SYSTEM =>
      Some (s1, Return (false, "Unsupported action type: "
                               ++ ActionType_value (Action.type action)))
  end.

(** What follows the branch: the result, the history, the callback; an
    exception of the branch or of the callback goes to the handler. *)
Definition sync_finish (action : Action.t) (start_time : Q)
    (s2 : State W) (o : outcome (bool * string))
    : State W * outcome ActionExecutionResult.t :=
  match o with
  | Raise e => sync_handler action start_time e s2
  | Return (success, message) =>
      let execution_time := (time backend (world s2) - start_time)%Q in
      let result :=
        new_result s2 success message execution_time (Action.id action) "" in
      let s3 := _add_to_history action result s2 in
      let (s4, called) :=
        if success
        then call_callback EvExecuted on_action_executed action result s3
        else call_callback EvFailed on_action_failed action result s3 in
      match called with
      | Return _ => (s4, Return result)
      | Raise e => sync_handler action start_time e s4
      end
  end.

(** [_execute_action_sync], the recursion through the sub-actions of a
    macro being bounded by [fuel]; [None] when the fuel runs out. *)
Fixpoint _execute_action_sync_fuel (fuel : nat) (action : Action.t)
    (s : State W) : option (State W * outcome ActionExecutionResult.t) :=
  match fuel with
  | O => None
  | S fuel' =>
      let start_time := time backend (world s) in
      match sync_branch (_execute_action_sync_fuel fuel') action
              (sync_enter action s) with
      | None => None
      | Some (s2, o) => Some (sync_finish action start_time s2 o)
      end
  end.

(** [_execute_action_sync]: the nesting depth of the action is fuel enough
    ([sync_fuel_enough] below), so the last branch is never taken. *)
Definition _execute_action_sync (action : Action.t) (s : State W)
    : State W * outcome ActionExecutionResult.t :=
  match _execute_action_sync_fuel (S (Action.depth action)) action s with
  | Some r => r
  | None => (s, Raise (Exn OtherException "recursion bound"))
  end.

(** [execute_action]; [async_execution] is the optional override. *)
Definition execute_action (action : Action.t)
    (async_execution : option bool) (s : State W)
    : State W * outcome Future :=
  let async_execution :=
    match async_execution with
    | None => get_or true (ExecConfig.async_execution config)
    | Some b => b
    end in
  let (is_valid, error_message) :=
    validate_action types_config (now_isoformat backend (world s)) action in
  if negb is_valid then
    (s, Return (Completed
          (new_result s false ("Validation failed: " ++ error_message) 0
             (Action.id action) "VALIDATION_ERROR")))
  else if emergency_stop s then
    (s, Return (Completed
          (new_result s false "Emergency stop activated" 0
             (Action.id action) "EMERGENCY_STOP")))
  else if async_execution then
    (mkState (execution_history s) (active_futures s ++ [action])%list
             (emergency_stop s) (world s) (trace s),
     Return (Submitted action))
  else
    let (s', o) := _execute_action_sync action s in
    (s', map_outcome Completed o).

Definition emergency_stop_all (s : State W) : State W :=
  mkState (execution_history s) (active_futures s) true (world s) (trace s).

Definition resume_execution (s : State W) : State W :=
  mkState (execution_history s) (active_futures s) false (world s) (trace s).

Definition get_execution_history (limit : Z) (s : State W)
    : list HistoryEntry.t :=
  Py.slice_from (- limit) (execution_history s).

Definition clear_execution_history (s : State W) : State W :=
  mkState [] (active_futures s) (emergency_stop s) (world s) (trace s).

End ActionExecutor.

(* ================================================================== *)
(** * Observations on a run *)
(* ================================================================== *)

(** The class of [a.parameters] is the one [from_dict] builds for
    [a.type]; for the reserved type [system] it builds the base class and
    drops whatever was stored. *)
Definition class_matches (a : Action.t) : bool :=
  match Action.type a, Action.parameters a with
  | MOUSE, MouseParams _ | KEYBOARD, KeyboardParams _
  | APPLICATION, ApplicationParams _ | MACRO, MacroParams _
  | SYSTEM, _ => true
  | _, _ => false
  end.

Definition is_dispatch (e : Event) : bool :=
  match e with EvDispatch _ => true | _ => false end.

Definition is_backend_call (e : Event) : bool :=
  match e with EvBackend _ _ _ | EvPopen _ _ _ => true | _ => false end.

Definition is_callback (e : Event) : bool :=
  match e with EvExecuted _ _ | EvFailed _ _ => true | _ => false end.

(** The entries into the synchronous primitive, the driver calls and the
    callback calls recorded in a trace. *)
Definition dispatches (tr : list Event) : list Event := filter is_dispatch tr.
Definition backend_calls (tr : list Event) : list Event :=
  filter is_backend_call tr.
Definition callbacks (tr : list Event) : list Event := filter is_callback tr.

(** What a step of a driver wrapper leaves alone: the interlock and the
    history; and it adds no entry into the primitive and no callback call
    to the trace. *)
Definition quiet (W : Type) (s s' : State W) : Prop :=
  emergency_stop s' = emergency_stop s /\
  execution_history s' = execution_history s /\
  dispatches (trace s') = dispatches (trace s) /\
  callbacks (trace s') = callbacks (trace s).

(** A callback that is unset, or returns whenever it is called. *)
Definition callback_returns (W : Type)
    (callback :
       option (Action.t -> ActionExecutionResult.t -> W -> W * option exn))
    : Prop :=
  forall f, callback = Some f -> forall a r w, snd (f a r w) = None.

(** The one callback call that a result asks for, when that callback is
    set. *)
Definition expected_callback (W : Type)
    (on_action_executed on_action_failed :
       option (Action.t -> ActionExecutionResult.t -> W -> W * option exn))
    (action : Action.t) (result : ActionExecutionResult.t) : list Event :=
  if ActionExecutionResult.success result
  then match on_action_executed with
       | Some _ => [EvExecuted action result]
       | None => []
       end
  else match on_action_failed with
       | Some _ => [EvFailed action result]
       | None => []
       end.

(** The history entry of a pair [(action, result)]. *)
Definition history_entry (action : Action.t)
    (result : ActionExecutionResult.t) : HistoryEntry.t :=
  HistoryEntry.mk (Action.to_dict action)
    (ActionExecutionResult.success result)
    (ActionExecutionResult.message result)
    (ActionExecutionResult.execution_time result)
    (ActionExecutionResult.timestamp result)
    (ActionExecutionResult.error_code result).



(* ================================================================== *)
(** * Scenarios: a stub backend and concrete actions *)
(* ================================================================== *)

Module Scenario.

Definition clock : string := "2025-01-01T00:00:00".

(** A backend whose routines all succeed. *)
Definition stub : Backend unit :=
  {| _execute_mouse_action_pynput := fun _ _ w => (w, Return (true, "done"));
     _execute_mouse_action_pyautogui := fun _ _ w => (w, Return (true, "done"));
     _execute_keyboard_action_pynput := fun _ _ w => (w, Return (true, "done"));
     _execute_keyboard_action_pyautogui :=
       fun _ _ w => (w, Return (true, "done"));
     Popen := fun _ _ _ w => (w, None);
     sleep := fun _ w => w;
     time := fun _ => 0%Q;
     now_isoformat := fun _ => clock;
     platform_win := false |}.

(** A backend whose pynput mouse routine raises. *)
Definition broken_mouse : Backend unit :=
  {| _execute_mouse_action_pynput :=
       fun _ _ w => (w, Raise (Exn OtherException "no display"));
     _execute_mouse_action_pyautogui := fun _ _ w => (w, Return (true, "done"));
     _execute_keyboard_action_pynput := fun _ _ w => (w, Return (true, "done"));
     _execute_keyboard_action_pyautogui :=
       fun _ _ w => (w, Return (true, "done"));
     Popen := fun _ _ _ w => (w, None);
     sleep := fun _ w => w;
     time := fun _ => 0%Q;
     now_isoformat := fun _ => clock;
     platform_win := false |}.

Definition idle : State unit := mkState [] [] false tt [].
Definition stopped : State unit :=
  mkState [] [] true tt [].

Definition no_callback
    : option (Action.t -> ActionExecutionResult.t -> unit -> unit * option exn)
  := None.

(** A callback that raises. *)
Definition raising_callback
    : option (Action.t -> ActionExecutionResult.t -> unit -> unit * option exn)
  := Some (fun _ _ w => (w, Some (Exn OtherException "callback failed"))).

(** A callback that returns. *)
Definition quiet_callback
    : option (Action.t -> ActionExecutionResult.t -> unit -> unit * option exn)
  := Some (fun _ _ w => (w, None)).

Definition action (id : string) (type : ActionType) (subtype : string)
    (parameters : ActionParameters) : Action.t :=
  Action.mk id type subtype parameters "" "" true false (5 # 1) clock.

(** [{type=mouse, subtype=click, button=left, clicks=1}]. *)
Definition click : Action.t :=
  action "click-1" MOUSE "click" (MouseParams MouseActionParameters.default).


(** A click at an abscissa outside the range. *)
Definition far_click : Action.t :=
  action "click-2" MOUSE "click"
    (MouseParams
       (MouseActionParameters.mk (Some 10001) (Some 5) None None None None
          "left" 1 0 "up" 1)).

(** [{type=keyboard, subtype=key_combination, keys=["f4"],
    modifiers=["alt"]}]. *)
Definition alt_f4 : Action.t :=
  action "keys-1" KEYBOARD "key_combination"
    (KeyboardParams
       (KeyboardActionParameters.mk (KeysList ["f4"]) "" (Some ["alt"])
          (5 # 100))).

(** The shipped configuration with the deny-list cut down to the one entry
    ["alt+f4"]. *)
Definition deny_alt_f4 : TypesConfig := fun t =>
  match t with
  | KEYBOARD =>
      TypeConfig.mk (Some true)
        (Some ["key_press"; "key_combination"; "type_text"]) (Some false)
        (Some ["alt+f4"]) None None None
  | other => ACTION_TYPES_CONFIG other
  end.

(** An application action that every dispatch fails: [close] is a
    placeholder. *)
Definition close_app : Action.t :=
  action "app-1" APPLICATION "close"
    (ApplicationParams ApplicationActionParameters.default).

(** An action of the reserved type, which the shipped policy disables. *)
Definition lock_screen : Action.t :=
  action "sys-1" SYSTEM "lock" BaseParams.

(** A mouse action that carries keyboard parameters. *)
Definition mismatched : Action.t :=
  action "odd-1" MOUSE "click"
    (KeyboardParams KeyboardActionParameters.default).

(** A macro action with no parameters object of its own class. *)
Definition bare_macro : Action.t :=
  action "macro-0" MACRO "sequence" BaseParams.

Definition empty_macro : Action.t :=
  action "macro-1" MACRO "sequence"
    (MacroParams (MacroActionParameters.mk (Some []) 1 (1 # 10))).

(** [loopCount=2], three steps, the second of which always fails. *)
Definition three_steps : Action.t :=
  action "macro-2" MACRO "sequence"
    (MacroParams
       (MacroActionParameters.mk
          (Some [Action.to_dict click; Action.to_dict close_app;
                 Action.to_dict click])
          2 (1 # 10))).

(** An execution configuration that sets the history bound. *)
Definition history_bound (n : Z) : ExecConfig.t :=
  ExecConfig.mk (Some true) (Some (1 # 10)) (Some n).

Definition done : ActionExecutionResult.t :=
  ActionExecutionResult.mk true "done" 0 "click-1" "" clock.

End Scenario.

(* ================================================================== *)
(** * action_types.py: the rest of the model *)
(* ================================================================== *)

(** The parameter class a keyword belongs to, named by the action type
    that [from_dict] pairs the class with. *)
Definition kwarg_class (k : kwarg) : option ActionType :=
  match k with
  | kw_x _ | kw_y _ | kw_from_x _ | kw_from_y _ | kw_to_x _ | kw_to_y _
  | kw_button _ | kw_clicks _ | kw_duration _ | kw_scroll_direction _
  | kw_scroll_amount _ => Some MOUSE
  | kw_keys _ | kw_text _ | kw_modifiers _ | kw_interval _ => Some KEYBOARD
  | kw_path _ | kw_arguments _ | kw_working_directory _ | kw_window_title _
  | kw_process_name _ => Some APPLICATION
  | kw_sequence _ | kw_loop_count _ | kw_delay_between_actions _ => Some MACRO
  | kw_other _ => None
  end.

Definition kwarg_fits (t : ActionType) (k : kwarg) : bool :=
  match t, kwarg_class k with
  | SYSTEM, _ => true
  | _, Some c => ActionType_eqb t c
  | _, None => false
  end.

(** [class_matches], with the base class only for the type system: the
    actions that [from_dict] can build. *)
Definition class_is_built (a : Action.t) : bool :=
  match Action.type a, Action.parameters a with
  | MOUSE, MouseParams _ | KEYBOARD, KeyboardParams _
  | APPLICATION, ApplicationParams _ | MACRO, MacroParams _
  | SYSTEM, BaseParams => true
  | _, _ => false
  end.

(** The keys of [ACTION_EXECUTION_CONFIG['require_confirmation']] that the
    validator reads. *)
Module RequireConfirmation.
Record t : Type := mk {
  application_launch : option bool;
  system_commands : option bool }.
End RequireConfirmation.

(** The shipped dictionary. *)
Definition REQUIRE_CONFIRMATION : RequireConfirmation.t :=
  RequireConfirmation.mk (Some true) (Some true).

(** [ActionValidator.requires_confirmation]. *)
Definition requires_confirmation (config : TypesConfig)
    (confirmation_config : RequireConfirmation.t) (action : Action.t) : bool :=
  let action_type_config := config (Action.type action) in
  if get_or false (TypeConfig.confirmation_required action_type_config)
  then true
  else if Action.requires_confirmation action then true
  else if ActionType_eqb (Action.type action) APPLICATION
          && get_or false
               (RequireConfirmation.application_launch confirmation_config)
  then true
  else if ActionType_eqb (Action.type action) SYSTEM
          && get_or false
               (RequireConfirmation.system_commands confirmation_config)
  then true
  else false.

(** The storage form of a mapping: the dictionary of
    [GestureActionMapping.to_dict]; a key may be absent, and
    ['context_filters'] may hold [None]. *)
Module MappingData.
Record t : Type := mk {
  id : option string;
  gesture_name : option string;
  gesture_type : option string;
  action : option ActionData;
  enabled : option bool;
  priority : option Z;
  context_filters : option (option (list string));
  created_date : option string;
  last_used : option string;
  use_count : option Z }.
End MappingData.

Module GestureActionMapping.

Record t : Type := mk {
  id : string;
  gesture_name : string;
  gesture_type : string;
  action : Action.t;
  enabled : bool;
  priority : Z;
  context_filters : option (list string);
  created_date : string;
  last_used : string;
  use_count : Z }.

(** The dataclass constructor with [__post_init__]. *)
Definition new (now : string) (id gesture_name gesture_type : string)
    (action : Action.t) (enabled : bool) (priority : Z)
    (context_filters : option (list string))
    (created_date last_used : string) (use_count : Z) : t :=
  mk id gesture_name gesture_type action enabled priority
     (Some (get_or [] context_filters))
     (if created_date =? "" then now else created_date) last_used use_count.

(** [to_dict]: [asdict(self)], the action replaced by [action.to_dict()]. *)
Definition to_dict (self : t) : MappingData.t :=
  MappingData.mk (Some (id self)) (Some (gesture_name self))
    (Some (gesture_type self)) (Some (Action.to_dict (action self)))
    (Some (enabled self)) (Some (priority self))
    (Some (context_filters self)) (Some (created_date self))
    (Some (last_used self)) (Some (use_count self)).

(** [from_dict]; [now_action] and [now] are the two readings of the clock,
    one in each [__post_init__]. *)
Definition from_dict (now_action now : string) (data : MappingData.t)
    : outcome t :=
  match MappingData.action data with
  | None => Raise (Exn KeyError "'action'")
  | Some action_data =>
  bind_outcome (Action.from_dict now_action action_data) (fun action =>
  match MappingData.id data with
  | None => Raise (Exn KeyError "'id'")
  | Some i =>
  match MappingData.gesture_name data with
  | None => Raise (Exn KeyError "'gesture_name'")
  | Some gn =>
  match MappingData.gesture_type data with
  | None => Raise (Exn KeyError "'gesture_type'")
  | Some gt =>
      Return (new now i gn gt action
                (get_or true (MappingData.enabled data))
                (get_or 0 (MappingData.priority data))
                (get_or (Some []) (MappingData.context_filters data))
                (get_or "" (MappingData.created_date data))
                (get_or "" (MappingData.last_used data))
                (get_or 0 (MappingData.use_count data)))
  end end end)
  end.

End GestureActionMapping.

(* ================================================================== *)
(** * action_mapping_manager.py: the mappings of the current profile *)
(* ================================================================== *)

(** [self.mappings], a dict from mapping id to mapping, in insertion
    order. *)
Definition Mappings : Type := list (string * GestureActionMapping.t).

(** [key in d], [d[key] = value] and [del d[key]] on such a dict. *)
Definition dict_has (A : Type) (key : string) (d : list (string * A)) : bool :=
  existsb (fun kv => fst kv =? key) d.

Fixpoint dict_set (A : Type) (key : string) (value : A)
    (d : list (string * A)) : list (string * A) :=
  match d with
  | [] => [(key, value)]
  | (k, v) :: rest =>
      if k =? key then (k, value) :: rest
      else (k, v) :: dict_set key value rest
  end.

Definition dict_del (A : Type) (key : string) (d : list (string * A))
    : list (string * A) :=
  filter (fun kv => negb (fst kv =? key)) d.

Section ActionMappingManager.

Variable types_config : TypesConfig.

Definition gesture_matches (gesture_name gesture_type : string)
    (mapping : GestureActionMapping.t) : bool :=
  (GestureActionMapping.gesture_name mapping =? gesture_name)
  && (GestureActionMapping.gesture_type mapping =? gesture_type)
  && GestureActionMapping.enabled mapping.

(** [get_mapping_for_gesture]. *)
Definition get_mapping_for_gesture (gesture_name gesture_type : string)
    (mappings : Mappings) : option GestureActionMapping.t :=
  find (gesture_matches gesture_name gesture_type) (map snd mappings).

(** [add_mapping]; [now] is the reading of the clock and [mapping_id] the
    value of [str(uuid.uuid4())].  Returns the id, or [None], and the
    mappings after the call.  Saving the profile to its file is left
    out. *)
Definition add_mapping (now mapping_id : string)
    (gesture_name gesture_type : string) (action : Action.t)
    (mappings : Mappings) : option string * Mappings :=
  let (is_valid, error_message) := validate_action types_config now action in
  if negb is_valid then (None, mappings)
  else
    match get_mapping_for_gesture gesture_name gesture_type mappings with
    | Some _ => (None, mappings)
    | None =>
        let mapping :=
          GestureActionMapping.new now mapping_id gesture_name gesture_type
            action true 0 None "" "" 0 in
        (Some mapping_id, dict_set mapping_id mapping mappings)
    end.

(** [remove_mapping]. *)
Definition remove_mapping (mapping_id : string) (mappings : Mappings)
    : bool * Mappings :=
  if negb (dict_has mapping_id mappings) then (false, mappings)
  else (true, dict_del mapping_id mappings).

(** [record_action_usage]. *)
Definition record_action_usage (now mapping_id : string)
    (mappings : Mappings) : Mappings :=
  map (fun kv =>
         let (k, m) := kv : string * GestureActionMapping.t in
         if k =? mapping_id then
           (k, GestureActionMapping.mk
                 (GestureActionMapping.id m)
                 (GestureActionMapping.gesture_name m)
                 (GestureActionMapping.gesture_type m)
                 (GestureActionMapping.action m)
                 (GestureActionMapping.enabled m)
                 (GestureActionMapping.priority m)
                 (GestureActionMapping.context_filters m)
                 (GestureActionMapping.created_date m)
                 now
                 (GestureActionMapping.use_count m + 1)%Z)
         else (k, m))
      mappings.

End ActionMappingManager.

(** The keys of a dict are distinct. *)
Definition dict_ok (A : Type) (d : list (string * A)) : Prop :=
  NoDup (map fst d).

(** At most one enabled mapping answers for a gesture: of two entries of
    the dict that are enabled and carry the same gesture name and type,
    there is only one. *)
Definition one_mapping_per_gesture (mappings : Mappings) : Prop :=
  forall gesture_name gesture_type,
    (length (filter (gesture_matches gesture_name gesture_type)
               (map snd mappings)) <= 1)%nat.

(* ================================================================== *)
(** * action_executor.py: the constructor and the choice of a library *)
(* ================================================================== *)

(** [_initialize_libraries].  [failsafe_enabled] is the attribute of that
    name, [None] while the constructor has not set it; creating the
    controllers and setting the pyautogui switches are left out.  Returns
    the value given to [self.input_library]. *)
Definition _initialize_libraries (library_preference : string)
    (PYNPUT_AVAILABLE PYAUTOGUI_AVAILABLE : bool)
    (failsafe_enabled : option bool) : outcome Library :=
  let read_failsafe :=
    match failsafe_enabled with
    | Some _ => Return pyautogui
    | None =>
        Raise (Exn AttributeError
                 "'ActionExecutor' object has no attribute 'failsafe_enabled'")
    end in
  if (library_preference =? "pynput") && PYNPUT_AVAILABLE then Return pynput
  else if (library_preference =? "pyautogui") && PYAUTOGUI_AVAILABLE
  then read_failsafe
  else if PYNPUT_AVAILABLE then Return pynput
  else if PYAUTOGUI_AVAILABLE then read_failsafe
  else Raise (Exn OtherException
         "No input automation library available. Install pynput or pyautogui.").

(** [ActionExecutor.__init__]: it calls [_initialize_libraries] before it
    sets [self.failsafe_enabled].  [input_library] is the key of that name
    in the configuration (read with the default ['pynput']); the result is
    the library and the state of a new executor in the world [w].  The
    set-up of the log file, of the queue and of the thread pool is left
    out: the model is of a constructor whose environment lets these
    through. *)
Definition ActionExecutor_init (W : Type) (input_library : option string)
    (PYNPUT_AVAILABLE PYAUTOGUI_AVAILABLE : bool) (w : W)
    : outcome (Library * State W) :=
  bind_outcome
    (_initialize_libraries (get_or "pynput" input_library) PYNPUT_AVAILABLE
       PYAUTOGUI_AVAILABLE None)
    (fun library => Return (library, mkState [] [] false w [])).

(* ================================================================== *)
(** * More scenarios *)
(* ================================================================== *)

Module Cases.

(** The shipped policy with the two path lists of the application type
    set. *)
Definition with_paths (blocked allowed : list string) : TypesConfig :=
  fun t =>
    match t with
    | APPLICATION =>
        TypeConfig.mk (Some true)
          (Some ["launch"; "close"; "focus"; "minimize"; "maximize"])
          (Some true) None (Some allowed) (Some blocked) None
    | other => ACTION_TYPES_CONFIG other
    end.

Definition launch (path : string) (arguments : list string) : Action.t :=
  Scenario.action "app-2" APPLICATION "launch"
    (ApplicationParams
       (ApplicationActionParameters.mk path (Some arguments) "" "" "")).

Definition type_text (text : string) : Action.t :=
  Scenario.action "keys-2" KEYBOARD "type_text"
    (KeyboardParams
       (KeyboardActionParameters.mk (KeysStr "") text (Some []) (5 # 100))).

Definition press (keys : list string) : Action.t :=
  Scenario.action "keys-3" KEYBOARD "key_press"
    (KeyboardParams
       (KeyboardActionParameters.mk (KeysList keys) "" (Some []) (5 # 100))).

Definition macro (sequence : list ActionData) (loop_count : Z) : Action.t :=
  Scenario.action "macro-3" MACRO "sequence"
    (MacroParams
       (MacroActionParameters.mk (Some sequence) loop_count (1 # 10))).

(** A mapping of the gesture thumbs-up to a click, and a profile that
    holds it. *)
Definition thumbs_up : GestureActionMapping.t :=
  GestureActionMapping.mk "map-1" "thumbs_up" "predefined" Scenario.click
    true 0 (Some []) Scenario.clock "" 0.

Definition profile : Mappings := [("map-1", thumbs_up)].

End Cases.

(** Case analysis on an innermost [match] (or destructuring [let]) of the
    goal. *)
Ltac break_match :=
  match goal with
  | |- context [match ?x with _ => _ end] =>
      lazymatch x with
      | context [match _ with _ => _ end] => fail
      | _ => destruct x eqn:?
      end
  end.

Ltac invert_pairs :=
  repeat match goal with
         | H : (_, _) = (_, _) |- _ => inversion H; subst; clear H
         end.

(** The events filtered out of a trace that grew. *)
Ltac filter_trace :=
  unfold dispatches, callbacks, backend_calls;
  repeat (rewrite filter_app; cbn [filter is_dispatch is_callback
                                    is_backend_call]);
  rewrite ?app_nil_r.

(* ================================================================== *)
(** * The validator: recursion bound and what it reads *)
(* ================================================================== *)

Unset Implicit Arguments.

Lemma In_list_max (x : nat) (l : list nat) : In x l -> (x <= list_max l)%nat.
Proof.
  induction l as [|y l IH]; simpl; [tauto|].
  intros [->|H]; [lia|]. specialize (IH H). lia.
Qed.

Lemma MacroActionParameters_init_depth (kw : list kwarg) :
  forall p p',
    MacroActionParameters_init kw p = Return p' ->
    (kwarg_depth (kw_sequence (MacroActionParameters.sequence p'))
     <= Nat.max (kwarg_depth (kw_sequence (MacroActionParameters.sequence p)))
                (list_max (map kwarg_depth kw)))%nat.
Proof.
  induction kw as [|k kw IH]; intros [sq lc dl] p' H.
  - simpl in H. injection H as <-. lia.
  - destruct k; simpl in H; try discriminate;
      apply IH in H; unfold list_max in *; cbn [map fold_right] in *;
      cbn [MacroActionParameters.sequence] in *;
      try (change (kwarg_depth (kw_loop_count v)) with O);
      try (change (kwarg_depth (kw_delay_between_actions v)) with O);
      lia.
Qed.

Lemma from_dict_depth (now : string) (d : ActionData) (a : Action.t) :
  Action.from_dict now d = Return a -> (Action.depth a <= data_depth d)%nat.
Proof.
  destruct d as [i ty st ps nm ds en rc tm cd]. unfold Action.from_dict.
  destruct ty as [ty|]; [|discriminate].
  destruct (ActionType_of_value ty) as [t|] eqn:Ht; [|discriminate].
  cbn [bind_outcome].
  destruct t; cbn [map_outcome bind_outcome].
  1: destruct (MouseActionParameters_init _ _).
  3: destruct (KeyboardActionParameters_init _ _).
  5: destruct (ApplicationActionParameters_init _ _).
  1-6,8:
    cbn [bind_outcome]; try discriminate;
    destruct i; try discriminate; destruct st; try discriminate;
    intros H; injection H as <-; unfold Action.depth; simpl; lia.
  destruct (MacroActionParameters_init (get_or [] ps)
              MacroActionParameters.default) as [p'|] eqn:Hp;
    cbn [bind_outcome]; [|discriminate].
  destruct i; try discriminate; destruct st; try discriminate.
  intros H; injection H as <-.
  apply MacroActionParameters_init_depth in Hp.
  unfold Action.depth, Action.new. cbn [Action.parameters].
  cbn [MacroActionParameters.default MacroActionParameters.sequence] in Hp.
  change (kwarg_depth (kw_sequence None)) with O in Hp.
  destruct ps as [kws|]; cbn [get_or data_depth] in *;
    unfold list_max in *; cbn [map fold_right] in *; lia.
Qed.

Lemma sub_action_depth (now : string) (a sub : Action.t)
    (p : MacroActionParameters.t) (l : list ActionData) (d : ActionData) :
  Action.parameters a = MacroParams p ->
  MacroActionParameters.sequence p = Some l ->
  In d l ->
  Action.from_dict now d = Return sub ->
  (Action.depth sub < Action.depth a)%nat.
Proof.
  intros Hp Hs Hin Hd. apply from_dict_depth in Hd.
  unfold Action.depth at 2. rewrite Hp, Hs. cbn [kwarg_depth].
  pose proof (In_list_max (data_depth d) (map data_depth l)
                (in_map data_depth l d Hin)). lia.
Qed.

Section ValidatorFacts.

Variable config : TypesConfig.
Variable now : string.

Lemma validate_action_fuel_ext (n : nat) (a b : Action.t) :
  Action.type a = Action.type b ->
  Action.subtype a = Action.subtype b ->
  Action.parameters a = Action.parameters b ->
  validate_action_fuel config now n a = validate_action_fuel config now n b.
Proof.
  destruct a, b; cbn [Action.type Action.subtype Action.parameters].
  intros -> -> ->. destruct n; reflexivity.
Qed.

Lemma validate_sequence_mono
    (v1 v2 : Action.t -> option (bool * string)) (l : list ActionData) :
  (forall d a r, In d l -> Action.from_dict now d = Return a ->
                 v1 a = Some r -> v2 a = Some r) ->
  forall i r, validate_sequence now v1 i l = Some r ->
              validate_sequence now v2 i l = Some r.
Proof.
  induction l as [|d l IH]; intros Hv i r; simpl; [auto|].
  destruct (Action.from_dict now d) as [a|e] eqn:Hd; [|auto].
  destruct (v1 a) as [[ok err]|] eqn:H1; [|discriminate].
  rewrite (Hv d a (ok, err) (or_introl eq_refl) Hd H1).
  destruct ok; simpl; [|auto].
  apply IH. intros d' a' r' Hin. apply Hv. now right.
Qed.

Lemma validate_sequence_total
    (v : Action.t -> option (bool * string)) (l : list ActionData) :
  (forall d a, In d l -> Action.from_dict now d = Return a ->
               exists r, v a = Some r) ->
  forall i, exists r, validate_sequence now v i l = Some r.
Proof.
  induction l as [|d l IH]; intros Hv i; simpl; [eauto|].
  destruct (Action.from_dict now d) as [a|e] eqn:Hd; [|eauto].
  destruct (Hv d a (or_introl eq_refl) Hd) as [[ok err] ->].
  destruct ok; simpl; [|eauto].
  apply IH. intros d' a' Hin. apply Hv. now right.
Qed.

Lemma validate_action_fuel_mono (n : nat) :
  forall m a r, (n <= m)%nat ->
    validate_action_fuel config now n a = Some r ->
    validate_action_fuel config now m a = Some r.
Proof.
  induction n as [|n IH]; intros m a r Hle H; [discriminate|].
  destruct m as [|m]; [lia|]. cbn [validate_action_fuel] in *.
  destruct (negb (get_or false (TypeConfig.enabled (config (Action.type a)))));
    [exact H|].
  destruct (negb (Py.mem (Action.subtype a)
              (get_or [] (TypeConfig.actions (config (Action.type a))))));
    [exact H|].
  destruct (Action.type a); try exact H.
  unfold _validate_macro_action in *.
  destruct (Action.parameters a) as [| | | |p]; try exact H.
  destruct (MacroActionParameters.sequence p) as [[|d ds]|]; try exact H.
  destruct (_ >? _)%Z; [exact H|].
  revert H. apply validate_sequence_mono.
  intros d' a' r' _ _. apply IH. lia.
Qed.

Lemma validate_action_fuel_total (n : nat) :
  forall a, (Action.depth a < n)%nat ->
    exists r, validate_action_fuel config now n a = Some r.
Proof.
  induction n as [|n IH]; intros a Hd; [lia|].
  cbn [validate_action_fuel].
  destruct (negb _); [eauto|]. destruct (negb _); [eauto|].
  destruct (Action.type a); eauto.
  unfold _validate_macro_action.
  destruct (Action.parameters a) as [| | | |p] eqn:Hp; eauto.
  destruct (MacroActionParameters.sequence p) as [[|d ds]|] eqn:Hs; eauto.
  destruct (_ >? _)%Z; [eauto|].
  apply validate_sequence_total. intros d' a' Hin Hfd. apply IH.
  pose proof (@sub_action_depth now a a' p _ d' Hp Hs Hin Hfd). lia.
Qed.

(** Fuel above the nesting depth gives the result of [validate_action]. *)
Lemma validate_action_fuel_enough (n : nat) (a : Action.t) :
  (Action.depth a < n)%nat ->
  validate_action_fuel config now n a = Some (validate_action config now a).
Proof.
  intros Hd. unfold validate_action.
  destruct (validate_action_fuel_total (S (Action.depth a)) a) as [r Hr]; [lia|].
  rewrite Hr. cbn [get_or].
  now apply validate_action_fuel_mono with (n := S (Action.depth a)); [lia|].
Qed.

Lemma validate_action_ext (a b : Action.t) :
  Action.type a = Action.type b ->
  Action.subtype a = Action.subtype b ->
  Action.parameters a = Action.parameters b ->
  validate_action config now a = validate_action config now b.
Proof.
  intros Ht Hs Hp. unfold validate_action, Action.depth. rewrite Hp.
  now rewrite (validate_action_fuel_ext _ a b Ht Hs Hp).
Qed.

End ValidatorFacts.

Lemma mem_In (s : string) (l : list string) : Py.mem s l = true <-> In s l.
Proof.
  unfold Py.mem. rewrite existsb_exists. split.
  - intros [x [Hin Heq]]. apply String.eqb_eq in Heq. now subst.
  - intros Hin. exists s. split; [exact Hin|apply String.eqb_refl].
Qed.


(* ================================================================== *)
(** * The validator: mouse, keyboard, storage round trip *)
(* ================================================================== *)




(** C7: the action [keys=["f4"], modifiers=["alt"]] under a deny-list that
    holds ["alt+f4"].  The validator matches the deny-list against
    [str(params.keys).lower()], here ['f4'] between brackets and quotes;
    the modifiers are not part of it.  The action passes validation, and a
    synchronous [execute_action] takes it to the keyboard driver. *)
Theorem alt_f4_passes_validation :
  In "alt+f4"
     (get_or [] (TypeConfig.dangerous_keys (Scenario.deny_alt_f4 KEYBOARD))) /\
  (exists p, Action.parameters Scenario.alt_f4 = KeyboardParams p /\
             Py.lower (Keys_str (KeyboardActionParameters.keys p)) = "['f4']" /\
             KeyboardActionParameters.modifiers p = Some ["alt"]) /\
  validate_action Scenario.deny_alt_f4 Scenario.clock Scenario.alt_f4
  = (true, "") /\
  exists s r,
    execute_action Scenario.stub ACTION_EXECUTION_CONFIG Scenario.deny_alt_f4
      (Some pynput) Scenario.no_callback Scenario.no_callback
      Scenario.alt_f4 (Some false) Scenario.idle
    = (s, Return (Completed r)) /\
    ActionExecutionResult.success r = true /\
    backend_calls (trace s)
    = [EvBackend keyboard_pynput "key_combination"
         (Action.parameters Scenario.alt_f4)].
Proof.
  split; [simpl; auto|].
  split; [eexists; repeat split|].
  split; [reflexivity|].
  eexists. eexists. split; [reflexivity|]. split; reflexivity.
Qed.

(** Under the shipped deny-list the same action is rejected, by the entry
    ["f4"]. *)
Lemma shipped_policy_rejects_f4 :
  validate_action ACTION_TYPES_CONFIG Scenario.clock Scenario.alt_f4
  = (false, "Dangerous key combination detected: f4").
Proof. reflexivity. Qed.

(** C9.  The actions of the data model carry the parameters of their own
    type: [from_dict] and every constructor call of the repository pair
    the type with its parameter class (the type system with any object,
    which [from_dict] replaces by the base class).  For every such action,
    [from_dict(to_dict(a))] is an action on which [validate_action]
    returns what it returns on [a]: the same flag and the same reason. *)
Theorem roundtrip_validation (config : TypesConfig) (now : string)
    (a : Action.t) :
  class_matches a = true ->
  exists a',
    Action.from_dict now (Action.to_dict a) = Return a' /\
    validate_action config now a' = validate_action config now a.
Proof.
  destruct a as [i t st ps nm ds en rc tm cd]. unfold class_matches.
  cbn [Action.type Action.parameters]. intros H.
  destruct t.
  1-4: destruct ps as [|p|p|p|p]; try discriminate H; destruct p;
       eexists; (split; [reflexivity|]);
       apply validate_action_ext; reflexivity.
  exists (Action.new now i SYSTEM st BaseParams nm ds en rc tm cd).
  split; [destruct ps as [|p|p|p|p]; try destruct p; reflexivity|].
  unfold validate_action. cbn [validate_action_fuel].
  cbn [Action.type Action.new Action.subtype]. reflexivity.
Qed.

Lemma roundtrip_validation_witness :
  exists a',
    Action.from_dict Scenario.clock (Action.to_dict Scenario.far_click)
    = Return a' /\
    validate_action ACTION_TYPES_CONFIG Scenario.clock a'
    = validate_action ACTION_TYPES_CONFIG Scenario.clock Scenario.far_click.
Proof.
  apply (roundtrip_validation ACTION_TYPES_CONFIG Scenario.clock
           Scenario.far_click).
  reflexivity.
Defined.

(** Outside the data model, for comparison: the dataclass itself does not
    tie the class of the parameters to the type, and a mouse action built
    by hand around keyboard parameters, which no code of the repository
    builds, has a storage form that [from_dict] refuses. *)
Lemma roundtrip_raises_on_foreign_parameters :
  validate_action ACTION_TYPES_CONFIG Scenario.clock Scenario.mismatched
  = (true, "") /\
  Action.from_dict Scenario.clock (Action.to_dict Scenario.mismatched)
  = Raise (Exn TypeError
      "MouseActionParameters.__init__() got an unexpected keyword argument 'keys'").
Proof. split; reflexivity. Qed.

(* ================================================================== *)
(** * The engine: the two early returns of execute_action *)
(* ================================================================== *)

Section Engine.

Variable W : Type.
Variable backend : Backend W.
Variable config : ExecConfig.t.
Variable types_config : TypesConfig.
Variable input_library : option Library.
Variable on_action_executed on_action_failed :
  option (Action.t -> ActionExecutionResult.t -> W -> W * option exn).

(** C1.  When the validator returns not-ok for an action, [execute_action]
    returns a completed future whose result has [success=false] and
    [error_code="VALIDATION_ERROR"]; the state of the engine after the
    call is the state before it, so no driver was called and the history
    has no new entry. *)
Theorem validation_failure_short_circuits (action : Action.t)
    (async_execution : option bool) (s : State W) (error_message : string) :
  validate_action types_config (now_isoformat backend (world s)) action
  = (false, error_message) ->
  exists s' result,
    execute_action backend config types_config input_library
      on_action_executed on_action_failed action async_execution s = (s', Return (Completed result))
    /\ ActionExecutionResult.success result = false
    /\ ActionExecutionResult.error_code result = "VALIDATION_ERROR"
    /\ ActionExecutionResult.message result
       = "Validation failed: " ++ error_message
    /\ ActionExecutionResult.action_id result = Action.id action
    /\ s' = s
    /\ backend_calls (trace s') = backend_calls (trace s)
    /\ dispatches (trace s') = dispatches (trace s)
    /\ execution_history s' = execution_history s.
Proof.
  intros Hv. unfold execute_action. rewrite Hv. cbn [negb].
  eexists. eexists. split; [reflexivity|]. repeat split.
Qed.

(** C2, as amended.  [emergency_stop_all] engages the interlock from
    every state, and [resume_execution] clears it from every state; both
    leave the rest of the engine as it was.  While the interlock is
    engaged, [execute_action] returns at once for every action, with
    [success=false], and leaves the state of the engine as it was (no
    driver is called, the interlock stays engaged); the error code is
    [EMERGENCY_STOP] for every action that passes validation, which is
    checked first, and [VALIDATION_ERROR] for the others.  The state that
    [emergency_stop_all] returns is such a state. *)
Theorem interlock_short_circuits (action : Action.t)
    (async_execution : option bool) (s0 s : State W) :
  emergency_stop s = true ->
  (emergency_stop (emergency_stop_all s0) = true /\
   emergency_stop (resume_execution s0) = false /\
   resume_execution (emergency_stop_all s0) = resume_execution s0 /\
   (forall s1, s1 = emergency_stop_all s0 \/ s1 = resume_execution s0 ->
      execution_history s1 = execution_history s0 /\
      active_futures s1 = active_futures s0 /\
      world s1 = world s0 /\ trace s1 = trace s0)) /\
  (exists result,
     execute_action backend config types_config input_library
       on_action_executed on_action_failed action async_execution s
     = (s, Return (Completed result))
     /\ ActionExecutionResult.success result = false
     /\ ActionExecutionResult.error_code result
        = (if fst (validate_action types_config
                     (now_isoformat backend (world s)) action)
           then "EMERGENCY_STOP" else "VALIDATION_ERROR")) /\
  (exists result,
     execute_action backend config types_config input_library
       on_action_executed on_action_failed action async_execution
       (emergency_stop_all s0)
     = (emergency_stop_all s0, Return (Completed result))
     /\ ActionExecutionResult.success result = false
     /\ ActionExecutionResult.error_code result
        = (if fst (validate_action types_config
                     (now_isoformat backend (world s0)) action)
           then "EMERGENCY_STOP" else "VALIDATION_ERROR")).
Proof.
  assert (Hrun : forall s1, emergency_stop s1 = true ->
    exists result,
      execute_action backend config types_config input_library
        on_action_executed on_action_failed action async_execution s1
      = (s1, Return (Completed result))
      /\ ActionExecutionResult.success result = false
      /\ ActionExecutionResult.error_code result
         = (if fst (validate_action types_config
                      (now_isoformat backend (world s1)) action)
            then "EMERGENCY_STOP" else "VALIDATION_ERROR")).
  { intros s1 Hstop. unfold execute_action.
    destruct (validate_action _ _ action) as [[|] msg]; cbn [negb fst].
    - rewrite Hstop. eexists. split; [reflexivity|]. split; reflexivity.
    - eexists. split; [reflexivity|]. split; reflexivity. }
  intros Hstop. split; [|split].
  - split; [reflexivity|]. split; [reflexivity|]. split; [reflexivity|].
    intros s1 [-> | ->]; repeat split.
  - exact (Hrun s Hstop).
  - exact (Hrun (emergency_stop_all s0) eq_refl).
Qed.

End Engine.

Lemma validation_failure_short_circuits_witness :
  exists s' result,
    execute_action Scenario.stub ACTION_EXECUTION_CONFIG ACTION_TYPES_CONFIG
      (Some pynput) Scenario.no_callback Scenario.no_callback
      Scenario.lock_screen None Scenario.idle
    = (s', Return (Completed result))
    /\ ActionExecutionResult.success result = false
    /\ ActionExecutionResult.error_code result = "VALIDATION_ERROR"
    /\ ActionExecutionResult.message result
       = "Validation failed: " ++ "Action type 'system' is disabled"
    /\ ActionExecutionResult.action_id result
       = Action.id Scenario.lock_screen
    /\ s' = Scenario.idle
    /\ backend_calls (trace s') = backend_calls (trace Scenario.idle)
    /\ dispatches (trace s') = dispatches (trace Scenario.idle)
    /\ execution_history s' = execution_history Scenario.idle.
Proof.
  apply (validation_failure_short_circuits unit Scenario.stub
           ACTION_EXECUTION_CONFIG ACTION_TYPES_CONFIG (Some pynput)
           Scenario.no_callback Scenario.no_callback Scenario.lock_screen
           None Scenario.idle "Action type 'system' is disabled").
  reflexivity.
Defined.

Lemma interlock_short_circuits_witness :
  emergency_stop Scenario.idle = false /\
  emergency_stop (emergency_stop_all Scenario.idle) = true /\
  emergency_stop (resume_execution (emergency_stop_all Scenario.idle)) = false
  /\
  exists result,
    execute_action Scenario.stub ACTION_EXECUTION_CONFIG ACTION_TYPES_CONFIG
      (Some pynput) Scenario.no_callback Scenario.no_callback
      Scenario.click None (emergency_stop_all Scenario.idle)
    = (emergency_stop_all Scenario.idle, Return (Completed result))
    /\ ActionExecutionResult.success result = false
    /\ ActionExecutionResult.error_code result = "EMERGENCY_STOP".
Proof.
  destruct (interlock_short_circuits unit Scenario.stub ACTION_EXECUTION_CONFIG
              ACTION_TYPES_CONFIG (Some pynput) Scenario.no_callback
              Scenario.no_callback Scenario.click None Scenario.idle
              (emergency_stop_all Scenario.idle) eq_refl)
    as ((Hon & _ & _ & _) & _ & result & Hrun & Hsucc & Hcode).
  split; [reflexivity|]. split; [exact Hon|]. split; [reflexivity|].
  exists result. split; [exact Hrun|]. split; [exact Hsucc|exact Hcode].
Defined.

(** C2, as stated, fails: with the interlock engaged, an action that the
    validator rejects comes back with [VALIDATION_ERROR], not
    [EMERGENCY_STOP]. *)
Lemma interlock_yields_to_validation :
  emergency_stop Scenario.stopped = true /\
  exists result,
    execute_action Scenario.stub ACTION_EXECUTION_CONFIG ACTION_TYPES_CONFIG
      (Some pynput) Scenario.no_callback Scenario.no_callback
      Scenario.lock_screen None Scenario.stopped
    = (Scenario.stopped, Return (Completed result))
    /\ ActionExecutionResult.error_code result = "VALIDATION_ERROR"
    /\ ActionExecutionResult.error_code result <> "EMERGENCY_STOP".
Proof.
  split; [reflexivity|]. eexists. split; [reflexivity|].
  split; [reflexivity|discriminate].
Qed.

(* ================================================================== *)
(** * The engine: the bounded history *)
(* ================================================================== *)

Lemma add_to_history_spec (W : Type) (config : ExecConfig.t)
    (action : Action.t) (result : ActionExecutionResult.t) (s : State W) :
  let appended := (execution_history s ++ [history_entry action result])%list in
  let max_history := get_or 1000 (ExecConfig.max_action_history config) in
  execution_history (_add_to_history config action result s)
  = if (Z.of_nat (length appended) >? max_history)%Z
    then Py.slice_from (- max_history) appended
    else appended.
Proof. reflexivity. Qed.

Lemma add_to_history_frame (W : Type) (config : ExecConfig.t)
    (action : Action.t) (result : ActionExecutionResult.t) (s : State W) :
  let s' := _add_to_history config action result s in
  emergency_stop s' = emergency_stop s /\ world s' = world s /\
  trace s' = trace s /\ active_futures s' = active_futures s.
Proof. repeat split. Qed.

(** Where the trim works: for every configured maximum of at least 1
    (1000 when the key is absent), after [_add_to_history] the history is
    no longer than the maximum; it is a suffix of the old history followed
    by the new entry, so what is dropped is dropped from the oldest end and
    the survivors keep their order; and nothing is dropped beyond what the
    bound asks for. *)
Theorem history_bounded_fifo (W : Type) (config : ExecConfig.t)
    (action : Action.t) (result : ActionExecutionResult.t) (s : State W) :
  let max_history := get_or 1000 (ExecConfig.max_action_history config) in
  let history := execution_history (_add_to_history config action result s) in
  1 <= max_history ->
  Z.of_nat (length history) <= max_history /\
  (exists dropped,
     (execution_history s ++ [history_entry action result])%list
     = (dropped ++ history)%list) /\
  length history
  = Nat.min (length (execution_history s) + 1) (Z.to_nat max_history).
Proof.
  intros max_history history Hmax. subst history.
  rewrite add_to_history_spec. fold max_history.
  set (appended := (execution_history s ++ [history_entry action result])%list).
  assert (Hlen : length appended = (length (execution_history s) + 1)%nat).
  { unfold appended. rewrite length_app. reflexivity. }
  destruct (Z.gtb_spec (Z.of_nat (length appended)) max_history) as [Hgt|Hle].
  - unfold Py.slice_from.
    replace (- max_history <? 0)%Z with true by (symmetry; apply Z.ltb_lt; lia).
    rewrite Z.max_l by lia.
    set (k := Z.to_nat (Z.of_nat (length appended) + - max_history)).
    assert (Hk : length (skipn k appended) = Z.to_nat max_history).
    { rewrite length_skipn. unfold k. lia. }
    split; [rewrite Hk; lia|]. split.
    + exists (firstn k appended). symmetry. apply firstn_skipn.
    + rewrite Hk. lia.
  - split; [exact Hle|]. split.
    + exists []. reflexivity.
    + lia.
Qed.

Lemma history_bounded_fifo_witness :
  let max_history :=
    get_or 1000 (ExecConfig.max_action_history (Scenario.history_bound 1)) in
  let history :=
    execution_history
      (_add_to_history (Scenario.history_bound 1) Scenario.close_app
         Scenario.done
         (_add_to_history (Scenario.history_bound 1) Scenario.click
            Scenario.done Scenario.idle)) in
  Z.of_nat (length history) <= max_history /\
  (exists dropped,
     (execution_history
        (_add_to_history (Scenario.history_bound 1) Scenario.click
           Scenario.done Scenario.idle)
      ++ [history_entry Scenario.close_app Scenario.done])%list
     = (dropped ++ history)%list) /\
  length history
  = Nat.min
      (length (execution_history
                 (_add_to_history (Scenario.history_bound 1) Scenario.click
                    Scenario.done Scenario.idle)) + 1)
      (Z.to_nat max_history).
Proof.
  apply (history_bounded_fifo unit (Scenario.history_bound 1)
           Scenario.close_app Scenario.done
           (_add_to_history (Scenario.history_bound 1) Scenario.click
              Scenario.done Scenario.idle)).
  simpl. lia.
Defined.

(** C5.  The code trims the history under its comment [# Limit history
    size] with [execution_history[-max_history:]].  At the configured
    maximum 0 that slice is [execution_history[-0:]], the whole list:
    nothing is dropped, every append stays, and the history outgrows the
    maximum without limit.  Here the first append leaves one entry and
    three appends leave all three, in their order. *)
Lemma history_exceeds_zero_bound :
  get_or 1000 (ExecConfig.max_action_history (Scenario.history_bound 0)) = 0
  /\ length (execution_history
               (_add_to_history (Scenario.history_bound 0) Scenario.click
                  Scenario.done Scenario.idle)) = 1%nat
  /\ Z.of_nat
       (length (execution_history
                  (_add_to_history (Scenario.history_bound 0) Scenario.click
                     Scenario.done Scenario.idle)))
     > get_or 1000 (ExecConfig.max_action_history (Scenario.history_bound 0))
  /\ execution_history
       (_add_to_history (Scenario.history_bound 0) Scenario.click
          Scenario.done
          (_add_to_history (Scenario.history_bound 0) Scenario.close_app
             Scenario.done
             (_add_to_history (Scenario.history_bound 0) Scenario.click
                Scenario.done Scenario.idle)))
     = [history_entry Scenario.click Scenario.done;
        history_entry Scenario.close_app Scenario.done;
        history_entry Scenario.click Scenario.done].
Proof. repeat split. Qed.

(** With a maximum of at least 1 the entry that [_add_to_history] appends
    is the newest of the history it leaves, what the trim drops is dropped
    from the oldest end, and below the maximum nothing is dropped. *)
Lemma add_to_history_newest (W : Type) (config : ExecConfig.t)
    (action : Action.t) (result : ActionExecutionResult.t) (s : State W) :
  let max_history := get_or 1000 (ExecConfig.max_action_history config) in
  let history := execution_history (_add_to_history config action result s) in
  1 <= max_history ->
  (exists older,
     history = (older ++ [history_entry action result])%list) /\
  (exists dropped,
     (execution_history s ++ [history_entry action result])%list
     = (dropped ++ history)%list) /\
  (Z.of_nat (length (execution_history s)) < max_history ->
   history = (execution_history s ++ [history_entry action result])%list).
Proof.
  intros max_history history Hmax. subst history.
  rewrite add_to_history_spec. fold max_history.
  set (h := execution_history s). set (e := history_entry action result).
  assert (Hlen : length (h ++ [e])%list = (length h + 1)%nat).
  { rewrite length_app. reflexivity. }
  destruct (Z.gtb_spec (Z.of_nat (length (h ++ [e])%list)) max_history)
    as [Hgt|Hle].
  - unfold Py.slice_from.
    replace (- max_history <? 0)%Z with true by (symmetry; apply Z.ltb_lt; lia).
    rewrite Z.max_l by lia.
    set (k := Z.to_nat (Z.of_nat (length (h ++ [e])%list) + - max_history)).
    assert (Hk : (k <= length h)%nat) by (unfold k; lia).
    split; [|split].
    + exists (skipn k h). rewrite skipn_app.
      replace (k - length h)%nat with O by lia. reflexivity.
    + exists (firstn k (h ++ [e])%list). symmetry. apply firstn_skipn.
    + intros Hlt. lia.
  - split; [exists h; reflexivity|]. split; [exists []; reflexivity|].
    intros _. reflexivity.
Qed.

(* ================================================================== *)
(** * The engine: the synchronous primitive *)
(* ================================================================== *)

Section Dispatch.

Variable W : Type.
Variable backend : Backend W.
Variable config : ExecConfig.t.
Variable input_library : option Library.
Variable on_action_executed on_action_failed :
  option (Action.t -> ActionExecutionResult.t -> W -> W * option exn).

Lemma mouse_action_quiet (action : Action.t) (s : State W) :
  quiet s (fst (_execute_mouse_action backend input_library action s)).
Proof.
  unfold quiet, _execute_mouse_action, call_routine.
  repeat break_match; invert_pairs; cbn; filter_trace; auto.
Qed.

Lemma keyboard_action_quiet (action : Action.t) (s : State W) :
  quiet s (fst (_execute_keyboard_action backend input_library action s)).
Proof.
  unfold quiet, _execute_keyboard_action, call_routine.
  repeat break_match; invert_pairs; cbn; filter_trace; auto.
Qed.

Lemma application_action_quiet (action : Action.t) (s : State W) :
  quiet s (fst (_execute_application_action backend action s)).
Proof.
  unfold quiet, _execute_application_action, _launch_application.
  repeat break_match; invert_pairs; cbn; filter_trace; auto.
Qed.

Lemma sync_enter_spec (action : Action.t) (s : State W) :
  let s1 := sync_enter backend config action s in
  emergency_stop s1 = emergency_stop s /\
  execution_history s1 = execution_history s /\
  trace s1 = (trace s ++ [EvDispatch action])%list.
Proof.
  unfold sync_enter. break_match; cbn; auto.
Qed.

(** The branch of an action that is no macro returns a pair and is
    quiet. *)
Lemma sync_branch_quiet sync (action : Action.t) (s1 : State W) :
  Action.type action <> MACRO ->
  exists s2 r,
    sync_branch backend config input_library sync action s1
    = Some (s2, Return r) /\ quiet s1 s2.
Proof.
  intros Ht. unfold sync_branch.
  destruct (Action.type action); try congruence.
  - pose proof (mouse_action_quiet action s1) as Hq.
    destruct (_execute_mouse_action _ _ _ _) as [s2 r]. eauto.
  - pose proof (keyboard_action_quiet action s1) as Hq.
    destruct (_execute_keyboard_action _ _ _ _) as [s2 r]. eauto.
  - pose proof (application_action_quiet action s1) as Hq.
    destruct (_execute_application_action _ _ _) as [s2 r]. eauto.
  - eexists. eexists. split; [reflexivity|]. repeat split.
Qed.

Lemma call_callback_spec ev callback (action : Action.t)
    (result : ActionExecutionResult.t) (s : State W) :
  let s' := fst (call_callback ev callback action result s) in
  emergency_stop s' = emergency_stop s /\
  execution_history s' = execution_history s /\
  trace s' = (trace s ++ match callback with
                         | Some _ => [ev action result]
                         | None => []
                         end)%list.
Proof.
  unfold call_callback. destruct callback as [f|]; cbn.
  - destruct (f action result (world s)); cbn. auto.
  - rewrite app_nil_r. auto.
Qed.

Lemma call_callback_returns ev callback (action : Action.t)
    (result : ActionExecutionResult.t) (s : State W) :
  callback_returns callback ->
  snd (call_callback ev callback action result s) = Return tt.
Proof.
  intros Hc. unfold call_callback. destruct callback as [f|]; [|reflexivity].
  specialize (Hc f eq_refl action result (world s)). cbn.
  destruct (f action result (world s)) as [w o]. cbn in *. now subst.
Qed.

(** The handler, when [on_action_failed] returns: one failed result tagged
    [EXECUTION_ERROR], one history entry, one call of [on_action_failed]
    if it is set. *)
Lemma sync_handler_spec (action : Action.t) (start_time : Q) (e : exn)
    (s : State W) :
  callback_returns on_action_failed ->
  exists s' result,
    sync_handler backend config on_action_failed action start_time e s
    = (s', Return result) /\
    ActionExecutionResult.success result = false /\
    ActionExecutionResult.message result = "Execution error: " ++ exn_str e /\
    ActionExecutionResult.error_code result = "EXECUTION_ERROR" /\
    emergency_stop s' = emergency_stop s /\
    execution_history s'
    = execution_history (_add_to_history config action result s) /\
    trace s' = (trace s ++ expected_callback on_action_executed
                             on_action_failed action result)%list.
Proof.
  intros Hf. unfold sync_handler.
  match goal with
  | |- context [call_callback ?ev ?cb ?a ?r ?s0] =>
      pose proof (call_callback_spec ev cb a r s0) as Hs;
      pose proof (call_callback_returns ev cb a r s0 Hf) as Hr;
      destruct (call_callback ev cb a r s0) as [s2 called]
  end.
  cbn [fst snd] in *. subst called.
  eexists. eexists. split; [reflexivity|].
  destruct Hs as (He & Hh & Ht). unfold expected_callback. cbn.
  repeat split; auto.
Qed.

(** What follows the branch, when the callback it calls returns: one
    result, one history entry, the one callback the result asks for. *)
Lemma sync_finish_spec (action : Action.t) (start_time : Q) (s2 : State W)
    (o : outcome (bool * string)) :
  match o with
  | Return (true, _) => callback_returns on_action_executed
  | _ => True
  end ->
  callback_returns on_action_failed ->
  exists s' result,
    sync_finish backend config on_action_executed on_action_failed action
      start_time s2 o = (s', Return result) /\
    match o with
    | Return (success, message) =>
        ActionExecutionResult.success result = success /\
        ActionExecutionResult.message result = message /\
        ActionExecutionResult.error_code result = ""
    | Raise e =>
        ActionExecutionResult.success result = false /\
        ActionExecutionResult.message result
        = "Execution error: " ++ exn_str e /\
        ActionExecutionResult.error_code result = "EXECUTION_ERROR"
    end /\
    emergency_stop s' = emergency_stop s2 /\
    execution_history s'
    = execution_history (_add_to_history config action result s2) /\
    trace s' = (trace s2 ++ expected_callback on_action_executed
                              on_action_failed action result)%list.
Proof.
  intros He Hf. unfold sync_finish. destruct o as [[success message]|e].
  - set (result := new_result backend s2 success message _ _ _).
    set (s3 := _add_to_history config action result s2).
    assert (Hcall : exists s4,
      (if success
       then call_callback EvExecuted on_action_executed action result s3
       else call_callback EvFailed on_action_failed action result s3)
      = (s4, Return tt) /\
      emergency_stop s4 = emergency_stop s3 /\
      execution_history s4 = execution_history s3 /\
      trace s4 = (trace s3 ++ expected_callback on_action_executed
                                on_action_failed action result)%list).
    { unfold expected_callback. subst result. cbn [new_result
        ActionExecutionResult.success].
      destruct success;
      match goal with
      | |- context [call_callback ?ev ?cb ?a ?r ?s0] =>
          pose proof (call_callback_spec ev cb a r s0) as Hs;
          (pose proof (call_callback_returns ev cb a r s0 He) as Hr
           || pose proof (call_callback_returns ev cb a r s0 Hf) as Hr);
          destruct (call_callback ev cb a r s0) as [s4 called]
      end; cbn [fst snd] in Hs, Hr; subst called; exists s4; intuition. }
    destruct Hcall as (s4 & -> & H4e & H4h & H4t).
    exists s4, result. split; [reflexivity|].
    split; [repeat split|]. rewrite H4e, H4h, H4t. repeat split.
  - destruct (sync_handler_spec action start_time e s2 Hf)
      as (s' & result & -> & Hs & Hm & Hc & Hrest).
    exists s', result. split; [reflexivity|]. split; auto.
Qed.

End Dispatch.

(* ================================================================== *)
(** * The engine: the recursion through macros is bounded *)
(* ================================================================== *)

Section Recursion.

Variable W : Type.
Variable backend : Backend W.
Variable config : ExecConfig.t.
Variable input_library : option Library.
Variable on_action_executed on_action_failed :
  option (Action.t -> ActionExecutionResult.t -> W -> W * option exn).

Section Loops.

Variables sync1 sync2 :
  Action.t -> State W -> option (State W * outcome ActionExecutionResult.t).
Variable params : MacroActionParameters.t.
Variable total_actions : Z.
Variable sequence : list ActionData.

Lemma macro_sequence_mono (l : list ActionData) :
  (forall d a s x, In d l ->
     Action.from_dict (now_isoformat backend (world s)) d = Return a ->
     sync1 a s = Some x -> sync2 a s = Some x) ->
  forall loop i executed s x,
    macro_sequence backend config sync1 params total_actions loop i l
      executed s = Some x ->
    macro_sequence backend config sync2 params total_actions loop i l
      executed s = Some x.
Proof.
  induction l as [|d l IH]; intros Hs loop i executed s x; cbn [macro_sequence];
    [auto|].
  destruct (emergency_stop s); [auto|].
  destruct (Action.from_dict _ d) as [a|e] eqn:Hd; [|auto].
  destruct (sync1 a s) as [[s1 o]|] eqn:H1; [|discriminate].
  rewrite (Hs d a s (s1, o) (or_introl eq_refl) Hd H1).
  destruct o as [result|e]; [|auto].
  destruct (negb (ActionExecutionResult.success result)); [auto|].
  apply IH. intros d' a' s' x' Hin. apply Hs. now right.
Qed.

Lemma macro_loops_mono (n : nat) :
  (forall d a s x, In d sequence ->
     Action.from_dict (now_isoformat backend (world s)) d = Return a ->
     sync1 a s = Some x -> sync2 a s = Some x) ->
  forall loop executed s x,
    macro_loops backend config sync1 params total_actions n loop sequence
      executed s = Some x ->
    macro_loops backend config sync2 params total_actions n loop sequence
      executed s = Some x.
Proof.
  intros Hs. induction n as [|n IH]; intros loop executed s x;
    cbn [macro_loops]; [auto|].
  destruct (macro_sequence backend config sync1 params total_actions loop 0
              sequence executed s) as [[s1 ex]|] eqn:H1; [|discriminate].
  rewrite (macro_sequence_mono sequence Hs _ _ _ _ _ H1).
  destruct ex; auto.
Qed.

Lemma macro_sequence_total (l : list ActionData) :
  (forall d a s, In d l ->
     Action.from_dict (now_isoformat backend (world s)) d = Return a ->
     exists x, sync1 a s = Some x) ->
  forall loop i executed s,
    exists x, macro_sequence backend config sync1 params total_actions loop
                i l executed s = Some x.
Proof.
  induction l as [|d l IH]; intros Hs loop i executed s; cbn [macro_sequence];
    [eauto|].
  destruct (emergency_stop s); [eauto|].
  destruct (Action.from_dict _ d) as [a|e] eqn:Hd; [|eauto].
  destruct (Hs d a s (or_introl eq_refl) Hd) as [[s1 [result|e]] ->];
    [|eauto].
  destruct (negb (ActionExecutionResult.success result)); [eauto|].
  apply IH. intros d' a' s' Hin. apply Hs. now right.
Qed.

Lemma macro_loops_total (n : nat) :
  (forall d a s, In d sequence ->
     Action.from_dict (now_isoformat backend (world s)) d = Return a ->
     exists x, sync1 a s = Some x) ->
  forall loop executed s,
    exists x, macro_loops backend config sync1 params total_actions n loop
                sequence executed s = Some x.
Proof.
  intros Hs. induction n as [|n IH]; intros loop executed s;
    cbn [macro_loops]; [eauto|].
  destruct (macro_sequence_total sequence Hs loop 0 executed s)
    as [[s1 ex] ->].
  destruct ex; eauto.
Qed.

(** The loops leave the interlock as the sub-dispatches leave it. *)
Lemma macro_sequence_interlock (l : list ActionData) :
  (forall a s s' o, sync1 a s = Some (s', o) ->
                    emergency_stop s' = emergency_stop s) ->
  forall loop i executed s s' ex,
    macro_sequence backend config sync1 params total_actions loop i l
      executed s = Some (s', ex) ->
    emergency_stop s' = emergency_stop s.
Proof.
  intros Hs. induction l as [|d l IH]; intros loop i executed s s' ex;
    cbn [macro_sequence].
  - intros H. now inversion H.
  - destruct (emergency_stop s) eqn:Hstop;
      [intros H; inversion H; subst; congruence|].
    destruct (Action.from_dict _ d) as [a|e];
      [|intros H; inversion H; subst; congruence].
    destruct (sync1 a s) as [[s1 o]|] eqn:H1; [|discriminate].
    apply Hs in H1.
    destruct o as [result|e]; [|intros H; inversion H; subst; congruence].
    destruct (negb (ActionExecutionResult.success result));
      [intros H; inversion H; subst; congruence|].
    intros H. apply IH in H. rewrite H.
    destruct (_ && _); cbn; congruence.
Qed.

Lemma macro_loops_interlock (n : nat) :
  (forall a s s' o, sync1 a s = Some (s', o) ->
                    emergency_stop s' = emergency_stop s) ->
  forall loop executed s s' ex,
    macro_loops backend config sync1 params total_actions n loop sequence
      executed s = Some (s', ex) ->
    emergency_stop s' = emergency_stop s.
Proof.
  intros Hs. induction n as [|n IH]; intros loop executed s s' ex;
    cbn [macro_loops].
  - intros H. now inversion H.
  - destruct (macro_sequence backend config sync1 params total_actions loop 0
                sequence executed s) as [[s1 ex1]|] eqn:H1; [|discriminate].
    apply (macro_sequence_interlock sequence Hs) in H1.
    destruct ex1; intros H.
    + apply IH in H. congruence.
    + inversion H; subst; congruence.
    + inversion H; subst; congruence.
Qed.

End Loops.

Lemma sync_handler_interlock (action : Action.t) (start_time : Q) (e : exn)
    (s : State W) :
  emergency_stop
    (fst (sync_handler backend config on_action_failed action start_time e s))
  = emergency_stop s.
Proof.
  unfold sync_handler.
  match goal with
  | |- context [call_callback ?ev ?cb ?a ?r ?s0] =>
      destruct (call_callback_spec W ev cb a r s0) as (He & _);
      destruct (call_callback ev cb a r s0) as [s2 [u|e']]
  end; cbn [fst] in *; exact He.
Qed.

Lemma sync_finish_interlock (action : Action.t) (start_time : Q)
    (s2 : State W) (o : outcome (bool * string)) :
  emergency_stop
    (fst (sync_finish backend config on_action_executed on_action_failed
            action start_time s2 o))
  = emergency_stop s2.
Proof.
  unfold sync_finish. destruct o as [[success message]|e];
    [|apply sync_handler_interlock].
  destruct success;
    match goal with
    | |- context [call_callback ?ev ?cb ?a ?r ?s0] =>
        destruct (call_callback_spec W ev cb a r s0) as (He & _);
        destruct (call_callback ev cb a r s0) as [s4 [u|e']]
    end; cbn [fst] in *;
    try rewrite sync_handler_interlock; exact He.
Qed.

Lemma sync_fuel_mono (n : nat) :
  forall m action s x, (n <= m)%nat ->
    _execute_action_sync_fuel backend config input_library on_action_executed
      on_action_failed n action s = Some x ->
    _execute_action_sync_fuel backend config input_library on_action_executed
      on_action_failed m action s = Some x.
Proof.
  induction n as [|n IH]; intros m action s x Hle H; [discriminate|].
  destruct m as [|m]; [lia|]. cbn [_execute_action_sync_fuel] in *.
  destruct (sync_branch backend config input_library
              (_execute_action_sync_fuel backend config input_library
                 on_action_executed on_action_failed n) action
              (sync_enter backend config action s)) as [[s2 o]|] eqn:Hb;
    [|discriminate].
  assert (Hb' : sync_branch backend config input_library
              (_execute_action_sync_fuel backend config input_library
                 on_action_executed on_action_failed m) action
              (sync_enter backend config action s) = Some (s2, o)).
  { revert Hb. unfold sync_branch.
    destruct (Action.type action); auto.
    unfold _execute_macro_action.
    destruct (Action.parameters action) as [| | | |p]; auto.
    destruct (MacroActionParameters.sequence p) as [[|d ds]|]; auto.
    destruct (macro_loops backend config
                (_execute_action_sync_fuel backend config input_library
                   on_action_executed on_action_failed n) p _ _ _ _ _ _)
      as [[s' ex]|] eqn:Hl; [|discriminate].
    erewrite macro_loops_mono; [| |exact Hl]; [auto|].
    intros d' a' s0 x0 _ _. apply IH. lia. }
  rewrite Hb'. exact H.
Qed.

Lemma sync_fuel_total (n : nat) :
  forall action s, (Action.depth action < n)%nat ->
    exists x,
      _execute_action_sync_fuel backend config input_library
        on_action_executed on_action_failed n action s = Some x.
Proof.
  induction n as [|n IH]; intros action s Hd; [lia|].
  cbn [_execute_action_sync_fuel].
  assert (Hb : exists y,
            sync_branch backend config input_library
              (_execute_action_sync_fuel backend config input_library
                 on_action_executed on_action_failed n) action
              (sync_enter backend config action s) = Some y).
  { unfold sync_branch.
    destruct (Action.type action); try (break_match; eauto); eauto.
    unfold _execute_macro_action.
    destruct (Action.parameters action) as [| | | |p] eqn:Hp; eauto.
    destruct (MacroActionParameters.sequence p) as [[|d ds]|] eqn:Hs; eauto.
    match goal with
    | |- context [macro_loops ?b ?c ?f ?p ?t ?k ?lp ?sq ?ex ?s0] =>
        destruct (macro_loops_total f p t sq k) with (loop := lp)
          (executed := ex) (s := s0) as [[s' ex'] ->]
    end.
    - intros d' a' s0 Hin Hfd. apply IH.
      pose proof (sub_action_depth _ action a' p _ d' Hp Hs Hin Hfd). lia.
    - destruct ex'; eauto. }
  destruct Hb as [[s2 o] ->]. eauto.
Qed.

(** Fuel above the nesting depth gives the result of
    [_execute_action_sync]. *)
Lemma sync_fuel_enough (n : nat) (action : Action.t) (s : State W) :
  (Action.depth action < n)%nat ->
  _execute_action_sync_fuel backend config input_library on_action_executed
    on_action_failed n action s
  = Some (_execute_action_sync backend config input_library
            on_action_executed on_action_failed action s).
Proof.
  intros Hd. unfold _execute_action_sync.
  destruct (sync_fuel_total (S (Action.depth action)) action s) as [x Hx];
    [lia|].
  rewrite Hx. now apply sync_fuel_mono with (n := S (Action.depth action));
    [lia|].
Qed.

(** No dispatch touches the interlock. *)
Lemma sync_fuel_interlock (n : nat) :
  forall action s s' o,
    _execute_action_sync_fuel backend config input_library on_action_executed
      on_action_failed n action s = Some (s', o) ->
    emergency_stop s' = emergency_stop s.
Proof.
  induction n as [|n IH]; intros action s s' o H; [discriminate|].
  cbn [_execute_action_sync_fuel] in H.
  destruct (sync_branch _ _ _ _ action _) as [[s2 o2]|] eqn:Hb;
    [|discriminate].
  inversion H as [Hf]. clear H.
  pose proof (sync_finish_interlock action (time backend (world s)) s2 o2)
    as Hfin.
  rewrite Hf in Hfin. cbn [fst] in Hfin. rewrite Hfin.
  destruct (sync_enter_spec W backend config action s) as (He & _ & _).
  rewrite <- He. clear Hf Hfin He.
  revert Hb. unfold sync_branch.
  destruct (Action.type action).
  - pose proof (mouse_action_quiet W backend input_library action
                  (sync_enter backend config action s)) as Hq.
    destruct (_execute_mouse_action _ _ _ _) as [s3 r].
    intros H; inversion H; subst. apply Hq.
  - pose proof (keyboard_action_quiet W backend input_library action
                  (sync_enter backend config action s)) as Hq.
    destruct (_execute_keyboard_action _ _ _ _) as [s3 r].
    intros H; inversion H; subst. apply Hq.
  - pose proof (application_action_quiet W backend action
                  (sync_enter backend config action s)) as Hq.
    destruct (_execute_application_action _ _ _) as [s3 r].
    intros H; inversion H; subst. apply Hq.
  - unfold _execute_macro_action.
    destruct (Action.parameters action) as [| | | |p];
      try (intros H; now inversion H).
    destruct (MacroActionParameters.sequence p) as [[|d ds]|];
      try (intros H; now inversion H).
    destruct (macro_loops _ _ _ _ _ _ _ _ _ _) as [[s3 ex]|] eqn:Hl;
      [|discriminate].
    apply (macro_loops_interlock _ p _ _ _ IH) in Hl.
    destruct ex; intros H; inversion H; subst; exact Hl.
  - intros H; now inversion H.
Qed.

Lemma sync_interlock (action : Action.t) (s : State W) :
  emergency_stop
    (fst (_execute_action_sync backend config input_library
            on_action_executed on_action_failed action s))
  = emergency_stop s.
Proof.
  pose proof (sync_fuel_enough (S (Action.depth action)) action s
                (Nat.lt_succ_diag_r _)) as H.
  destruct (_execute_action_sync _ _ _ _ _ action s) as [s' o].
  apply sync_fuel_interlock in H. exact H.
Qed.

End Recursion.

(* ================================================================== *)
(** * The engine: results, history entries, callbacks *)
(* ================================================================== *)

Section Primitive.

Variable W : Type.
Variable backend : Backend W.
Variable config : ExecConfig.t.
Variable input_library : option Library.
Variable on_action_executed on_action_failed :
  option (Action.t -> ActionExecutionResult.t -> W -> W * option exn).

(** [_execute_action_sync] unfolds into the entry, the branch and what
    follows it, the recursive call of the branch being
    [_execute_action_sync] itself. *)
Lemma sync_unfold (action : Action.t) (s : State W) :
  exists s2 o,
    sync_branch backend config input_library
      (fun a s0 =>
         Some (_execute_action_sync backend config input_library
                 on_action_executed on_action_failed a s0))
      action (sync_enter backend config action s) = Some (s2, o) /\
    _execute_action_sync backend config input_library on_action_executed
      on_action_failed action s
    = sync_finish backend config on_action_executed on_action_failed action
        (time backend (world s)) s2 o.
Proof.
  pose proof (sync_fuel_enough W backend config input_library
                on_action_executed on_action_failed
                (S (Action.depth action)) action s (Nat.lt_succ_diag_r _))
    as Hrun.
  cbn [_execute_action_sync_fuel] in Hrun.
  destruct (sync_branch backend config input_library
              (_execute_action_sync_fuel backend config input_library
                 on_action_executed on_action_failed (Action.depth action))
              action (sync_enter backend config action s))
    as [[s2 o]|] eqn:Hb; [|discriminate].
  exists s2, o. split; [|now inversion Hrun].
  revert Hb. unfold sync_branch.
  destruct (Action.type action); auto.
  unfold _execute_macro_action.
  destruct (Action.parameters action) as [| | | |p] eqn:Hp; auto.
  destruct (MacroActionParameters.sequence p) as [[|d ds]|] eqn:Hs; auto.
  destruct (macro_loops backend config
              (_execute_action_sync_fuel backend config input_library
                 on_action_executed on_action_failed (Action.depth action))
              p _ _ _ _ _ _) as [[s' ex]|] eqn:Hl; [|discriminate].
  erewrite macro_loops_mono; [| |exact Hl]; [auto|].
  intros d' a' s0 x0 Hin Hfd Hx.
  rewrite sync_fuel_enough in Hx; [exact Hx|].
  exact (sub_action_depth _ action a' p _ d' Hp Hs Hin Hfd).
Qed.

Lemma sync_finish_dispatches (action : Action.t) (start_time : Q)
    (s2 : State W) (o : outcome (bool * string)) :
  dispatches
    (trace (fst (sync_finish backend config on_action_executed
                   on_action_failed action start_time s2 o)))
  = dispatches (trace s2).
Proof.
  assert (Hh : forall e s,
    dispatches (trace (fst (sync_handler backend config on_action_failed
                              action start_time e s)))
    = dispatches (trace s)).
  { intros e s. unfold sync_handler.
    match goal with
    | |- context [call_callback ?ev ?cb ?a ?r ?s0] =>
        destruct (call_callback_spec W ev cb a r s0) as (_ & _ & Ht);
        destruct (call_callback ev cb a r s0) as [s3 [u|e']]
    end; cbn [fst] in *; rewrite Ht; destruct on_action_failed;
    filter_trace; reflexivity. }
  unfold sync_finish. destruct o as [[success message]|e]; [|apply Hh].
  destruct success;
    match goal with
    | |- context [call_callback ?ev ?cb ?a ?r ?s0] =>
        destruct (call_callback_spec W ev cb a r s0) as (_ & _ & Ht);
        destruct (call_callback ev cb a r s0) as [s4 [u|e']]
    end; cbn [fst] in *; try rewrite Hh; rewrite Ht;
    try destruct on_action_executed; try destruct on_action_failed;
    filter_trace; reflexivity.
Qed.

(** The dispatch of an action that is no macro enters the primitive
    once. *)
Lemma sync_nonmacro_dispatches (action : Action.t) (s : State W) :
  Action.type action <> MACRO ->
  dispatches
    (trace (fst (_execute_action_sync backend config input_library
                   on_action_executed on_action_failed action s)))
  = (dispatches (trace s) ++ [EvDispatch action])%list.
Proof.
  intros Ht. destruct (sync_unfold action s) as (s2 & o & Hb & ->).
  rewrite sync_finish_dispatches.
  match type of Hb with
  | sync_branch _ _ _ ?f _ _ = _ =>
      destruct (sync_branch_quiet W backend config input_library f action
                  (sync_enter backend config action s) Ht)
        as (s2' & r & Hb' & Hq)
  end.
  rewrite Hb in Hb'. inversion Hb'; subst.
  destruct Hq as (_ & _ & -> & _).
  destruct (sync_enter_spec W backend config action s) as (_ & _ & ->).
  filter_trace. reflexivity.
Qed.

(** C3, as amended.  When the callbacks do not raise, every call of
    [_execute_action_sync] returns one result, also when the branch on the
    type raises; the history after the call is the history after the
    branch with the entry of [(action, result)] appended by
    [_add_to_history]: for a configured maximum of at least 1 that entry
    is the newest of the history, what is missing of the history after the
    branch is missing from its oldest end, and below the maximum the
    history is the one after the branch followed by that one entry; and
    the trace after the call is the trace after
    the branch followed by the one callback call that the result asks for:
    [on_action_executed] when [success=true] and that callback is set,
    [on_action_failed] when [success=false] and that one is set, and no
    call when the callback asked for is unset.  For an action that is no
    macro the branch adds no history entry and calls no callback, so the
    call as a whole adds one entry and makes at most that one callback
    call. *)
Theorem sync_one_result_one_entry (action : Action.t) (s : State W) :
  callback_returns on_action_executed ->
  callback_returns on_action_failed ->
  exists s2 o s' result,
    sync_branch backend config input_library
      (fun a s0 =>
         Some (_execute_action_sync backend config input_library
                 on_action_executed on_action_failed a s0))
      action (sync_enter backend config action s) = Some (s2, o) /\
    _execute_action_sync backend config input_library on_action_executed
      on_action_failed action s = (s', Return result) /\
    execution_history s'
    = execution_history (_add_to_history config action result s2) /\
    (1 <= get_or 1000 (ExecConfig.max_action_history config) ->
     (exists older,
        execution_history s'
        = (older ++ [history_entry action result])%list) /\
     (exists dropped,
        (execution_history s2 ++ [history_entry action result])%list
        = (dropped ++ execution_history s')%list) /\
     (Z.of_nat (length (execution_history s2))
      < get_or 1000 (ExecConfig.max_action_history config) ->
      execution_history s'
      = (execution_history s2 ++ [history_entry action result])%list)) /\
    trace s'
    = (trace s2 ++ expected_callback on_action_executed on_action_failed
                     action result)%list /\
    (Action.type action <> MACRO ->
     execution_history s2 = execution_history s /\
     callbacks (trace s2) = callbacks (trace s) /\
     callbacks (trace s')
     = (callbacks (trace s)
        ++ expected_callback on_action_executed on_action_failed action
             result)%list).
Proof.
  intros He Hf. destruct (sync_unfold action s) as (s2 & o & Hb & Hrun).
  destruct (sync_finish_spec W backend config on_action_executed
              on_action_failed action (time backend (world s)) s2 o)
    as (s' & result & Hfin & _ & _ & Hh & Htr); [|exact Hf|].
  { destruct o as [[[|] msg]|e]; auto. }
  exists s2, o, s', result. rewrite Hrun.
  split; [exact Hb|]. split; [exact Hfin|]. split; [exact Hh|].
  split.
  { intros Hmax. rewrite Hh.
    exact (add_to_history_newest W config action result s2 Hmax). }
  split; [exact Htr|]. intros Ht.
  match type of Hb with
  | sync_branch _ _ _ ?f _ _ = _ =>
      destruct (sync_branch_quiet W backend config input_library f action
                  (sync_enter backend config action s) Ht)
        as (s2' & r & Hb' & Hq)
  end.
  rewrite Hb in Hb'. inversion Hb'; subst s2' o.
  destruct Hq as (_ & Hqh & _ & Hqc).
  destruct (sync_enter_spec W backend config action s) as (_ & Heh & Het).
  rewrite Het in Hqc. revert Hqc. filter_trace. intros Hqc.
  split; [congruence|]. split; [exact Hqc|].
  rewrite Htr. unfold callbacks in *. rewrite filter_app, Hqc. f_equal.
  unfold expected_callback.
  destruct (ActionExecutionResult.success result);
    [destruct on_action_executed|destruct on_action_failed]; reflexivity.
Qed.


(** The handler of the primitive is reached by an exception of the branch
    itself: a macro action whose parameters object has no [sequence]
    comes back tagged [EXECUTION_ERROR]. *)
Lemma missing_sequence_is_execution_error (action : Action.t) (s : State W) :
  callback_returns on_action_failed ->
  Action.type action = MACRO ->
  (forall p, Action.parameters action <> MacroParams p) ->
  exists s' result,
    _execute_action_sync backend config input_library on_action_executed
      on_action_failed action s = (s', Return result) /\
    ActionExecutionResult.success result = false /\
    ActionExecutionResult.message result
    = "Execution error: "
      ++ exn_str (no_attribute (Action.parameters action) "sequence") /\
    ActionExecutionResult.error_code result = "EXECUTION_ERROR".
Proof.
  intros Hf Ht Hp.
  destruct (sync_unfold action s) as (s2 & o & Hb & Hrun).
  assert (Ho : o = Raise (no_attribute (Action.parameters action) "sequence")).
  { revert Hb. unfold sync_branch, _execute_macro_action. rewrite Ht.
    destruct (Action.parameters action) as [| | | |p];
      try (intros H; inversion H; reflexivity).
    now destruct (Hp p). }
  subst o.
  destruct (sync_finish_spec W backend config on_action_executed
              on_action_failed action (time backend (world s)) s2
              (Raise (no_attribute (Action.parameters action) "sequence"))
              I Hf)
    as (s' & result & Hfin & (Hs & Hm & Hc) & _).
  exists s', result. rewrite Hrun. auto.
Qed.

(** C6.  A macro with [loop_count=2] and three stored steps, the first of
    which dispatches with success and the second of which always fails
    (neither being a macro), [on_action_failed] not raising and the
    interlock clear: dispatching it enters the primitive for the macro and
    then twice more, for the first and the second step and for nothing
    else; it returns one failed result for the macro, whose message is
    ["Macro failed at action 2 (loop 1): "] followed by the message of the
    failed step, 2 being the number of steps executed. *)
Theorem macro_stops_at_failing_step (macro : Action.t)
    (p : MacroActionParameters.t) (d1 d2 d3 : ActionData) (s : State W) :
  callback_returns on_action_failed ->
  Action.type macro = MACRO ->
  Action.parameters macro = MacroParams p ->
  MacroActionParameters.sequence p = Some [d1; d2; d3] ->
  MacroActionParameters.loop_count p = 2 ->
  emergency_stop s = false ->
  (forall s0, exists a1 s1 r1,
     Action.from_dict (now_isoformat backend (world s0)) d1 = Return a1 /\
     Action.type a1 <> MACRO /\
     _execute_action_sync backend config input_library on_action_executed
       on_action_failed a1 s0 = (s1, Return r1) /\
     ActionExecutionResult.success r1 = true) ->
  (forall s0, exists a2 s1 r2,
     Action.from_dict (now_isoformat backend (world s0)) d2 = Return a2 /\
     Action.type a2 <> MACRO /\
     _execute_action_sync backend config input_library on_action_executed
       on_action_failed a2 s0 = (s1, Return r2) /\
     ActionExecutionResult.success r2 = false) ->
  exists a1 a2 step_message s' result,
    _execute_action_sync backend config input_library on_action_executed
      on_action_failed macro s = (s', Return result) /\
    ActionExecutionResult.success result = false /\
    ActionExecutionResult.message result
    = "Macro failed at action 2 (loop 1): " ++ step_message /\
    dispatches (trace s')
    = (dispatches (trace s)
       ++ [EvDispatch macro; EvDispatch a1; EvDispatch a2])%list /\
    length (dispatches (trace s'))
    = (length (dispatches (trace s)) + 1 + 2)%nat.
Proof.
  intros Hf Ht Hp Hs Hl Hclear H1 H2.
  destruct (sync_unfold macro s) as (s2 & o & Hb & Hrun).
  destruct (sync_enter_spec W backend config macro s) as (He & _ & Htr).
  set (s1 := sync_enter backend config macro s) in *.
  unfold sync_branch, _execute_macro_action in Hb.
  rewrite Ht, Hp, Hs, Hl in Hb.
  change (Z.to_nat 2) with 2%nat in Hb.
  cbn [macro_loops macro_sequence] in Hb.
  rewrite He, Hclear in Hb.
  destruct (H1 s1) as (a1 & s1' & r1 & Hd1 & Hn1 & Hr1 & Hs1).
  rewrite Hd1, Hr1, Hs1 in Hb. cbn [negb] in Hb.
  pose proof (sync_interlock W backend config input_library
                on_action_executed on_action_failed a1 s1) as Hi1.
  pose proof (sync_nonmacro_dispatches a1 s1 Hn1) as Hdis1.
  rewrite Hr1 in Hi1, Hdis1. cbn [fst] in Hi1, Hdis1.
  match type of Hb with
  | context [emergency_stop ?st] => set (s1'' := st) in *
  end.
  assert (Hs1'' : emergency_stop s1'' = false /\ trace s1'' = trace s1').
  { subst s1''. destruct (_ && _); cbn; split; congruence. }
  destruct Hs1'' as (He1 & Htr1).
  rewrite He1 in Hb.
  destruct (H2 s1'') as (a2 & s2' & r2 & Hd2 & Hn2 & Hr2 & Hs2).
  rewrite Hd2, Hr2, Hs2 in Hb. cbn [negb] in Hb.
  pose proof (sync_nonmacro_dispatches a2 s1'' Hn2) as Hdis2.
  rewrite Hr2 in Hdis2. cbn [fst] in Hdis2.
  inversion Hb; subst s2 o. clear Hb.
  match type of Hrun with
  | _ = sync_finish _ _ _ _ _ ?t ?st ?out =>
      destruct (sync_finish_spec W backend config on_action_executed
                  on_action_failed macro t st out I Hf)
        as (s' & result & Hfin & (Hsucc & Hmsg & _) & _);
      pose proof (sync_finish_dispatches macro t st out) as Hdis
  end.
  rewrite <- Hrun in Hfin, Hdis. rewrite Hfin in Hdis. cbn [fst] in Hdis.
  exists a1, a2, (ActionExecutionResult.message r2), s', result.
  split; [exact Hfin|]. split; [exact Hsucc|]. split; [exact Hmsg|].
  assert (Hall : dispatches (trace s')
                 = (dispatches (trace s)
                    ++ [EvDispatch macro; EvDispatch a1; EvDispatch a2])%list).
  { rewrite Hdis, Hdis2, Htr1, Hdis1, Htr. filter_trace.
    rewrite <- !app_assoc. reflexivity. }
  split; [exact Hall|]. rewrite Hall, length_app. cbn [length]. lia.
Qed.

(** C10.  A macro action whose [sequence] is unset or empty, the type and
    the subtype being allowed by the policy, passes validation with
    [(True, "")]; the macro routine returns [(False, "Macro sequence is
    empty")] for it whatever the state, without a sub-dispatch; and (when
    [on_action_failed] does not raise) dispatching it returns a failed
    result with that message. *)
Theorem empty_macro_validates_but_fails (types_config : TypesConfig)
    (now : string) (action : Action.t) (p : MacroActionParameters.t)
    (s : State W) :
  callback_returns on_action_failed ->
  Action.type action = MACRO ->
  Action.parameters action = MacroParams p ->
  MacroActionParameters.sequence p = None \/
  MacroActionParameters.sequence p = Some [] ->
  get_or false (TypeConfig.enabled (types_config MACRO)) = true ->
  In (Action.subtype action)
     (get_or [] (TypeConfig.actions (types_config MACRO))) ->
  validate_action types_config now action = (true, "") /\
  (forall sync,
     _execute_macro_action backend config sync action s
     = Some (s, Return (false, "Macro sequence is empty"))) /\
  exists s' result,
    _execute_action_sync backend config input_library on_action_executed
      on_action_failed action s = (s', Return result) /\
    ActionExecutionResult.success result = false /\
    ActionExecutionResult.message result = "Macro sequence is empty" /\
    dispatches (trace s') = (dispatches (trace s) ++ [EvDispatch action])%list.
Proof.
  intros Hf Ht Hp Hseq Hen Hsub.
  assert (Hmacro : forall sync s0,
            _execute_macro_action backend config sync action s0
            = Some (s0, Return (false, "Macro sequence is empty"))).
  { intros sync s0. unfold _execute_macro_action. rewrite Hp.
    destruct Hseq as [-> | ->]; reflexivity. }
  split; [|split; [intros sync; apply Hmacro|]].
  - unfold validate_action. cbn [validate_action_fuel].
    rewrite Ht, Hen. apply mem_In in Hsub. rewrite Hsub. cbn [negb].
    unfold _validate_macro_action. rewrite Hp.
    destruct Hseq as [-> | ->]; reflexivity.
  - destruct (sync_unfold action s) as (s2 & o & Hb & Hrun).
    unfold sync_branch in Hb. rewrite Ht, Hmacro in Hb.
    inversion Hb; subst s2 o. clear Hb.
    match type of Hrun with
    | _ = sync_finish _ _ _ _ _ ?t ?st ?out =>
        destruct (sync_finish_spec W backend config on_action_executed
                    on_action_failed action t st out I Hf)
          as (s' & result & Hfin & (Hsucc & Hmsg & _) & _);
        pose proof (sync_finish_dispatches action t st out) as Hdis
    end.
    rewrite <- Hrun in Hfin, Hdis. rewrite Hfin in Hdis. cbn [fst] in Hdis.
    exists s', result. repeat split; auto.
    rewrite Hdis.
    destruct (sync_enter_spec W backend config action s) as (_ & _ & ->).
    filter_trace. reflexivity.
Qed.

End Primitive.

(* ================================================================== *)
(** * The engine on the scenarios *)
(* ================================================================== *)

Lemma no_callback_returns : callback_returns Scenario.no_callback.
Proof. intros f Hf. discriminate Hf. Qed.

Lemma quiet_callback_returns : callback_returns Scenario.quiet_callback.
Proof. intros f Hf a r w. injection Hf as <-. reflexivity. Qed.

Lemma sync_one_result_one_entry_witness :
  exists s' result,
    _execute_action_sync Scenario.stub ACTION_EXECUTION_CONFIG (Some pynput)
      Scenario.quiet_callback Scenario.quiet_callback Scenario.click
      Scenario.idle = (s', Return result) /\
    execution_history s' = [history_entry Scenario.click result] /\
    callbacks (trace s')
    = expected_callback Scenario.quiet_callback Scenario.quiet_callback
        Scenario.click result /\
    expected_callback Scenario.quiet_callback Scenario.quiet_callback
      Scenario.click result
    = [EvExecuted Scenario.click result].
Proof.
  destruct (sync_one_result_one_entry unit Scenario.stub
              ACTION_EXECUTION_CONFIG (Some pynput) Scenario.quiet_callback
              Scenario.quiet_callback Scenario.click Scenario.idle)
    as (s2 & o & s' & result & Hb & Hrun & _ & Hnew & _ & Hq).
  - intros f Hf a r w. injection Hf as <-. reflexivity.
  - intros f Hf a r w. injection Hf as <-. reflexivity.
  - destruct Hq as (Hh2 & _ & Hcb); [discriminate|].
    destruct Hnew as (_ & _ & Hbelow); [cbn; lia|].
    rewrite Hh2 in Hbelow. exists s', result.
    split; [exact Hrun|]. split; [apply Hbelow; cbn; lia|].
    split; [exact Hcb|].
    cbv in Hrun. injection Hrun as _ <-. reflexivity.
Defined.

(** C3, as stated, fails: with the callbacks left unset, as the
    constructor leaves them, a click is dispatched with success and no
    callback is called. *)
Lemma unset_callbacks_are_not_called :
  exists s' result,
    _execute_action_sync Scenario.stub ACTION_EXECUTION_CONFIG (Some pynput)
      Scenario.no_callback Scenario.no_callback Scenario.click Scenario.idle
    = (s', Return result) /\
    ActionExecutionResult.success result = true /\
    length (execution_history s') = 1%nat /\
    callbacks (trace s') = [].
Proof.
  eexists. eexists. split; [reflexivity|]. repeat split.
Qed.



Lemma macro_stops_at_failing_step_witness :
  exists a1 a2 step_message s' result,
    _execute_action_sync Scenario.stub ACTION_EXECUTION_CONFIG (Some pynput)
      Scenario.quiet_callback Scenario.quiet_callback Scenario.three_steps
      Scenario.idle = (s', Return result) /\
    ActionExecutionResult.success result = false /\
    ActionExecutionResult.message result
    = "Macro failed at action 2 (loop 1): " ++ step_message /\
    dispatches (trace s')
    = (dispatches (trace Scenario.idle)
       ++ [EvDispatch Scenario.three_steps; EvDispatch a1; EvDispatch a2])%list
    /\
    length (dispatches (trace s'))
    = (length (dispatches (trace Scenario.idle)) + 1 + 2)%nat.
Proof.
  apply (macro_stops_at_failing_step unit Scenario.stub
           ACTION_EXECUTION_CONFIG (Some pynput) Scenario.quiet_callback
           Scenario.quiet_callback Scenario.three_steps
           (MacroActionParameters.mk
              (Some [Action.to_dict Scenario.click;
                     Action.to_dict Scenario.close_app;
                     Action.to_dict Scenario.click]) 2 (1 # 10))
           (Action.to_dict Scenario.click)
           (Action.to_dict Scenario.close_app)
           (Action.to_dict Scenario.click) Scenario.idle).
  - intros f Hf a r w. injection Hf as <-. reflexivity.
  - reflexivity.
  - reflexivity.
  - reflexivity.
  - reflexivity.
  - reflexivity.
  - intros s0. eexists. eexists. eexists.
    split; [reflexivity|]. split; [discriminate|].
    split; reflexivity.
  - intros s0. eexists. eexists. eexists.
    split; [reflexivity|]. split; [discriminate|].
    split; reflexivity.
Defined.

Lemma empty_macro_validates_but_fails_witness :
  validate_action ACTION_TYPES_CONFIG Scenario.clock Scenario.empty_macro
  = (true, "") /\
  (forall sync,
     _execute_macro_action Scenario.stub ACTION_EXECUTION_CONFIG sync
       Scenario.empty_macro Scenario.idle
     = Some (Scenario.idle, Return (false, "Macro sequence is empty"))) /\
  exists s' result,
    _execute_action_sync Scenario.stub ACTION_EXECUTION_CONFIG (Some pynput)
      Scenario.no_callback Scenario.no_callback Scenario.empty_macro
      Scenario.idle = (s', Return result) /\
    ActionExecutionResult.success result = false /\
    ActionExecutionResult.message result = "Macro sequence is empty" /\
    dispatches (trace s')
    = (dispatches (trace Scenario.idle)
       ++ [EvDispatch Scenario.empty_macro])%list.
Proof.
  apply (empty_macro_validates_but_fails unit Scenario.stub
           ACTION_EXECUTION_CONFIG (Some pynput) Scenario.no_callback
           Scenario.no_callback ACTION_TYPES_CONFIG Scenario.clock
           Scenario.empty_macro
           (MacroActionParameters.mk (Some []) 1 (1 # 10)) Scenario.idle).
  - intros f Hf. discriminate Hf.
  - reflexivity.
  - reflexivity.
  - right. reflexivity.
  - reflexivity.
  - simpl. right. left. reflexivity.
Defined.

(** The three-step scenario run through: three history entries, the
    second click never dispatched. *)
Example three_steps_run :
  exists s' result,
    _execute_action_sync Scenario.stub ACTION_EXECUTION_CONFIG (Some pynput)
      Scenario.no_callback Scenario.no_callback Scenario.three_steps
      Scenario.idle = (s', Return result) /\
    ActionExecutionResult.message result
    = "Macro failed at action 2 (loop 1): Application close not implemented yet"
    /\ dispatches (trace s')
       = [EvDispatch Scenario.three_steps; EvDispatch Scenario.click;
          EvDispatch Scenario.close_app]
    /\ length (backend_calls (trace s')) = 1%nat
    /\ length (execution_history s') = 3%nat.
Proof.
  eexists. eexists. split; [reflexivity|]. repeat split.
Qed.

Example repr_of_key_list : Py.str_of_list ["f4"] = "['f4']".
Proof. reflexivity. Qed.

Example slice_keeps_all_at_zero : Py.slice_from (- 0) [1; 2; 3] = [1; 2; 3].
Proof. reflexivity. Qed.

Example slice_keeps_the_newest : Py.slice_from (- 2) [1; 2; 3] = [2; 3].
Proof. reflexivity. Qed.

(** A callback that raises breaks the count: [on_action_executed] raises
    after the entry of the successful result is in the history, the
    handler adds a second entry for a second result and calls
    [on_action_failed]. *)
Example raising_callback_doubles_the_entry :
  exists s' result,
    _execute_action_sync Scenario.stub ACTION_EXECUTION_CONFIG (Some pynput)
      Scenario.raising_callback Scenario.quiet_callback Scenario.click
      Scenario.idle = (s', Return result) /\
    ActionExecutionResult.error_code result = "EXECUTION_ERROR" /\
    ActionExecutionResult.message result = "Execution error: callback failed"
    /\ map HistoryEntry.success (execution_history s') = [true; false]
    /\ length (callbacks (trace s')) = 2%nat.
Proof.
  eexists. eexists. split; [reflexivity|]. repeat split.
Qed.

(** And an [on_action_failed] that raises inside the handler lets its
    exception out of the primitive. *)
Example raising_failure_callback_escapes :
  exists s',
    _execute_action_sync Scenario.broken_mouse ACTION_EXECUTION_CONFIG
      (Some pynput) Scenario.no_callback Scenario.raising_callback
      Scenario.click Scenario.idle
    = (s', Raise (Exn OtherException "callback failed")).
Proof. eexists. reflexivity. Qed.

(* ================================================================== *)
(** * More on the validator *)
(* ================================================================== *)

Lemma find_none_iff (A : Type) (f : A -> bool) (l : list A) :
  find f l = None <-> forall x, In x l -> f x = false.
Proof.
  split.
  - intros H x Hin. exact (find_none f l H x Hin).
  - induction l as [|y l IH]; intros H; [reflexivity|]. simpl.
    rewrite (H y (or_introl eq_refl)). apply IH.
    intros x Hin. apply H. now right.
Qed.

Section MoreValidation.

Variable config : TypesConfig.
Variable now : string.

(** What [validate_action] is once the two gates of the policy are
    passed. *)
Lemma validate_action_passed_gates (a : Action.t) :
  get_or false (TypeConfig.enabled (config (Action.type a))) = true ->
  In (Action.subtype a)
     (get_or [] (TypeConfig.actions (config (Action.type a)))) ->
  validate_action config now a
  = match Action.type a with
    | MOUSE => _validate_mouse_action a
    | KEYBOARD => _validate_keyboard_action config a
    | APPLICATION => _validate_application_action config a
    | MACRO =>
        get_or (false, "")
          (_validate_macro_action config now
             (validate_action_fuel config now (Action.depth a)) a)
    | SYSTEM => _validate_system_action config a
    end.
Proof.
  intros Hen Hsub. unfold validate_action. cbn [validate_action_fuel].
  rewrite Hen. apply mem_In in Hsub. rewrite Hsub. cbn [negb].
  destruct (Action.type a); reflexivity.
Qed.

(** Launching an application: with the type and the subtype allowed by
    the policy, the action passes validation exactly when its path is not
    empty, no blocked entry occurs in it, and the allow-list is empty or
    one of its entries occurs in it; an entry occurs in a path when its
    lower-case form is a substring of the lower-case path. *)
Theorem launch_validation_iff (a : Action.t)
    (p : ApplicationActionParameters.t) :
  Action.type a = APPLICATION ->
  Action.subtype a = "launch" ->
  Action.parameters a = ApplicationParams p ->
  get_or false (TypeConfig.enabled (config APPLICATION)) = true ->
  In "launch" (get_or [] (TypeConfig.actions (config APPLICATION))) ->
  let path := ApplicationActionParameters.path p in
  let blocked := get_or [] (TypeConfig.blocked_paths (config APPLICATION)) in
  let allowed := get_or [] (TypeConfig.allowed_paths (config APPLICATION)) in
  fst (validate_action config now a) = true <->
  path <> "" /\
  (forall b, In b blocked ->
             Py.contains (Py.lower b) (Py.lower path) = false) /\
  (allowed = [] \/
   exists e, In e allowed /\
             Py.contains (Py.lower e) (Py.lower path) = true).
Proof.
  intros Ht Hs Hp Hen Hsub path blocked allowed.
  rewrite validate_action_passed_gates by (rewrite ?Ht, ?Hs; assumption).
  rewrite Ht. unfold _validate_application_action. rewrite Hs, Hp.
  cbn [String.eqb Ascii.eqb Bool.eqb]. fold path. fold blocked. fold allowed.
  destruct (String.eqb_spec path "") as [Hempty|Hpath].
  { cbn [fst]. split; [discriminate|]. intros (H & _). contradiction. }
  destruct (find _ blocked) as [b|] eqn:Hfind.
  { cbn [fst]. split; [discriminate|]. intros (_ & Hb & _).
    apply find_some in Hfind. destruct Hfind as (Hin & Hc).
    rewrite (Hb b Hin) in Hc. discriminate. }
  rewrite find_none_iff in Hfind.
  destruct allowed as [|e0 rest] eqn:Hallowed.
  { cbn [fst]. split; [intros _|reflexivity]. auto. }
  destruct (existsb _ (e0 :: rest)) eqn:Hex; cbn [fst].
  - split; [intros _|reflexivity]. split; [exact Hpath|].
    split; [exact Hfind|]. right. apply existsb_exists in Hex.
    destruct Hex as (e & Hin & Hc). eauto.
  - split; [discriminate|]. intros (_ & _ & [Hnil | (e & Hin & Hc)]);
      [discriminate|].
    assert (Hex' : existsb
              (fun allowed_path =>
                 Py.contains (Py.lower allowed_path) (Py.lower path))
              (e0 :: rest) = true)
      by (apply existsb_exists; eauto).
    rewrite Hex in Hex'. discriminate.
Qed.

(** A blocked entry wins over the allow-list: a launch whose path holds a
    blocked entry is rejected, whatever the allow-list holds. *)
Theorem blocked_path_is_rejected (a : Action.t)
    (p : ApplicationActionParameters.t) (b : string) :
  Action.type a = APPLICATION ->
  Action.subtype a = "launch" ->
  Action.parameters a = ApplicationParams p ->
  In b (get_or [] (TypeConfig.blocked_paths (config APPLICATION))) ->
  Py.contains (Py.lower b) (Py.lower (ApplicationActionParameters.path p))
  = true ->
  fst (validate_action config now a) = false.
Proof.
  intros Ht Hs Hp Hin Hc. unfold validate_action.
  cbn [validate_action_fuel].
  destruct (negb (get_or false _)); [reflexivity|].
  destruct (negb (Py.mem _ _)); [reflexivity|].
  rewrite Ht. cbn [get_or]. unfold _validate_application_action.
  rewrite Hs, Hp. cbn [String.eqb Ascii.eqb Bool.eqb].
  destruct (_ =? "")%string; [reflexivity|].
  destruct (find _ _) as [b'|] eqn:Hfind; [reflexivity|].
  rewrite find_none_iff in Hfind. rewrite (Hfind b Hin) in Hc. discriminate.
Qed.

(** Typing text: with the type and the subtype allowed by the policy, a
    type_text action passes validation exactly when its text has at most
    1000 characters; the deny-list of keys is not consulted for it. *)
Theorem type_text_validation_iff (a : Action.t)
    (p : KeyboardActionParameters.t) :
  Action.type a = KEYBOARD ->
  Action.subtype a = "type_text" ->
  Action.parameters a = KeyboardParams p ->
  get_or false (TypeConfig.enabled (config KEYBOARD)) = true ->
  In "type_text" (get_or [] (TypeConfig.actions (config KEYBOARD))) ->
  fst (validate_action config now a) = true <->
  (String.length (KeyboardActionParameters.text p) <= 1000)%nat.
Proof.
  intros Ht Hs Hp Hen Hsub.
  rewrite validate_action_passed_gates by (rewrite ?Ht, ?Hs; assumption).
  rewrite Ht. unfold _validate_keyboard_action. rewrite Hs, Hp.
  cbn [Py.mem existsb String.eqb Ascii.eqb Bool.eqb orb andb].
  destruct (Z.gtb_spec
              (Z.of_nat (String.length (KeyboardActionParameters.text p)))
              1000) as [Hgt|Hle]; cbn [fst]; split; intros H;
    try discriminate; try reflexivity; lia.
Qed.

(** The validator reads the type, the subtype and the parameters of an
    action and nothing else: not its [enabled] flag, its
    [requires_confirmation] flag, its timeout, its id or its texts. *)
Theorem validation_ignores_metadata (a : Action.t) (id' name' description' :
    string) (enabled' requires_confirmation' : bool) (timeout' : Q)
    (created_date' : string) :
  validate_action config now
    (Action.mk id' (Action.type a) (Action.subtype a) (Action.parameters a)
       name' description' enabled' requires_confirmation' timeout'
       created_date')
  = validate_action config now a.
Proof. apply validate_action_ext; reflexivity. Qed.

End MoreValidation.

Lemma launch_validation_iff_witness :
  fst (validate_action (Cases.with_paths ["blocked"] ["/usr/bin"])
         Scenario.clock (Cases.launch "/usr/bin/editor" [])) = true <->
  "/usr/bin/editor" <> "" /\
  (forall b, In b ["blocked"] ->
             Py.contains (Py.lower b) (Py.lower "/usr/bin/editor") = false) /\
  (["/usr/bin"] = [] \/
   exists e, In e ["/usr/bin"] /\
             Py.contains (Py.lower e) (Py.lower "/usr/bin/editor") = true).
Proof.
  apply (launch_validation_iff (Cases.with_paths ["blocked"] ["/usr/bin"])
           Scenario.clock (Cases.launch "/usr/bin/editor" [])
           (ApplicationActionParameters.mk "/usr/bin/editor" (Some []) ""
              "" "")).
  - reflexivity.
  - reflexivity.
  - reflexivity.
  - reflexivity.
  - simpl. left. reflexivity.
Defined.

Lemma blocked_path_is_rejected_witness :
  fst (validate_action (Cases.with_paths ["blocked"] ["/bin"])
         Scenario.clock (Cases.launch "/bin/Blocked" [])) = false.
Proof.
  apply (blocked_path_is_rejected (Cases.with_paths ["blocked"] ["/bin"])
           Scenario.clock (Cases.launch "/bin/Blocked" [])
           (ApplicationActionParameters.mk "/bin/Blocked" (Some []) "" "" "")
           "blocked").
  - reflexivity.
  - reflexivity.
  - reflexivity.
  - simpl. left. reflexivity.
  - reflexivity.
Defined.

Lemma type_text_validation_iff_witness :
  fst (validate_action ACTION_TYPES_CONFIG Scenario.clock
         (Cases.type_text "delete f4")) = true <->
  (String.length "delete f4" <= 1000)%nat.
Proof.
  apply (type_text_validation_iff ACTION_TYPES_CONFIG Scenario.clock
           (Cases.type_text "delete f4")
           (KeyboardActionParameters.mk (KeysStr "") "delete f4" (Some [])
              (5 # 100))).
  - reflexivity.
  - reflexivity.
  - reflexivity.
  - reflexivity.
  - simpl. right. right. left. reflexivity.
Defined.

(* ================================================================== *)
(** * The validator on macros *)
(* ================================================================== *)

Section MacroValidation.

Variable config : TypesConfig.
Variable now : string.

Lemma validate_sequence_true_iff
    (v : Action.t -> option (bool * string)) (l : list ActionData) :
  forall i r,
    validate_sequence now v i l = Some r ->
    (fst r = true <->
     forall d, In d l ->
       exists sub e, Action.from_dict now d = Return sub /\
                     v sub = Some (true, e)).
Proof.
  induction l as [|d l IH]; intros i r; cbn [validate_sequence].
  - intros H. inversion H. cbn. split; [intros _ d []|reflexivity].
  - destruct (Action.from_dict now d) as [sub|e] eqn:Hd.
    + destruct (v sub) as [[ok err]|] eqn:Hv; [|discriminate].
      destruct ok; cbn [negb].
      * intros H. rewrite (IH _ _ H). split.
        -- intros Hall d' [<-|Hin]; [eauto|auto].
        -- intros Hall d' Hin. apply Hall. now right.
      * intros H. inversion H. cbn [fst]. split; [discriminate|].
        intros Hall. destruct (Hall d (or_introl eq_refl))
          as (sub' & e' & Hd' & Hv').
        rewrite Hd in Hd'. inversion Hd'; subst sub'.
        rewrite Hv in Hv'. discriminate.
    + intros H. inversion H. cbn [fst]. split; [discriminate|].
      intros Hall. destruct (Hall d (or_introl eq_refl))
        as (sub' & e' & Hd' & _).
      rewrite Hd in Hd'. discriminate.
Qed.

Lemma validate_sequence_first_failure
    (v : Action.t -> option (bool * string)) (pre post : list ActionData)
    (d : ActionData) (verdict : Z -> string) :
  (forall d', In d' pre ->
     exists sub e, Action.from_dict now d' = Return sub /\
                   v sub = Some (true, e)) ->
  (forall i, validate_sequence now v i [d] = Some (false, verdict i)) ->
  forall i,
    validate_sequence now v i (pre ++ d :: post)%list
    = Some (false, verdict (i + Z.of_nat (length pre))%Z).
Proof.
  intros Hpre Hd. induction pre as [|d0 pre IH]; intros i.
  - cbn [app length Z.of_nat]. rewrite Z.add_0_r.
    specialize (Hd i). cbn [validate_sequence] in *.
    destruct (Action.from_dict now d) as [sub|e]; [|exact Hd].
    destruct (v sub) as [[[|] err]|]; cbn [negb] in *;
      try discriminate; exact Hd.
  - cbn [app validate_sequence].
    destruct (Hpre d0 (or_introl eq_refl)) as (sub & e & -> & ->).
    cbn [negb]. rewrite IH by (intros d' Hin; apply Hpre; now right).
    f_equal. f_equal. f_equal. cbn [length]. lia.
Qed.

(** The sub-actions of a macro are validated like actions of their own:
    with fuel for the macro, the recursive call on a step is
    [validate_action] of the step. *)
Lemma macro_validation_unfold (a : Action.t) (p : MacroActionParameters.t)
    (l : list ActionData) (i : Z) :
  Action.parameters a = MacroParams p ->
  MacroActionParameters.sequence p = Some l ->
  validate_sequence now (validate_action_fuel config now (Action.depth a))
    i l
  = validate_sequence now (fun sub => Some (validate_action config now sub))
      i l.
Proof.
  intros Hp Hs.
  destruct (validate_sequence_total now
              (validate_action_fuel config now (Action.depth a)) l)
    with (i := i) as [r Hr].
  { intros d sub Hin Hd. apply validate_action_fuel_total.
    exact (sub_action_depth now a sub p l d Hp Hs Hin Hd). }
  rewrite Hr. symmetry. revert Hr. apply validate_sequence_mono.
  intros d sub r' Hin Hd Hv.
  rewrite validate_action_fuel_enough in Hv; [exact Hv|].
  exact (sub_action_depth now a sub p l d Hp Hs Hin Hd).
Qed.

(** A macro with a non-empty sequence, its type and subtype allowed by
    the policy, passes validation exactly when the sequence is no longer
    than the configured maximum (20 when unset) and every stored step can
    be read back by [from_dict] into an action that passes validation
    itself; a nested macro is validated like any other step. *)
Theorem macro_validation_iff (a : Action.t) (p : MacroActionParameters.t)
    (l : list ActionData) :
  Action.type a = MACRO ->
  Action.parameters a = MacroParams p ->
  MacroActionParameters.sequence p = Some l ->
  l <> [] ->
  get_or false (TypeConfig.enabled (config MACRO)) = true ->
  In (Action.subtype a) (get_or [] (TypeConfig.actions (config MACRO))) ->
  fst (validate_action config now a) = true <->
  Z.of_nat (length l)
  <= get_or 20 (TypeConfig.max_sequence_length (config MACRO)) /\
  forall d, In d l ->
    exists sub, Action.from_dict now d = Return sub /\
                fst (validate_action config now sub) = true.
Proof.
  intros Ht Hp Hs Hne Hen Hsub.
  rewrite validate_action_passed_gates by (rewrite ?Ht; assumption).
  rewrite Ht. unfold _validate_macro_action. rewrite Hp, Hs.
  destruct l as [|d ds]; [contradiction|].
  destruct (Z.gtb_spec (Z.of_nat (length (d :: ds)))
              (get_or 20 (TypeConfig.max_sequence_length (config MACRO))))
    as [Hgt|Hle].
  { cbn [get_or fst]. split; [discriminate|]. intros (H & _). lia. }
  rewrite (macro_validation_unfold a p (d :: ds) 0 Hp Hs).
  destruct (validate_sequence_total now
              (fun sub => Some (validate_action config now sub)) (d :: ds))
    with (i := 0) as [r Hr]; [eauto|].
  rewrite Hr. cbn [get_or].
  rewrite (validate_sequence_true_iff _ _ _ _ Hr). split.
  - intros Hall. split; [exact Hle|]. intros d' Hin.
    destruct (Hall d' Hin) as (sub & e & Hd & Hv).
    exists sub. split; [exact Hd|]. inversion Hv as [Hv']. now rewrite Hv'.
  - intros (_ & Hall) d' Hin. destruct (Hall d' Hin) as (sub & Hd & Hv).
    exists sub, (snd (validate_action config now sub)).
    split; [exact Hd|]. f_equal.
    destruct (validate_action config now sub) as [ok e]. cbn in *.
    now subst.
Qed.

(** The reason of a rejected macro names the first step that fails, by
    its 1-based position.  For a macro whose type is enabled, whose
    subtype is allowed and whose sequence is no longer than the configured
    maximum (20 when unset; a longer one is rejected for its length before
    any step is looked at): when the steps before position k pass and the
    step at k is read back into an action that the validator rejects with
    [error], the macro is rejected with ["Invalid action at position k:
    error"]. *)
Theorem macro_rejection_names_first_failure (a : Action.t)
    (p : MacroActionParameters.t) (pre post : list ActionData)
    (d : ActionData) (sub : Action.t) (error : string) :
  Action.type a = MACRO ->
  Action.parameters a = MacroParams p ->
  MacroActionParameters.sequence p = Some (pre ++ d :: post)%list ->
  get_or false (TypeConfig.enabled (config MACRO)) = true ->
  In (Action.subtype a) (get_or [] (TypeConfig.actions (config MACRO))) ->
  Z.of_nat (length (pre ++ d :: post))
  <= get_or 20 (TypeConfig.max_sequence_length (config MACRO)) ->
  (forall d', In d' pre ->
     exists sub', Action.from_dict now d' = Return sub' /\
                  fst (validate_action config now sub') = true) ->
  Action.from_dict now d = Return sub ->
  validate_action config now sub = (false, error) ->
  validate_action config now a
  = (false, "Invalid action at position "
            ++ Py.str_of_int (Z.of_nat (length pre) + 1) ++ ": " ++ error).
Proof.
  intros Ht Hp Hs Hen Hsub Hlen Hpre Hd Hv.
  rewrite validate_action_passed_gates by (rewrite ?Ht; assumption).
  rewrite Ht. unfold _validate_macro_action. rewrite Hp, Hs.
  destruct (pre ++ d :: post)%list as [|d0 ds] eqn:Hl.
  { destruct pre; discriminate. }
  destruct (Z.gtb_spec (Z.of_nat (length (d0 :: ds)))
              (get_or 20 (TypeConfig.max_sequence_length (config MACRO))))
    as [Hgt|_]; [lia|].
  rewrite <- Hl in *.
  rewrite (macro_validation_unfold a p _ 0 Hp Hs).
  rewrite (validate_sequence_first_failure
             (fun sub => Some (validate_action config now sub)) pre post d
             (fun i => "Invalid action at position "
                       ++ Py.str_of_int (i + 1) ++ ": " ++ error)).
  - reflexivity.
  - intros d' Hin. destruct (Hpre d' Hin) as (sub' & Hd' & Hv').
    exists sub', (snd (validate_action config now sub')).
    split; [exact Hd'|]. f_equal.
    destruct (validate_action config now sub'). cbn in *. now subst.
  - intros i. cbn [validate_sequence]. rewrite Hd, Hv. reflexivity.
Qed.

End MacroValidation.

Lemma macro_validation_iff_witness :
  fst (validate_action ACTION_TYPES_CONFIG Scenario.clock
         (Cases.macro [Action.to_dict Scenario.click;
                       Action.to_dict Scenario.close_app] 1)) = true <->
  Z.of_nat (length [Action.to_dict Scenario.click;
                    Action.to_dict Scenario.close_app])
  <= get_or 20 (TypeConfig.max_sequence_length (ACTION_TYPES_CONFIG MACRO)) /\
  forall d, In d [Action.to_dict Scenario.click;
                  Action.to_dict Scenario.close_app] ->
    exists sub, Action.from_dict Scenario.clock d = Return sub /\
                fst (validate_action ACTION_TYPES_CONFIG Scenario.clock sub)
                = true.
Proof.
  apply (macro_validation_iff ACTION_TYPES_CONFIG Scenario.clock
           (Cases.macro [Action.to_dict Scenario.click;
                         Action.to_dict Scenario.close_app] 1)
           (MacroActionParameters.mk
              (Some [Action.to_dict Scenario.click;
                     Action.to_dict Scenario.close_app]) 1 (1 # 10))).
  - reflexivity.
  - reflexivity.
  - reflexivity.
  - discriminate.
  - reflexivity.
  - simpl. right. left. reflexivity.
Defined.

Lemma macro_rejection_names_first_failure_witness :
  validate_action ACTION_TYPES_CONFIG Scenario.clock
    (Cases.macro [Action.to_dict Scenario.click;
                  Action.to_dict Scenario.alt_f4;
                  Action.to_dict Scenario.lock_screen] 1)
  = (false, "Invalid action at position "
            ++ Py.str_of_int (Z.of_nat (length [Action.to_dict Scenario.click])
                              + 1)
            ++ ": " ++ "Dangerous key combination detected: f4").
Proof.
  apply (macro_rejection_names_first_failure ACTION_TYPES_CONFIG
           Scenario.clock
           (Cases.macro [Action.to_dict Scenario.click;
                         Action.to_dict Scenario.alt_f4;
                         Action.to_dict Scenario.lock_screen] 1)
           (MacroActionParameters.mk
              (Some [Action.to_dict Scenario.click;
                     Action.to_dict Scenario.alt_f4;
                     Action.to_dict Scenario.lock_screen]) 1 (1 # 10))
           [Action.to_dict Scenario.click]
           [Action.to_dict Scenario.lock_screen]
           (Action.to_dict Scenario.alt_f4) Scenario.alt_f4
           "Dangerous key combination detected: f4").
  - reflexivity.
  - reflexivity.
  - reflexivity.
  - reflexivity.
  - simpl. right. left. reflexivity.
  - simpl. lia.
  - intros d' [<-|[]]. exists Scenario.click. split; reflexivity.
  - reflexivity.
  - reflexivity.
Defined.

(* ================================================================== *)
(** * Storage: to_dict and from_dict *)
(* ================================================================== *)

(** An action whose parameters object is of the class of its type (the
    base class for the type system) and whose date is set comes back
    unchanged from its storage form, whatever the clock reads. *)
Theorem from_dict_to_dict (now : string) (a : Action.t) :
  class_is_built a = true ->
  Action.created_date a <> "" ->
  Action.from_dict now (Action.to_dict a) = Return a.
Proof.
  destruct a as [i t st ps nm ds en rc tm cd]. unfold class_is_built.
  cbn [Action.type Action.parameters Action.created_date]. intros H Hcd.
  assert (Hdate : (if cd =? "" then now else cd) = cd).
  { destruct (String.eqb_spec cd ""); [contradiction|reflexivity]. }
  destruct t; destruct ps as [|p|p|p|p]; try discriminate H;
    try destruct p; cbn; unfold Action.new; rewrite Hdate; reflexivity.
Qed.

Lemma from_dict_to_dict_witness :
  Action.from_dict "any" (Action.to_dict Scenario.three_steps)
  = Return Scenario.three_steps.
Proof.
  apply (from_dict_to_dict "any" Scenario.three_steps).
  - reflexivity.
  - discriminate.
Defined.

Lemma MouseActionParameters_init_fits (kw : list kwarg) :
  forall p,
    (exists p', MouseActionParameters_init kw p = Return p') <->
    forallb (kwarg_fits MOUSE) kw = true.
Proof.
  induction kw as [|k kw IH]; intros [a b c d e f g h i j k0].
  - cbn. split; eauto.
  - destruct k; cbn [MouseActionParameters_init forallb kwarg_fits
      kwarg_class ActionType_eqb andb];
      try apply IH; split; try discriminate; intros [p' H]; discriminate.
Qed.

Lemma KeyboardActionParameters_init_fits (kw : list kwarg) :
  forall p,
    (exists p', KeyboardActionParameters_init kw p = Return p') <->
    forallb (kwarg_fits KEYBOARD) kw = true.
Proof.
  induction kw as [|k kw IH]; intros [a b c d].
  - cbn. split; eauto.
  - destruct k; cbn [KeyboardActionParameters_init forallb kwarg_fits
      kwarg_class ActionType_eqb andb];
      try apply IH; split; try discriminate; intros [p' H]; discriminate.
Qed.

Lemma ApplicationActionParameters_init_fits (kw : list kwarg) :
  forall p,
    (exists p', ApplicationActionParameters_init kw p = Return p') <->
    forallb (kwarg_fits APPLICATION) kw = true.
Proof.
  induction kw as [|k kw IH]; intros [a b c d e].
  - cbn. split; eauto.
  - destruct k; cbn [ApplicationActionParameters_init forallb kwarg_fits
      kwarg_class ActionType_eqb andb];
      try apply IH; split; try discriminate; intros [p' H]; discriminate.
Qed.

Lemma MacroActionParameters_init_fits (kw : list kwarg) :
  forall p,
    (exists p', MacroActionParameters_init kw p = Return p') <->
    forallb (kwarg_fits MACRO) kw = true.
Proof.
  induction kw as [|k kw IH]; intros [a b c].
  - cbn. split; eauto.
  - destruct k; cbn [MacroActionParameters_init forallb kwarg_fits
      kwarg_class ActionType_eqb andb];
      try apply IH; split; try discriminate; intros [p' H]; discriminate.
Qed.

Lemma forallb_fits_system (kw : list kwarg) :
  forallb (kwarg_fits SYSTEM) kw = true.
Proof. induction kw as [|k kw IH]; [reflexivity|exact IH]. Qed.

(** What [from_dict] accepts: a stored action is read back exactly when
    its ['type'] is the value of an action type, every key of its
    ['parameters'] is a field of the parameter class of that type (any
    key for the type system, whose parameters are dropped), and ['id'] and
    ['subtype'] are present; the other keys may be absent.  The action
    read back has that type, id and subtype. *)
Theorem from_dict_succeeds_iff (now : string)
    (d_id d_type d_subtype : option string)
    (d_parameters : option (list kwarg)) (d_name d_description : option string)
    (d_enabled d_requires_confirmation : option bool) (d_timeout : option Q)
    (d_created_date : option string) :
  let data := Data d_id d_type d_subtype d_parameters d_name d_description
                d_enabled d_requires_confirmation d_timeout d_created_date in
  ((exists a, Action.from_dict now data = Return a) <->
   exists ty t i st,
     d_type = Some ty /\ ActionType_of_value ty = Return t /\
     forallb (kwarg_fits t) (get_or [] d_parameters) = true /\
     d_id = Some i /\ d_subtype = Some st) /\
  (forall a, Action.from_dict now data = Return a ->
     exists ty,
       d_type = Some ty /\ ActionType_of_value ty = Return (Action.type a) /\
       d_id = Some (Action.id a) /\ d_subtype = Some (Action.subtype a)).
Proof.
  intros data.
  assert (Hparams : forall t,
    (exists ps,
       match t with
       | MOUSE =>
           map_outcome MouseParams
             (MouseActionParameters_init (get_or [] d_parameters)
                MouseActionParameters.default)
       | KEYBOARD =>
           map_outcome KeyboardParams
             (KeyboardActionParameters_init (get_or [] d_parameters)
                KeyboardActionParameters.default)
       | APPLICATION =>
           map_outcome ApplicationParams
             (ApplicationActionParameters_init (get_or [] d_parameters)
                ApplicationActionParameters.default)
       | MACRO =>
           map_outcome MacroParams
             (MacroActionParameters_init (get_or [] d_parameters)
                MacroActionParameters.default)
       | SYSTEM => Return BaseParams
       end = Return ps) <->
    forallb (kwarg_fits t) (get_or [] d_parameters) = true).
  { intros t. destruct t; unfold map_outcome.
    - rewrite <- (MouseActionParameters_init_fits _
                    MouseActionParameters.default).
      destruct (MouseActionParameters_init _ _) as [p|e]; cbn [bind_outcome];
        split; intros [x H]; try discriminate; eauto.
    - rewrite <- (KeyboardActionParameters_init_fits _
                    KeyboardActionParameters.default).
      destruct (KeyboardActionParameters_init _ _) as [p|e];
        cbn [bind_outcome]; split; intros [x H]; try discriminate; eauto.
    - rewrite <- (ApplicationActionParameters_init_fits _
                    ApplicationActionParameters.default).
      destruct (ApplicationActionParameters_init _ _) as [p|e];
        cbn [bind_outcome]; split; intros [x H]; try discriminate; eauto.
    - rewrite <- (MacroActionParameters_init_fits _
                    MacroActionParameters.default).
      destruct (MacroActionParameters_init _ _) as [p|e]; cbn [bind_outcome];
        split; intros [x H]; try discriminate; eauto.
    - split; [intros _; apply forallb_fits_system|eauto]. }
  subst data. unfold Action.from_dict. split; [split|].
  - intros [a Ha].
    destruct d_type as [ty|]; [|discriminate].
    destruct (ActionType_of_value ty) as [t|] eqn:Ht; [|discriminate].
    cbn [bind_outcome] in Ha. exists ty, t.
    match type of Ha with
    | bind_outcome ?m _ = _ => destruct m as [ps|e] eqn:Hps; [|discriminate]
    end.
    assert (Hfit : forallb (kwarg_fits t) (get_or [] d_parameters) = true)
      by (apply Hparams; eauto).
    cbn [bind_outcome] in Ha.
    destruct d_id as [i|]; [|discriminate].
    destruct d_subtype as [st|]; [|discriminate].
    exists i, st. repeat split; auto.
  - intros (ty & t & i & st & -> & Ht & Hfit & -> & ->).
    rewrite Ht. cbn [bind_outcome].
    apply Hparams in Hfit. destruct Hfit as [ps Hps]. rewrite Hps.
    cbn [bind_outcome]. eauto.
  - intros a Ha.
    destruct d_type as [ty|]; [|discriminate].
    destruct (ActionType_of_value ty) as [t|] eqn:Ht; [|discriminate].
    cbn [bind_outcome] in Ha.
    match type of Ha with
    | bind_outcome ?m _ = _ => destruct m as [ps|e]; [|discriminate]
    end.
    cbn [bind_outcome] in Ha.
    destruct d_id as [i|]; [|discriminate].
    destruct d_subtype as [st|]; [|discriminate].
    inversion Ha. exists ty. repeat split. exact Ht.
Qed.

(** Every action that [from_dict] builds can be stored and read back
    unchanged, when the clock it was built under does not read the empty
    string. *)
Theorem to_dict_of_decoded (now now' : string) (data : ActionData)
    (a : Action.t) :
  now <> "" ->
  Action.from_dict now data = Return a ->
  Action.from_dict now' (Action.to_dict a) = Return a.
Proof.
  intros Hnow Ha. apply from_dict_to_dict.
  - destruct data as [i ty st ps nm ds en rc tm cd].
    unfold Action.from_dict in Ha.
    destruct ty as [ty|]; [|discriminate].
    destruct (ActionType_of_value ty) as [t|]; [|discriminate].
    cbn [bind_outcome] in Ha.
    destruct t; cbn [map_outcome] in Ha;
      match type of Ha with
      | context [MouseActionParameters_init ?k ?p] =>
          destruct (MouseActionParameters_init k p)
      | context [KeyboardActionParameters_init ?k ?p] =>
          destruct (KeyboardActionParameters_init k p)
      | context [ApplicationActionParameters_init ?k ?p] =>
          destruct (ApplicationActionParameters_init k p)
      | context [MacroActionParameters_init ?k ?p] =>
          destruct (MacroActionParameters_init k p)
      | _ => idtac
      end; cbn [bind_outcome] in Ha; try discriminate;
      destruct i; try discriminate; destruct st; try discriminate;
      inversion Ha; reflexivity.
  - destruct data as [i ty st ps nm ds en rc tm cd].
    unfold Action.from_dict in Ha.
    destruct ty as [ty|]; [|discriminate].
    destruct (ActionType_of_value ty) as [t|]; [|discriminate].
    cbn [bind_outcome] in Ha.
    match type of Ha with
    | bind_outcome ?m _ = _ => destruct m as [ps'|e]; [|discriminate]
    end.
    cbn [bind_outcome] in Ha.
    destruct i; try discriminate; destruct st; try discriminate.
    inversion Ha. cbn [Action.created_date Action.new].
    destruct (String.eqb_spec (get_or "" cd) ""); congruence.
Qed.

Lemma to_dict_of_decoded_witness :
  Action.from_dict "later"
    (Action.to_dict
       (Action.new Scenario.clock "a-9" MOUSE "click"
          (MouseParams MouseActionParameters.default) "" "" true false
          (5 # 1) ""))
  = Return (Action.new Scenario.clock "a-9" MOUSE "click"
              (MouseParams MouseActionParameters.default) "" "" true false
              (5 # 1) "").
Proof.
  apply (to_dict_of_decoded Scenario.clock "later"
           (Data (Some "a-9") (Some "mouse") (Some "click") None None None
              None None None None)).
  - discriminate.
  - reflexivity.
Defined.

(* ================================================================== *)
(** * More on the synchronous primitive *)
(* ================================================================== *)

Section MoreDispatch.

Variable W : Type.
Variable backend : Backend W.
Variable config : ExecConfig.t.
Variable input_library : option Library.
Variable on_action_executed on_action_failed :
  option (Action.t -> ActionExecutionResult.t -> W -> W * option exn).

(** What follows the branch adds callback calls to the trace and nothing
    else. *)
Lemma sync_finish_filter (f : Event -> bool) (action : Action.t)
    (start_time : Q) (s2 : State W) (o : outcome (bool * string)) :
  (forall a r, f (EvExecuted a r) = false) ->
  (forall a r, f (EvFailed a r) = false) ->
  filter f
    (trace (fst (sync_finish backend config on_action_executed
                   on_action_failed action start_time s2 o)))
  = filter f (trace s2).
Proof.
  intros Hx Hf.
  assert (Hh : forall e s,
    filter f (trace (fst (sync_handler backend config on_action_failed
                            action start_time e s)))
    = filter f (trace s)).
  { intros e s. unfold sync_handler.
    match goal with
    | |- context [call_callback ?ev ?cb ?a ?r ?s0] =>
        destruct (call_callback_spec W ev cb a r s0) as (_ & _ & Ht);
        destruct (call_callback ev cb a r s0) as [s3 [u|e']]
    end; cbn [fst] in *; rewrite Ht, filter_app; destruct on_action_failed;
    cbn [filter]; rewrite ?Hf, ?app_nil_r; reflexivity. }
  unfold sync_finish. destruct o as [[success message]|e]; [|apply Hh].
  destruct success;
    match goal with
    | |- context [call_callback ?ev ?cb ?a ?r ?s0] =>
        destruct (call_callback_spec W ev cb a r s0) as (_ & _ & Ht);
        destruct (call_callback ev cb a r s0) as [s4 [u|e']]
    end; cbn [fst] in *; try rewrite Hh; rewrite Ht, filter_app;
    try destruct on_action_executed; try destruct on_action_failed;
    cbn [filter]; rewrite ?Hf, ?Hx, ?app_nil_r; reflexivity.
Qed.

Lemma sync_enter_backend_calls (action : Action.t) (s : State W) :
  backend_calls (trace (sync_enter backend config action s))
  = backend_calls (trace s).
Proof.
  destruct (sync_enter_spec W backend config action s) as (_ & _ & ->).
  filter_trace. reflexivity.
Qed.

(** The subtypes of an application action other than launch are
    placeholders: [close] and [focus] report that they are not
    implemented, any other subtype ([minimize] and [maximize], which the
    shipped policy allows, among them) is unsupported.  The dispatch of
    such an action returns a failed result with an empty error code and
    calls no driver. *)
Theorem application_placeholders_fail (action : Action.t) (s : State W) :
  callback_returns on_action_failed ->
  Action.type action = APPLICATION ->
  Action.subtype action <> "launch" ->
  exists s' result,
    _execute_action_sync backend config input_library on_action_executed
      on_action_failed action s = (s', Return result) /\
    ActionExecutionResult.success result = false /\
    ActionExecutionResult.error_code result = "" /\
    ActionExecutionResult.message result
    = (if Action.subtype action =? "close"
       then "Application close not implemented yet"
       else if Action.subtype action =? "focus"
       then "Application focus not implemented yet"
       else "Unsupported application action: " ++ Action.subtype action) /\
    backend_calls (trace s') = backend_calls (trace s).
Proof.
  intros Hf Ht Hsub.
  destruct (sync_unfold W backend config input_library on_action_executed
              on_action_failed action s) as (s2 & o & Hb & Hrun).
  unfold sync_branch, _execute_application_action in Hb. rewrite Ht in Hb.
  destruct (String.eqb_spec (Action.subtype action) "launch");
    [contradiction|].
  assert (Hs2 : s2 = sync_enter backend config action s /\
                o = Return
                      (false,
                       if Action.subtype action =? "close"
                       then "Application close not implemented yet"
                       else if Action.subtype action =? "focus"
                       then "Application focus not implemented yet"
                       else "Unsupported application action: "
                            ++ Action.subtype action)).
  { destruct (Action.subtype action =? "close");
      [|destruct (Action.subtype action =? "focus")];
      cbn in Hb; inversion Hb; split; reflexivity. }
  destruct Hs2 as (-> & ->). clear Hb.
  match type of Hrun with
  | _ = sync_finish _ _ _ _ _ ?t ?st ?out =>
      destruct (sync_finish_spec W backend config on_action_executed
                  on_action_failed action t st out I Hf)
        as (s' & result & Hfin & (Hsucc & Hmsg & Hcode) & _);
      pose proof (sync_finish_filter is_backend_call action t st out
                    (fun _ _ => eq_refl) (fun _ _ => eq_refl)) as Hcalls
  end.
  rewrite <- Hrun in Hfin, Hcalls. rewrite Hfin in Hcalls.
  cbn [fst] in Hcalls.
  exists s', result. repeat split; auto.
  unfold backend_calls in *. rewrite Hcalls.
  apply sync_enter_backend_calls.
Qed.

(** Launching: the dispatch of a launch action with a non-empty path
    starts one process, with the path followed by the arguments as its
    command, the working directory when it is not empty, and a shell on
    Windows only; the result is a success exactly when [Popen] does not
    raise, and no exception of [Popen] leaves the primitive. *)
Theorem launch_starts_one_process (action : Action.t)
    (p : ApplicationActionParameters.t) (s : State W) (w : W)
    (raised : option exn) :
  callback_returns on_action_executed ->
  callback_returns on_action_failed ->
  Action.type action = APPLICATION ->
  Action.subtype action = "launch" ->
  Action.parameters action = ApplicationParams p ->
  ApplicationActionParameters.path p <> "" ->
  let cmd :=
    (ApplicationActionParameters.path p
     :: get_or [] (ApplicationActionParameters.arguments p)) in
  let cwd :=
    if ApplicationActionParameters.working_directory p =? "" then None
    else Some (ApplicationActionParameters.working_directory p) in
  let shell := platform_win backend in
  Popen backend cmd cwd shell (world (sync_enter backend config action s))
  = (w, raised) ->
  exists s' result,
    _execute_action_sync backend config input_library on_action_executed
      on_action_failed action s = (s', Return result) /\
    (ActionExecutionResult.success result = true <-> raised = None) /\
    ActionExecutionResult.error_code result = "" /\
    backend_calls (trace s')
    = (backend_calls (trace s) ++ [EvPopen cmd cwd shell])%list.
Proof.
  intros He Hf Ht Hsub Hp Hpath cmd cwd shell Hpopen.
  destruct (sync_unfold W backend config input_library on_action_executed
              on_action_failed action s) as (s2 & o & Hb & Hrun).
  unfold sync_branch, _execute_application_action, _launch_application in Hb.
  rewrite Ht, Hsub, Hp in Hb. cbn [String.eqb Ascii.eqb Bool.eqb] in Hb.
  destruct (String.eqb_spec (ApplicationActionParameters.path p) "");
    [contradiction|].
  cbn [log world app] in Hb. fold cmd cwd shell in Hb.
  fold cmd cwd shell in Hpopen. rewrite Hpopen in Hb.
  assert (Ho : exists success message,
            o = Return (success, message) /\
            (success = true <-> raised = None) /\
            backend_calls (trace s2)
            = (backend_calls (trace s) ++ [EvPopen cmd cwd shell])%list).
  { destruct raised as [e|].
    - destruct (exn_cls e); cbn in Hb; inversion Hb; subst;
        eexists; eexists; (split; [reflexivity|]);
        (split; [split; discriminate|]);
        cbn [trace set_world log]; filter_trace;
        fold (backend_calls (trace (sync_enter backend config action s)));
        rewrite sync_enter_backend_calls; reflexivity.
    - cbn in Hb; inversion Hb; subst.
      eexists; eexists; (split; [reflexivity|]).
      split; [split; reflexivity|].
      cbn [trace set_world log]; filter_trace.
      fold (backend_calls (trace (sync_enter backend config action s))).
      rewrite sync_enter_backend_calls. reflexivity. }
  destruct Ho as (success & message & -> & Hiff & Hcalls). clear Hb.
  match type of Hrun with
  | _ = sync_finish _ _ _ _ _ ?t ?st ?out =>
      destruct (sync_finish_spec W backend config on_action_executed
                  on_action_failed action t st out)
        as (s' & result & Hfin & (Hsucc & Hmsg & Hcode) & _);
      [destruct success; [exact He|exact I]|exact Hf|];
      pose proof (sync_finish_filter is_backend_call action t st out
                    (fun _ _ => eq_refl) (fun _ _ => eq_refl)) as Hfilter
  end.
  rewrite <- Hrun in Hfin, Hfilter. rewrite Hfin in Hfilter.
  cbn [fst] in Hfilter.
  exists s', result. split; [exact Hfin|].
  split; [rewrite Hsucc; exact Hiff|]. split; [exact Hcode|].
  unfold backend_calls in *. rewrite Hfilter. exact Hcalls.
Qed.

(** The reserved type: whatever the policy says, the primitive has no
    branch for a system action; its dispatch fails as unsupported and
    calls no driver. *)
Theorem system_actions_are_unsupported (action : Action.t) (s : State W) :
  callback_returns on_action_failed ->
  Action.type action = SYSTEM ->
  exists s' result,
    _execute_action_sync backend config input_library on_action_executed
      on_action_failed action s = (s', Return result) /\
    ActionExecutionResult.success result = false /\
    ActionExecutionResult.message result
    = "Unsupported action type: system" /\
    backend_calls (trace s') = backend_calls (trace s).
Proof.
  intros Hf Ht.
  destruct (sync_unfold W backend config input_library on_action_executed
              on_action_failed action s) as (s2 & o & Hb & Hrun).
  unfold sync_branch in Hb. rewrite Ht in Hb. inversion Hb; subst s2 o.
  clear Hb.
  match type of Hrun with
  | _ = sync_finish _ _ _ _ _ ?t ?st ?out =>
      destruct (sync_finish_spec W backend config on_action_executed
                  on_action_failed action t st out I Hf)
        as (s' & result & Hfin & (Hsucc & Hmsg & Hcode) & _);
      pose proof (sync_finish_filter is_backend_call action t st out
                    (fun _ _ => eq_refl) (fun _ _ => eq_refl)) as Hcalls
  end.
  rewrite <- Hrun in Hfin, Hcalls. rewrite Hfin in Hcalls.
  cbn [fst] in Hcalls.
  exists s', result. repeat split; auto.
  unfold backend_calls in *. rewrite Hcalls.
  apply sync_enter_backend_calls.
Qed.

(** No call of [execute_action], in either mode, sets or clears the
    interlock; only [emergency_stop_all] and [resume_execution] do. *)
Theorem execute_action_leaves_interlock (types_config : TypesConfig)
    (action : Action.t) (async_execution : option bool) (s : State W) :
  emergency_stop
    (fst (execute_action backend config types_config input_library
            on_action_executed on_action_failed action async_execution s))
  = emergency_stop s.
Proof.
  unfold execute_action.
  destruct (validate_action _ _ action) as [[|] msg]; cbn [negb];
    [|reflexivity].
  destruct (emergency_stop s) eqn:Hstop; [cbn; congruence|].
  destruct (match async_execution with
            | Some b => b
            | None => get_or true (ExecConfig.async_execution config)
            end); [cbn; congruence|].
  pose proof (sync_interlock W backend config input_library
                on_action_executed on_action_failed action s) as Hi.
  destruct (_execute_action_sync _ _ _ _ _ action s) as [s' o].
  cbn [fst] in *. congruence.
Qed.

End MoreDispatch.

Lemma application_placeholders_fail_witness :
  exists s' result,
    _execute_action_sync Scenario.stub ACTION_EXECUTION_CONFIG (Some pynput)
      Scenario.no_callback Scenario.no_callback Scenario.close_app
      Scenario.idle = (s', Return result) /\
    ActionExecutionResult.success result = false /\
    ActionExecutionResult.error_code result = "" /\
    ActionExecutionResult.message result
    = (if Action.subtype Scenario.close_app =? "close"
       then "Application close not implemented yet"
       else if Action.subtype Scenario.close_app =? "focus"
       then "Application focus not implemented yet"
       else "Unsupported application action: "
            ++ Action.subtype Scenario.close_app) /\
    backend_calls (trace s') = backend_calls (trace Scenario.idle).
Proof.
  apply (application_placeholders_fail unit Scenario.stub
           ACTION_EXECUTION_CONFIG (Some pynput) Scenario.no_callback
           Scenario.no_callback Scenario.close_app Scenario.idle).
  - intros f Hf. discriminate Hf.
  - reflexivity.
  - discriminate.
Defined.

Lemma launch_starts_one_process_witness :
  exists s' result,
    _execute_action_sync Scenario.stub ACTION_EXECUTION_CONFIG (Some pynput)
      Scenario.no_callback Scenario.no_callback
      (Cases.launch "/usr/bin/editor" ["--new"]) Scenario.idle
    = (s', Return result) /\
    (ActionExecutionResult.success result = true <-> @None exn = None) /\
    ActionExecutionResult.error_code result = "" /\
    backend_calls (trace s')
    = (backend_calls (trace Scenario.idle)
       ++ [EvPopen ["/usr/bin/editor"; "--new"] None false])%list.
Proof.
  apply (launch_starts_one_process unit Scenario.stub ACTION_EXECUTION_CONFIG
           (Some pynput) Scenario.no_callback Scenario.no_callback
           (Cases.launch "/usr/bin/editor" ["--new"])
           (ApplicationActionParameters.mk "/usr/bin/editor" (Some ["--new"])
              "" "" "")
           Scenario.idle tt None).
  - intros f Hf. discriminate Hf.
  - intros f Hf. discriminate Hf.
  - reflexivity.
  - reflexivity.
  - reflexivity.
  - discriminate.
  - reflexivity.
Defined.

Lemma system_actions_are_unsupported_witness :
  exists s' result,
    _execute_action_sync Scenario.stub ACTION_EXECUTION_CONFIG (Some pynput)
      Scenario.no_callback Scenario.no_callback Scenario.lock_screen
      Scenario.idle = (s', Return result) /\
    ActionExecutionResult.success result = false /\
    ActionExecutionResult.message result
    = "Unsupported action type: system" /\
    backend_calls (trace s') = backend_calls (trace Scenario.idle).
Proof.
  apply (system_actions_are_unsupported unit Scenario.stub
           ACTION_EXECUTION_CONFIG (Some pynput) Scenario.no_callback
           Scenario.no_callback Scenario.lock_screen Scenario.idle).
  - intros f Hf. discriminate Hf.
  - reflexivity.
Defined.

(* ================================================================== *)
(** * More on macros *)
(* ================================================================== *)

Section MoreMacros.

Variable W : Type.
Variable backend : Backend W.
Variable config : ExecConfig.t.
Variable input_library : option Library.
Variable on_action_executed on_action_failed :
  option (Action.t -> ActionExecutionResult.t -> W -> W * option exn).

(** The result of a macro whose routine returns [r] in the state [s2]
    without raising. *)
Lemma macro_dispatch_result (action : Action.t) (s s2 : State W)
    (r : bool * string) :
  (if fst r then callback_returns on_action_executed else True) ->
  callback_returns on_action_failed ->
  Action.type action = MACRO ->
  _execute_macro_action backend config
    (fun a s0 =>
       Some (_execute_action_sync backend config input_library
               on_action_executed on_action_failed a s0))
    action (sync_enter backend config action s) = Some (s2, Return r) ->
  exists s' result,
    _execute_action_sync backend config input_library on_action_executed
      on_action_failed action s = (s', Return result) /\
    ActionExecutionResult.success result = fst r /\
    ActionExecutionResult.message result = snd r /\
    ActionExecutionResult.error_code result = "" /\
    dispatches (trace s') = dispatches (trace s2) /\
    backend_calls (trace s') = backend_calls (trace s2).
Proof.
  intros He Hf Ht Hm.
  destruct (sync_unfold W backend config input_library on_action_executed
              on_action_failed action s) as (s2' & o & Hb & Hrun).
  unfold sync_branch in Hb. rewrite Ht, Hm in Hb. inversion Hb; subst s2' o.
  clear Hb. destruct r as [success message].
  match type of Hrun with
  | _ = sync_finish _ _ _ _ _ ?t ?st ?out =>
      destruct (sync_finish_spec W backend config on_action_executed
                  on_action_failed action t st out)
        as (s' & result & Hfin & (Hsucc & Hmsg & Hcode) & _);
      [destruct success; [exact He|exact I]|exact Hf|];
      pose proof (sync_finish_filter W backend config on_action_executed
                    on_action_failed is_backend_call action t st out
                    (fun _ _ => eq_refl) (fun _ _ => eq_refl)) as Hcalls;
      pose proof (sync_finish_filter W backend config on_action_executed
                    on_action_failed is_dispatch action t st out
                    (fun _ _ => eq_refl) (fun _ _ => eq_refl)) as Hdis
  end.
  rewrite <- Hrun in Hfin, Hcalls, Hdis. rewrite Hfin in Hcalls, Hdis.
  cbn [fst] in Hcalls, Hdis.
  exists s', result. repeat split; auto.
Qed.

(** The primitive does not look at the interlock before it dispatches, the
    macro routine does before every step: a macro with at least one step
    and one loop, handed to the primitive while the interlock is engaged,
    stops before its first step, with no sub-dispatch and no driver
    call. *)
Theorem stopped_macro_runs_no_step (action : Action.t)
    (p : MacroActionParameters.t) (d : ActionData) (ds : list ActionData)
    (s : State W) :
  callback_returns on_action_failed ->
  Action.type action = MACRO ->
  Action.parameters action = MacroParams p ->
  MacroActionParameters.sequence p = Some (d :: ds) ->
  1 <= MacroActionParameters.loop_count p ->
  emergency_stop s = true ->
  exists s' result,
    _execute_action_sync backend config input_library on_action_executed
      on_action_failed action s = (s', Return result) /\
    ActionExecutionResult.success result = false /\
    ActionExecutionResult.message result
    = "Macro stopped by emergency stop after 0 actions" /\
    dispatches (trace s') = (dispatches (trace s) ++ [EvDispatch action])%list
    /\ backend_calls (trace s') = backend_calls (trace s).
Proof.
  intros Hf Ht Hp Hs Hl Hstop.
  destruct (sync_enter_spec W backend config action s) as (He & _ & Htr).
  destruct (macro_dispatch_result action s
              (sync_enter backend config action s)
              (false, "Macro stopped by emergency stop after 0 actions"))
    as (s' & result & Hrun & Hsucc & Hmsg & _ & Hdis & Hcalls);
    [exact I|exact Hf|exact Ht| |].
  - unfold _execute_macro_action. rewrite Hp, Hs.
    destruct (Z.to_nat (MacroActionParameters.loop_count p)) as [|n] eqn:Hn;
      [lia|].
    cbn [macro_loops macro_sequence]. rewrite He, Hstop. reflexivity.
  - exists s', result. repeat split; auto.
    + rewrite Hdis, Htr. filter_trace. reflexivity.
    + rewrite Hcalls. apply sync_enter_backend_calls.
Qed.

(** A loop count of zero or less: the loops run no pass, and a macro with
    stored steps is reported as executed with success and 0 actions,
    without a sub-dispatch. *)
Theorem macro_without_loops_succeeds (action : Action.t)
    (p : MacroActionParameters.t) (d : ActionData) (ds : list ActionData)
    (s : State W) :
  callback_returns on_action_executed ->
  callback_returns on_action_failed ->
  Action.type action = MACRO ->
  Action.parameters action = MacroParams p ->
  MacroActionParameters.sequence p = Some (d :: ds) ->
  MacroActionParameters.loop_count p <= 0 ->
  exists s' result,
    _execute_action_sync backend config input_library on_action_executed
      on_action_failed action s = (s', Return result) /\
    ActionExecutionResult.success result = true /\
    ActionExecutionResult.message result
    = "Macro executed successfully: 0 actions" /\
    dispatches (trace s') = (dispatches (trace s) ++ [EvDispatch action])%list
    /\ backend_calls (trace s') = backend_calls (trace s).
Proof.
  intros He Hf Ht Hp Hs Hl.
  destruct (sync_enter_spec W backend config action s) as (_ & _ & Htr).
  destruct (macro_dispatch_result action s
              (sync_enter backend config action s)
              (true, "Macro executed successfully: 0 actions"))
    as (s' & result & Hrun & Hsucc & Hmsg & _ & Hdis & Hcalls);
    [exact He|exact Hf|exact Ht| |].
  - unfold _execute_macro_action. rewrite Hp, Hs.
    replace (Z.to_nat (MacroActionParameters.loop_count p)) with O by lia.
    reflexivity.
  - exists s', result. repeat split; auto.
    + rewrite Hdis, Htr. filter_trace. reflexivity.
    + rewrite Hcalls. apply sync_enter_backend_calls.
Qed.

Section AllSucceed.

Variable p : MacroActionParameters.t.
Variable total_actions : Z.
Variable sequence : list ActionData.

Hypothesis steps_succeed :
  forall d, In d sequence -> forall s0, exists a s1 r,
    Action.from_dict (now_isoformat backend (world s0)) d = Return a /\
    Action.type a <> MACRO /\
    _execute_action_sync backend config input_library on_action_executed
      on_action_failed a s0 = (s1, Return r) /\
    ActionExecutionResult.success r = true.

Lemma macro_sequence_all_succeed (l : list ActionData) :
  (forall d, In d l -> In d sequence) ->
  forall loop i executed s,
    emergency_stop s = false ->
    exists s',
      macro_sequence backend config
        (fun a s0 =>
           Some (_execute_action_sync backend config input_library
                   on_action_executed on_action_failed a s0))
        p total_actions loop i l executed s
      = Some (s', Continue (executed + Z.of_nat (length l))) /\
      emergency_stop s' = false /\
      length (dispatches (trace s'))
      = (length (dispatches (trace s)) + length l)%nat.
Proof.
  induction l as [|d l IH]; intros Hin loop i executed s Hclear;
    cbn [macro_sequence].
  - exists s. cbn [length Z.of_nat]. rewrite Z.add_0_r, Nat.add_0_r. auto.
  - rewrite Hclear.
    destruct (steps_succeed d (Hin d (or_introl eq_refl)) s)
      as (a & s1 & r & Hd & Hn & Hr & Hs).
    rewrite Hd, Hr, Hs. cbn [negb].
    pose proof (sync_interlock W backend config input_library
                  on_action_executed on_action_failed a s) as Hi.
    pose proof (sync_nonmacro_dispatches W backend config input_library
                  on_action_executed on_action_failed a s Hn) as Hdis.
    rewrite Hr in Hi, Hdis. cbn [fst] in Hi, Hdis.
    match goal with
    | |- context [macro_sequence _ _ _ _ _ _ _ _ _ ?st] => set (s2 := st)
    end.
    assert (Hs2 : emergency_stop s2 = false /\ trace s2 = trace s1).
    { subst s2. destruct (_ && _); cbn; split; congruence. }
    destruct Hs2 as (He2 & Ht2).
    destruct (IH (fun d' H => Hin d' (or_intror H)) loop (i + 1)
                (executed + 1) s2 He2) as (s' & Hrun & He' & Hlen).
    exists s'. rewrite Hrun. split; [|split; [exact He'|]].
    + do 3 f_equal. cbn [length]. lia.
    + rewrite Hlen, Ht2, Hdis, length_app. cbn [length]. lia.
Qed.

Lemma macro_loops_all_succeed (n : nat) :
  forall loop executed s,
    emergency_stop s = false ->
    exists s',
      macro_loops backend config
        (fun a s0 =>
           Some (_execute_action_sync backend config input_library
                   on_action_executed on_action_failed a s0))
        p total_actions n loop sequence executed s
      = Some (s', Continue
                    (executed + Z.of_nat n * Z.of_nat (length sequence))) /\
      length (dispatches (trace s'))
      = (length (dispatches (trace s)) + n * length sequence)%nat.
Proof.
  induction n as [|n IH]; intros loop executed s Hclear; cbn [macro_loops].
  - exists s. split; [do 3 f_equal; lia|lia].
  - destruct (macro_sequence_all_succeed sequence (fun d H => H) loop 0
                executed s Hclear) as (s1 & -> & He1 & Hlen1).
    destruct (IH (loop + 1) (executed + Z.of_nat (length sequence)) s1 He1)
      as (s' & -> & Hlen).
    exists s'. split; [do 3 f_equal; lia|]. rewrite Hlen, Hlen1. lia.
Qed.

End AllSucceed.

(** A macro all of whose steps dispatch with success (none of them a
    macro), the interlock clear: it runs every step of every loop, in all
    the length of the sequence times the loop count sub-dispatches, and
    reports that count in a successful result. *)
Theorem macro_runs_every_step (action : Action.t)
    (p : MacroActionParameters.t) (d : ActionData) (ds : list ActionData)
    (s : State W) :
  callback_returns on_action_executed ->
  callback_returns on_action_failed ->
  Action.type action = MACRO ->
  Action.parameters action = MacroParams p ->
  MacroActionParameters.sequence p = Some (d :: ds) ->
  0 <= MacroActionParameters.loop_count p ->
  emergency_stop s = false ->
  (forall d', In d' (d :: ds) -> forall s0, exists a s1 r,
     Action.from_dict (now_isoformat backend (world s0)) d' = Return a /\
     Action.type a <> MACRO /\
     _execute_action_sync backend config input_library on_action_executed
       on_action_failed a s0 = (s1, Return r) /\
     ActionExecutionResult.success r = true) ->
  exists s' result,
    _execute_action_sync backend config input_library on_action_executed
      on_action_failed action s = (s', Return result) /\
    ActionExecutionResult.success result = true /\
    ActionExecutionResult.message result
    = "Macro executed successfully: "
      ++ Py.str_of_int (Z.of_nat (length (d :: ds))
                        * MacroActionParameters.loop_count p)
      ++ " actions" /\
    length (dispatches (trace s'))
    = (length (dispatches (trace s)) + 1
       + length (d :: ds) * Z.to_nat (MacroActionParameters.loop_count p))%nat.
Proof.
  intros He Hf Ht Hp Hs Hl Hclear Hsteps.
  destruct (sync_enter_spec W backend config action s) as (Hee & _ & Htr).
  destruct (macro_loops_all_succeed p
              (Z.of_nat (length (d :: ds))
               * MacroActionParameters.loop_count p)
              (d :: ds) Hsteps
              (Z.to_nat (MacroActionParameters.loop_count p)) 0 0
              (sync_enter backend config action s))
    as (s2 & Hloops & Hlen); [congruence|].
  destruct (macro_dispatch_result action s s2
              (true, "Macro executed successfully: "
                     ++ Py.str_of_int
                          (Z.of_nat (length (d :: ds))
                           * MacroActionParameters.loop_count p)
                     ++ " actions"))
    as (s' & result & Hrun & Hsucc & Hmsg & _ & Hdis & _);
    [exact He|exact Hf|exact Ht| |].
  - unfold _execute_macro_action. rewrite Hp, Hs, Hloops.
    replace (0 + Z.of_nat (Z.to_nat (MacroActionParameters.loop_count p))
                 * Z.of_nat (length (d :: ds)))
      with (Z.of_nat (length (d :: ds))
            * MacroActionParameters.loop_count p) by lia.
    reflexivity.
  - exists s', result. repeat split; auto.
    rewrite Hdis, Hlen, Htr. filter_trace. rewrite length_app.
    cbn [length]. lia.
Qed.

End MoreMacros.

Lemma stopped_macro_runs_no_step_witness :
  exists s' result,
    _execute_action_sync Scenario.stub ACTION_EXECUTION_CONFIG (Some pynput)
      Scenario.no_callback Scenario.no_callback Scenario.three_steps
      Scenario.stopped = (s', Return result) /\
    ActionExecutionResult.success result = false /\
    ActionExecutionResult.message result
    = "Macro stopped by emergency stop after 0 actions" /\
    dispatches (trace s')
    = (dispatches (trace Scenario.stopped)
       ++ [EvDispatch Scenario.three_steps])%list
    /\ backend_calls (trace s') = backend_calls (trace Scenario.stopped).
Proof.
  apply (stopped_macro_runs_no_step unit Scenario.stub
           ACTION_EXECUTION_CONFIG (Some pynput) Scenario.no_callback
           Scenario.no_callback Scenario.three_steps
           (MacroActionParameters.mk
              (Some [Action.to_dict Scenario.click;
                     Action.to_dict Scenario.close_app;
                     Action.to_dict Scenario.click]) 2 (1 # 10))
           (Action.to_dict Scenario.click)
           [Action.to_dict Scenario.close_app; Action.to_dict Scenario.click]
           Scenario.stopped).
  - intros f Hf. discriminate Hf.
  - reflexivity.
  - reflexivity.
  - reflexivity.
  - simpl. lia.
  - reflexivity.
Defined.

Lemma macro_without_loops_succeeds_witness :
  exists s' result,
    _execute_action_sync Scenario.stub ACTION_EXECUTION_CONFIG (Some pynput)
      Scenario.no_callback Scenario.no_callback
      (Cases.macro [Action.to_dict Scenario.click] 0) Scenario.idle
    = (s', Return result) /\
    ActionExecutionResult.success result = true /\
    ActionExecutionResult.message result
    = "Macro executed successfully: 0 actions" /\
    dispatches (trace s')
    = (dispatches (trace Scenario.idle)
       ++ [EvDispatch (Cases.macro [Action.to_dict Scenario.click] 0)])%list
    /\ backend_calls (trace s') = backend_calls (trace Scenario.idle).
Proof.
  apply (macro_without_loops_succeeds unit Scenario.stub
           ACTION_EXECUTION_CONFIG (Some pynput) Scenario.no_callback
           Scenario.no_callback
           (Cases.macro [Action.to_dict Scenario.click] 0)
           (MacroActionParameters.mk (Some [Action.to_dict Scenario.click])
              0 (1 # 10))
           (Action.to_dict Scenario.click) [] Scenario.idle).
  - intros f Hf. discriminate Hf.
  - intros f Hf. discriminate Hf.
  - reflexivity.
  - reflexivity.
  - reflexivity.
  - simpl. lia.
Defined.

Lemma macro_runs_every_step_witness :
  exists s' result,
    _execute_action_sync Scenario.stub ACTION_EXECUTION_CONFIG (Some pynput)
      Scenario.quiet_callback Scenario.quiet_callback
      (Cases.macro [Action.to_dict Scenario.click;
                    Action.to_dict Scenario.click] 3) Scenario.idle
    = (s', Return result) /\
    ActionExecutionResult.success result = true /\
    ActionExecutionResult.message result
    = "Macro executed successfully: "
      ++ Py.str_of_int
           (Z.of_nat (length [Action.to_dict Scenario.click;
                              Action.to_dict Scenario.click])
            * MacroActionParameters.loop_count
                (MacroActionParameters.mk
                   (Some [Action.to_dict Scenario.click;
                          Action.to_dict Scenario.click]) 3 (1 # 10)))
      ++ " actions" /\
    length (dispatches (trace s'))
    = (length (dispatches (trace Scenario.idle)) + 1
       + length [Action.to_dict Scenario.click;
                 Action.to_dict Scenario.click]
         * Z.to_nat
             (MacroActionParameters.loop_count
                (MacroActionParameters.mk
                   (Some [Action.to_dict Scenario.click;
                          Action.to_dict Scenario.click]) 3 (1 # 10))))%nat.
Proof.
  apply (macro_runs_every_step unit Scenario.stub ACTION_EXECUTION_CONFIG
           (Some pynput) Scenario.quiet_callback Scenario.quiet_callback
           (Cases.macro [Action.to_dict Scenario.click;
                         Action.to_dict Scenario.click] 3)
           (MacroActionParameters.mk
              (Some [Action.to_dict Scenario.click;
                     Action.to_dict Scenario.click]) 3 (1 # 10))
           (Action.to_dict Scenario.click) [Action.to_dict Scenario.click]
           Scenario.idle).
  - intros f Hf a r w. injection Hf as <-. reflexivity.
  - intros f Hf a r w. injection Hf as <-. reflexivity.
  - reflexivity.
  - reflexivity.
  - reflexivity.
  - simpl. lia.
  - reflexivity.
  - intros d' [<-|[<-|[]]] s0; eexists; eexists; eexists;
      (split; [reflexivity|]); (split; [discriminate|]); split; reflexivity.
Defined.

(* ================================================================== *)
(** * The constructor of the executor *)
(* ================================================================== *)

(** [_initialize_libraries], once [failsafe_enabled] is set: it raises
    exactly when neither library is available; it selects pyautogui
    exactly when pyautogui is available and is either the preference or
    the only library there is; and pynput in every other case where pynput
    is available, so an unknown preference falls back to pynput first. *)
Theorem library_selection (library_preference : string)
    (PYNPUT_AVAILABLE PYAUTOGUI_AVAILABLE failsafe_enabled : bool) :
  let selected :=
    _initialize_libraries library_preference PYNPUT_AVAILABLE
      PYAUTOGUI_AVAILABLE (Some failsafe_enabled) in
  (selected = Return pyautogui <->
   PYAUTOGUI_AVAILABLE = true /\
   (library_preference = "pyautogui" \/ PYNPUT_AVAILABLE = false)) /\
  (selected = Return pynput <->
   PYNPUT_AVAILABLE = true /\
   (library_preference <> "pyautogui" \/ PYAUTOGUI_AVAILABLE = false)) /\
  ((exists e, selected = Raise e) <->
   PYNPUT_AVAILABLE = false /\ PYAUTOGUI_AVAILABLE = false).
Proof.
  unfold _initialize_libraries.
  destruct (String.eqb_spec library_preference "pynput") as [Hp|Hp];
    destruct (String.eqb_spec library_preference "pyautogui") as [Ha|Ha];
    destruct PYNPUT_AVAILABLE, PYAUTOGUI_AVAILABLE; cbn;
    try (rewrite Hp in Ha; discriminate);
    firstorder (congruence || discriminate || eauto).
  all: exact (Exn OtherException "").
Qed.

(** The constructor calls [_initialize_libraries] before it sets
    [self.failsafe_enabled], and the pyautogui branches read that
    attribute: [ActionExecutor()] returns an executor exactly when pynput
    is available and pyautogui is not both preferred and available, and
    that executor drives pynput, with an empty history and the interlock
    clear.  No executor is ever built on pyautogui. *)
Theorem constructor_selects_pynput (W : Type) (input_library : option string)
    (PYNPUT_AVAILABLE PYAUTOGUI_AVAILABLE : bool) (w : W) :
  let built :=
    ActionExecutor_init input_library PYNPUT_AVAILABLE PYAUTOGUI_AVAILABLE w in
  ((exists r, built = Return r) <->
   PYNPUT_AVAILABLE = true /\
   (get_or "pynput" input_library <> "pyautogui" \/
    PYAUTOGUI_AVAILABLE = false)) /\
  (forall library s, built = Return (library, s) ->
     library = pynput /\ emergency_stop s = false /\
     execution_history s = [] /\ world s = w) /\
  (PYAUTOGUI_AVAILABLE = true ->
   get_or "pynput" input_library = "pyautogui" \/ PYNPUT_AVAILABLE = false ->
   built = Raise (Exn AttributeError
     "'ActionExecutor' object has no attribute 'failsafe_enabled'")).
Proof.
  unfold ActionExecutor_init, _initialize_libraries.
  destruct (String.eqb_spec (get_or "pynput" input_library) "pynput")
    as [Hp|Hp];
    destruct (String.eqb_spec (get_or "pynput" input_library) "pyautogui")
      as [Ha|Ha];
    destruct PYNPUT_AVAILABLE, PYAUTOGUI_AVAILABLE; cbn;
    try (rewrite Hp in Ha; discriminate);
    (split; [split; [intros [r Hr]; try discriminate Hr; auto
                    |intros (H1 & [H2|H2]); try discriminate;
                     try contradiction; eauto]|]);
    (split; [intros library s H; inversion H; auto|]);
    intros H1 [H2|H2]; try discriminate; try contradiction;
    try reflexivity.
Qed.

(* ================================================================== *)
(** * The mappings of a profile *)
(* ================================================================== *)

(** The values of a dict after an assignment: among those that satisfy a
    test there is at most one more, and none more when the new value does
    not satisfy it. *)
Lemma dict_set_filter (A : Type) (f : A -> bool) (key : string) (value : A)
    (d : list (string * A)) :
  (length (filter f (map snd (dict_set key value d)))
   <= length (filter f (map snd d)) + (if f value then 1 else 0))%nat.
Proof.
  induction d as [|[k v] d IH]; cbn [dict_set map snd filter].
  - destruct (f value); simpl; lia.
  - destruct (k =? key); cbn [map snd filter].
    + destruct (f value), (f v); simpl; lia.
    + destruct (f v); simpl; lia.
Qed.

Lemma dict_del_filter (A : Type) (f : A -> bool) (key : string)
    (d : list (string * A)) :
  (length (filter f (map snd (dict_del key d)))
   <= length (filter f (map snd d)))%nat.
Proof.
  unfold dict_del.
  induction d as [|[k v] d IH]; cbn [map snd filter fst]; [lia|].
  destruct (k =? key); cbn [negb map snd filter];
    destruct (f v); simpl; lia.
Qed.

(** The first value that satisfies a test, after an assignment of a value
    that satisfies it to a dict in which none did. *)
Lemma dict_set_find (A : Type) (f : A -> bool) (key : string) (value : A)
    (d : list (string * A)) :
  find f (map snd d) = None -> f value = true ->
  find f (map snd (dict_set key value d)) = Some value.
Proof.
  intros Hnone Hv.
  induction d as [|[k v] d IH]; cbn [dict_set map snd find].
  - now rewrite Hv.
  - cbn [map snd find] in Hnone. destruct (f v) eqn:Hfv; [discriminate|].
    destruct (k =? key); cbn [map snd find].
    + now rewrite Hv.
    + rewrite Hfv. now apply IH.
Qed.

Lemma dict_del_dict_set (A : Type) (key : string) (value : A)
    (d : list (string * A)) :
  dict_has key d = false -> dict_del key (dict_set key value d) = d.
Proof.
  unfold dict_has, dict_del.
  induction d as [|[k v] d IH]; cbn [dict_set existsb filter fst].
  - intros _. now rewrite String.eqb_refl.
  - destruct (k =? key) eqn:Hk; [discriminate|]. cbn [orb]. intros H.
    cbn [filter fst]. rewrite Hk. cbn [negb]. now rewrite IH.
Qed.

Lemma dict_has_dict_set (A : Type) (key : string) (value : A)
    (d : list (string * A)) :
  dict_has key (dict_set key value d) = true.
Proof.
  unfold dict_has.
  induction d as [|[k v] d IH]; cbn [dict_set existsb fst].
  - now rewrite String.eqb_refl.
  - destruct (k =? key) eqn:Hk; cbn [existsb fst]; rewrite Hk;
      [reflexivity|exact IH].
Qed.

Lemma dict_set_keys (A : Type) (key : string) (value : A)
    (d : list (string * A)) :
  map fst (dict_set key value d)
  = if dict_has key d then map fst d else (map fst d ++ [key])%list.
Proof.
  unfold dict_has.
  induction d as [|[k v] d IH]; cbn [dict_set existsb map fst app];
    [reflexivity|].
  destruct (k =? key) eqn:Hk; cbn [orb map fst]; [reflexivity|].
  rewrite IH. now destruct (existsb _ d).
Qed.

Lemma dict_has_In (A : Type) (key : string) (d : list (string * A)) :
  dict_has key d = true <-> In key (map fst d).
Proof.
  unfold dict_has. rewrite existsb_exists, in_map_iff. split.
  - intros (kv & Hin & Hk). exists kv. apply String.eqb_eq in Hk. auto.
  - intros (kv & Hk & Hin). exists kv. split; [exact Hin|].
    now apply String.eqb_eq.
Qed.

Lemma dict_set_ok (A : Type) (key : string) (value : A)
    (d : list (string * A)) :
  dict_ok d -> dict_ok (dict_set key value d).
Proof.
  unfold dict_ok. intros Hd. rewrite dict_set_keys.
  destruct (dict_has key d) eqn:Hk; [exact Hd|].
  apply NoDup_app; [exact Hd|repeat constructor; simpl; tauto|].
  intros x Hin [<-|[]]. apply dict_has_In in Hin. congruence.
Qed.

Lemma gesture_matches_new (now mapping_id gesture_name gesture_type : string)
    (action : Action.t) (g t : string) :
  gesture_matches g t
    (GestureActionMapping.new now mapping_id gesture_name gesture_type
       action true 0 None "" "" 0)
  = (gesture_name =? g) && (gesture_type =? t).
Proof.
  unfold gesture_matches, GestureActionMapping.new. cbn. apply andb_true_r.
Qed.

Lemma find_none_filter (A : Type) (f : A -> bool) (l : list A) :
  find f l = None -> filter f l = [].
Proof.
  induction l as [|x l IH]; simpl; [reflexivity|].
  destruct (f x); [discriminate|exact IH].
Qed.

Lemma filter_map_length (A B : Type) (f : B -> bool) (g h : A -> B)
    (l : list A) :
  (forall x, f (g x) = f (h x)) ->
  length (filter f (map g l)) = length (filter f (map h l)).
Proof.
  intros H. induction l as [|x l IH]; [reflexivity|]. cbn [map filter].
  rewrite H. destruct (f (h x)); simpl; now rewrite IH.
Qed.

(** Recording a use changes neither the gesture of a mapping nor whether
    it is enabled. *)
Lemma record_action_usage_filter (now mapping_id g t : string)
    (mappings : Mappings) :
  length (filter (gesture_matches g t)
            (map snd (record_action_usage now mapping_id mappings)))
  = length (filter (gesture_matches g t) (map snd mappings)).
Proof.
  unfold record_action_usage. rewrite map_map.
  apply filter_map_length. intros [k m].
  destruct (k =? mapping_id); reflexivity.
Qed.

Section Mappings.

Variable types_config : TypesConfig.
Variable now : string.

(** [add_mapping] stores a mapping exactly when the action passes
    validation and no enabled mapping answers for the gesture; it then
    returns the new id, and the gesture is answered by the new mapping,
    enabled, never used, carrying the action as given.  In every other case
    it returns [None] and leaves the mappings as they were. *)
Theorem add_mapping_outcome (mapping_id gesture_name gesture_type : string)
    (action : Action.t) (mappings : Mappings) :
  let r := add_mapping types_config now mapping_id gesture_name gesture_type
             action mappings in
  let accepted :=
    fst (validate_action types_config now action) = true /\
    get_mapping_for_gesture gesture_name gesture_type mappings = None in
  (accepted ->
   fst r = Some mapping_id /\
   get_mapping_for_gesture gesture_name gesture_type (snd r)
   = Some (GestureActionMapping.mk mapping_id gesture_name gesture_type
             action true 0 (Some []) now "" 0)) /\
  (~ accepted -> r = (None, mappings)).
Proof.
  unfold add_mapping.
  destruct (validate_action types_config now action) as [is_valid msg].
  cbn [fst]. split.
  - intros [-> Hnone]. cbn [negb]. rewrite Hnone. cbn [fst snd].
    split; [reflexivity|]. unfold get_mapping_for_gesture in *.
    apply dict_set_find; [exact Hnone|].
    unfold gesture_matches. cbn. rewrite !String.eqb_refl. reflexivity.
  - intros Hno. destruct is_valid; cbn [negb]; [|reflexivity].
    destruct (get_mapping_for_gesture gesture_name gesture_type mappings);
      [reflexivity|]. exfalso. apply Hno. split; reflexivity.
Qed.

(** Adding a mapping, removing one and recording a use all keep the rule
    that at most one enabled mapping answers for a gesture. *)
Theorem one_mapping_per_gesture_is_kept (mappings : Mappings) :
  one_mapping_per_gesture mappings ->
  (forall mapping_id gesture_name gesture_type action,
     one_mapping_per_gesture
       (snd (add_mapping types_config now mapping_id gesture_name
               gesture_type action mappings))) /\
  (forall mapping_id,
     one_mapping_per_gesture (snd (remove_mapping mapping_id mappings))) /\
  (forall mapping_id,
     one_mapping_per_gesture (record_action_usage now mapping_id mappings)).
Proof.
  intros Hone. split; [|split].
  - intros mapping_id gesture_name gesture_type action. unfold add_mapping.
    destruct (validate_action types_config now action) as [[] msg];
      cbn [negb snd]; [|exact Hone].
    destruct (get_mapping_for_gesture gesture_name gesture_type mappings)
      eqn:Hget; cbn [snd]; [exact Hone|].
    intros g t.
    pose proof (dict_set_filter _ (gesture_matches g t) mapping_id
      (GestureActionMapping.new now mapping_id gesture_name gesture_type
         action true 0 None "" "" 0) mappings) as Hlen.
    rewrite gesture_matches_new in Hlen.
    destruct (gesture_name =? g) eqn:Hg; destruct (gesture_type =? t) eqn:Ht;
      cbn [andb] in Hlen; try (specialize (Hone g t); lia).
    apply String.eqb_eq in Hg, Ht. subst g t.
    unfold get_mapping_for_gesture in Hget.
    rewrite (find_none_filter _ _ _ Hget) in Hlen. exact Hlen.
  - intros mapping_id. unfold remove_mapping.
    destruct (dict_has mapping_id mappings); cbn [negb snd]; [|exact Hone].
    intros g t. specialize (Hone g t).
    pose proof (dict_del_filter _ (gesture_matches g t) mapping_id mappings).
    lia.
  - intros mapping_id g t. specialize (Hone g t).
    now rewrite record_action_usage_filter.
Qed.


End Mappings.

(** With an id that is not in use, removing the mapping that [add_mapping]
    has just stored gives back the mappings as they were; and after
    [remove_mapping] the id is in no case among the mappings, the call
    returning whether it was. *)
Theorem remove_mapping_undoes_add (types_config : TypesConfig)
    (now mapping_id gesture_name gesture_type : string)
    (action : Action.t) (mappings : Mappings) :
  dict_has mapping_id mappings = false ->
  let added := add_mapping types_config now mapping_id gesture_name
                 gesture_type action mappings in
  fst added = Some mapping_id ->
  remove_mapping mapping_id (snd added) = (true, mappings) /\
  remove_mapping mapping_id mappings = (false, mappings).
Proof.
  intros Hfresh added Hadded. split.
  - subst added. unfold add_mapping in *.
    destruct (validate_action types_config now action) as [[] msg];
      cbn [negb fst snd] in *; [|discriminate].
    destruct (get_mapping_for_gesture gesture_name gesture_type mappings);
      cbn [fst snd] in *; [discriminate|].
    unfold remove_mapping. rewrite dict_has_dict_set. cbn [negb].
    now rewrite dict_del_dict_set.
  - unfold remove_mapping. now rewrite Hfresh.
Qed.

(** What comes back from the storage form of an action whose parameters
    object is of the class of its type: the action, dated by the clock if
    it had no date. *)
Lemma from_dict_to_dict_dated (now : string) (a : Action.t) :
  class_is_built a = true ->
  Action.from_dict now (Action.to_dict a)
  = Return (Action.new now (Action.id a) (Action.type a) (Action.subtype a)
              (Action.parameters a) (Action.name a) (Action.description a)
              (Action.enabled a) (Action.requires_confirmation a)
              (Action.timeout a) (Action.created_date a)).
Proof.
  destruct a as [i t st ps nm ds en rc tm cd]. unfold class_is_built.
  cbn [Action.type Action.parameters]. intros H.
  destruct t; destruct ps as [|p|p|p|p]; try discriminate H;
    try destruct p; reflexivity.
Qed.

(** A mapping with its two dates set, its context filters a list and an
    action that [from_dict] can build comes back unchanged from its storage
    form, whatever the clock reads. *)
Theorem mapping_from_dict_to_dict (now_action now : string)
    (m : GestureActionMapping.t) :
  class_is_built (GestureActionMapping.action m) = true ->
  Action.created_date (GestureActionMapping.action m) <> "" ->
  GestureActionMapping.created_date m <> "" ->
  GestureActionMapping.context_filters m <> None ->
  GestureActionMapping.from_dict now_action now
    (GestureActionMapping.to_dict m) = Return m.
Proof.
  destruct m as [i gn gt a en pr cf cd lu uc].
  cbn [GestureActionMapping.action GestureActionMapping.created_date
       GestureActionMapping.context_filters].
  intros Hbuilt Hadate Hdate Hcf.
  unfold GestureActionMapping.from_dict, GestureActionMapping.to_dict.
  cbn [MappingData.action MappingData.id MappingData.gesture_name
       MappingData.gesture_type MappingData.enabled MappingData.priority
       MappingData.context_filters MappingData.created_date
       MappingData.last_used MappingData.use_count
       GestureActionMapping.id GestureActionMapping.gesture_name
       GestureActionMapping.gesture_type GestureActionMapping.action
       GestureActionMapping.enabled GestureActionMapping.priority
       GestureActionMapping.context_filters
       GestureActionMapping.created_date GestureActionMapping.last_used
       GestureActionMapping.use_count].
  rewrite (from_dict_to_dict_dated now_action a Hbuilt).
  cbn [bind_outcome get_or]. unfold GestureActionMapping.new, Action.new.
  destruct (String.eqb_spec (Action.created_date a) ""); [contradiction|].
  destruct (String.eqb_spec cd ""); [contradiction|].
  destruct cf as [l|]; [|contradiction]. cbn [get_or].
  destruct a; reflexivity.
Qed.

(** The shipped policy asks for a confirmation of every application, macro
    and system action, and of a mouse or keyboard action only when the
    action itself is flagged. *)
Theorem shipped_confirmation_policy (a : Action.t) :
  requires_confirmation ACTION_TYPES_CONFIG REQUIRE_CONFIRMATION a = true <->
  Action.requires_confirmation a = true \/
  Action.type a = APPLICATION \/ Action.type a = MACRO \/
  Action.type a = SYSTEM.
Proof.
  unfold requires_confirmation.
  destruct (Action.type a), (Action.requires_confirmation a); cbn;
    intuition discriminate.
Qed.

Lemma add_mapping_outcome_witness :
  fst (add_mapping ACTION_TYPES_CONFIG Scenario.clock "map-2" "fist"
         "predefined" (Cases.type_text "hello") Cases.profile)
  = Some "map-2" /\
  add_mapping ACTION_TYPES_CONFIG Scenario.clock "map-3" "thumbs_up"
    "predefined" (Cases.type_text "hello") Cases.profile
  = (None, Cases.profile).
Proof.
  split.
  - apply (add_mapping_outcome ACTION_TYPES_CONFIG Scenario.clock "map-2"
             "fist" "predefined" (Cases.type_text "hello") Cases.profile).
    split; reflexivity.
  - apply (add_mapping_outcome ACTION_TYPES_CONFIG Scenario.clock "map-3"
             "thumbs_up" "predefined" (Cases.type_text "hello")
             Cases.profile).
    intros [_ H]. discriminate H.
Defined.

Lemma one_mapping_per_gesture_is_kept_witness :
  one_mapping_per_gesture Cases.profile /\
  one_mapping_per_gesture
    (snd (add_mapping ACTION_TYPES_CONFIG Scenario.clock "map-2" "fist"
            "predefined" (Cases.type_text "hello") Cases.profile)).
Proof.
  assert (H : one_mapping_per_gesture Cases.profile).
  { intros g t. cbn [Cases.profile map snd filter].
    destruct (gesture_matches g t Cases.thumbs_up); simpl; lia. }
  split; [exact H|].
  apply (one_mapping_per_gesture_is_kept ACTION_TYPES_CONFIG Scenario.clock
           Cases.profile H).
Defined.

Lemma remove_mapping_undoes_add_witness :
  remove_mapping "map-2"
    (snd (add_mapping ACTION_TYPES_CONFIG Scenario.clock "map-2" "fist"
            "predefined" (Cases.type_text "hello") Cases.profile))
  = (true, Cases.profile).
Proof.
  apply (remove_mapping_undoes_add ACTION_TYPES_CONFIG Scenario.clock
           "map-2" "fist" "predefined" (Cases.type_text "hello")
           Cases.profile); reflexivity.
Defined.

Lemma mapping_from_dict_to_dict_witness :
  GestureActionMapping.from_dict "later" "later"
    (GestureActionMapping.to_dict Cases.thumbs_up)
  = Return Cases.thumbs_up.
Proof.
  apply (mapping_from_dict_to_dict "later" "later" Cases.thumbs_up);
    [reflexivity|discriminate..].
Defined.

(* ================================================================== *)
(** * Reading the history *)
(* ================================================================== *)

(** [get_execution_history] is the slice [execution_history[-limit:]].
    With a limit of at least 1 it returns the newest entries, as many as
    the limit allows, in their order.  With the limit 0 it returns the
    whole history, not an empty list, and with a negative limit it drops
    the oldest entries, as many as the limit counts below zero.  After
    [clear_execution_history] it returns nothing. *)
Theorem recent_history (W : Type) (limit : Z) (s : State W) :
  let history := execution_history s in
  let recent := get_execution_history limit s in
  (1 <= limit ->
   length recent = Nat.min (length history) (Z.to_nat limit) /\
   exists older, history = (older ++ recent)%list) /\
  (limit <= 0 -> recent = skipn (Z.to_nat (- limit)) history) /\
  get_execution_history limit (clear_execution_history s) = [].
Proof.
  unfold get_execution_history, Py.slice_from.
  cbn [execution_history clear_execution_history].
  set (history := execution_history s). cbn zeta. split; [|split].
  - intros Hl.
    replace (- limit <? 0)%Z with true by (symmetry; apply Z.ltb_lt; lia).
    split.
    + rewrite length_skipn. lia.
    + exists (firstn (Z.to_nat (Z.max (Z.of_nat (length history) + - limit) 0))
                history).
      symmetry. apply firstn_skipn.
  - intros Hl.
    replace (- limit <? 0)%Z with false by (symmetry; apply Z.ltb_ge; lia).
    destruct (Z.le_gt_cases (- limit) (Z.of_nat (length history))) as [H|H].
    + now rewrite Z.min_l.
    + rewrite Z.min_r by lia. rewrite Nat2Z.id.
      rewrite !skipn_all2; [reflexivity|lia|lia].
  - apply skipn_nil.
Qed.

Lemma recent_history_witness :
  get_execution_history 0
    (_add_to_history ACTION_EXECUTION_CONFIG Scenario.click Scenario.done
       Scenario.idle)
  = [history_entry Scenario.click Scenario.done].
Proof.
  apply (recent_history unit 0
           (_add_to_history ACTION_EXECUTION_CONFIG Scenario.click
              Scenario.done Scenario.idle)).
  lia.
Defined.

(* ================================================================== *)
(** * The deny-list of keys *)
(* ================================================================== *)

(** Pressing keys: with the type and the subtype allowed by the policy, a
    key_press or key_combination passes validation exactly when no entry
    of the deny-list, in lower case, is a substring of the lower-case text
    of [str(params.keys)]; the modifiers and the text of the action are not
    consulted.  A rejection names the first entry of the list that
    occurs. *)
Theorem key_validation_iff (config : TypesConfig) (now : string)
    (a : Action.t) (p : KeyboardActionParameters.t) :
  Action.type a = KEYBOARD ->
  Action.subtype a = "key_press" \/ Action.subtype a = "key_combination" ->
  Action.parameters a = KeyboardParams p ->
  get_or false (TypeConfig.enabled (config KEYBOARD)) = true ->
  In (Action.subtype a) (get_or [] (TypeConfig.actions (config KEYBOARD))) ->
  let keys_str := Py.lower (Keys_str (KeyboardActionParameters.keys p)) in
  let dangerous_keys :=
    get_or [] (TypeConfig.dangerous_keys (config KEYBOARD)) in
  (fst (validate_action config now a) = true <->
   forall k, In k dangerous_keys ->
             Py.contains (Py.lower k) keys_str = false) /\
  (forall before k rest,
     dangerous_keys = (before ++ k :: rest)%list ->
     (forall k', In k' before ->
                 Py.contains (Py.lower k') keys_str = false) ->
     Py.contains (Py.lower k) keys_str = true ->
     validate_action config now a
     = (false, "Dangerous key combination detected: " ++ k)).
Proof.
  intros Ht Hs Hp Hen Hsub keys_str dangerous_keys.
  rewrite validate_action_passed_gates by (rewrite ?Ht; assumption).
  rewrite Ht. unfold _validate_keyboard_action. rewrite Hp.
  fold dangerous_keys. fold keys_str.
  assert (Hmem : Py.mem (Action.subtype a) ["key_press"; "key_combination"]
                 = true).
  { destruct Hs as [-> | ->]; reflexivity. }
  assert (Htext : (Action.subtype a =? "type_text") = false).
  { destruct Hs as [-> | ->]; reflexivity. }
  rewrite Hmem, Htext. cbn [andb]. split.
  - destruct (find _ dangerous_keys) as [k|] eqn:Hfind; cbn [fst].
    + split; [discriminate|]. intros H. apply find_some in Hfind.
      destruct Hfind as (Hin & Hc). rewrite (H k Hin) in Hc. discriminate.
    + split; [intros _|reflexivity]. now apply find_none_iff.
  - intros before k rest -> Hbefore Hk.
    replace (find (fun dangerous_key =>
                     Py.contains (Py.lower dangerous_key) keys_str)
               (before ++ k :: rest)%list) with (Some k); [reflexivity|].
    symmetry. clear - Hbefore Hk.
    induction before as [|b before IH]; cbn [app find].
    + now rewrite Hk.
    + rewrite (Hbefore b (or_introl eq_refl)). apply IH.
      intros k' H. apply Hbefore. now right.
Qed.

Lemma key_validation_iff_witness :
  validate_action ACTION_TYPES_CONFIG Scenario.clock
    (Cases.press ["Ctrl"; "DELETE"])
  = (false, "Dangerous key combination detected: delete").
Proof.
  pose proof (key_validation_iff ACTION_TYPES_CONFIG Scenario.clock
                (Cases.press ["Ctrl"; "DELETE"])
                (KeyboardActionParameters.mk (KeysList ["Ctrl"; "DELETE"]) ""
                   (Some []) (5 # 100))
                eq_refl (or_introl eq_refl) eq_refl eq_refl
                (or_introl eq_refl)) as H.
  cbv zeta in H. destruct H as [_ H].
  apply (H [] "delete" ["f4"; "alt+f4"; "ctrl+alt+del"]).
  - reflexivity.
  - intros k' [].
  - reflexivity.
Defined.
